(** * DPF-HCP bridge operator: reconciliation engine

    A shallow embedding of the operator's reconciliation code
    ([internal/controller/metallb/metallb.go],
    [internal/controller/hostedcluster/finalizer.go],
    [internal/controller/hostedcluster/servicepublishing.go],
    [internal/common]) together with the properties its specification
    states about it.

    Conventions of the embedding:
    - a Go pointer that may be [nil] is an [option]; a slice or map that may
      be [nil] is an [option] of a list or of a [gmap];
    - a method that mutates the object behind a pointer returns the new
      object next to its Go results;
    - the API server reached through [client.Client], the event recorder and
      the wall clock are one explicit [World], threaded through every call;
      every request and its outcome is appended to an audit log;
    - logging ([logf]) has no observable effect and is left out. *)

From Stdlib Require Import ZArith String Ascii List Lia Bool Sorted.
From stdpp Require Import base option gmap strings list.

Local Open Scope string_scope.
Local Open Scope Z_scope.

Set Warnings "-register-all".

(* ===================================================================== *)
(** ** Go values the code relies on: errors, time *)
(* ===================================================================== *)

Module Go.

(** [metav1.StatusReason] of an API status error. *)
Inductive StatusReason :=
| StatusReasonNotFound
| StatusReasonAlreadyExists
| StatusReasonConflict
| StatusReasonForbidden
| StatusReasonInternalError.

(** Go [error] values the code builds or receives. *)
Inductive error :=
| StatusError (reason : StatusReason) (msg : string) (* apierrors.StatusError *)
| NoKindMatchError (msg : string)                    (* meta.NoKindMatchError *)
| Wrapped (prefix : string) (err : error)            (* fmt.Errorf("<prefix>%w", err) *)
| ErrorString (msg : string).                        (* fmt.Errorf without %w *)

(** [err.Error()], which is also what [%v] prints. *)
Fixpoint Error (e : error) : string :=
  match e with
  | StatusError _ msg => msg
  | NoKindMatchError msg => msg
  | Wrapped prefix err => prefix +:+ Error err
  | ErrorString msg => msg
  end.

(** [time.Time] as nanoseconds on an absolute axis, 0 being the zero
    time; [time.Duration] is a signed 64-bit count of nanoseconds. *)
Definition Time := Z.
Definition Duration := Z.

Definition minDuration : Duration := - 2 ^ 63.
Definition maxDuration : Duration := 2 ^ 63 - 1.

Definition Nanosecond : Duration := 1.
Definition Second : Duration := 1000000000 * Nanosecond.
Definition Minute : Duration := 60 * Second.

(** [t.Sub(u)]: the difference, saturated to the range of [Duration]. *)
Definition Sub (t u : Time) : Duration :=
  let d := t - u in
  if d <? minDuration then minDuration
  else if maxDuration <? d then maxDuration
  else d.

Definition IsZero (t : Time) : bool := t =? 0.

(** How a call ends: it returns, or the goroutine panics. *)
Inductive outcome (A : Type) :=
| Returns (a : A)
| Panics.
Arguments Returns {A} a.
Arguments Panics {A}.

End Go.

(* ===================================================================== *)
(** ** apimachinery: object metadata and status conditions *)
(* ===================================================================== *)

Module metav1.

Record ObjectMeta := mkObjectMeta {
  Name : string;
  Namespace : string;
  Labels : option (gmap string string);
  ResourceVersion : Z;
  Generation : Z;
  DeletionTimestamp : option Go.Time;
  Finalizers : list string
}.

Inductive ConditionStatus := ConditionTrue | ConditionFalse | ConditionUnknown.

Record Condition := mkCondition {
  Type_ : string;
  Status : ConditionStatus;
  ObservedGeneration : Z;
  LastTransitionTime : Go.Time;
  Reason : string;
  Message : string
}.

Definition ConditionStatus_eqb (a b : ConditionStatus) : bool :=
  match a, b with
  | ConditionTrue, ConditionTrue
  | ConditionFalse, ConditionFalse
  | ConditionUnknown, ConditionUnknown => true
  | _, _ => false
  end.

End metav1.

Module apierrors.
Import Go.

(** [ReasonForError]: the reason of the first status error on the
    [Unwrap] chain. *)
Fixpoint ReasonForError (e : error) : option StatusReason :=
  match e with
  | StatusError r _ => Some r
  | Wrapped _ err => ReasonForError err
  | _ => None
  end.

Definition IsNotFound (e : error) : bool :=
  match ReasonForError e with
  | Some StatusReasonNotFound => true
  | _ => false
  end.

End apierrors.

Module meta.
Import Go metav1.

(** [meta.IsNoMatchError]: some error on the chain is a
    [NoKindMatchError]. *)
Fixpoint IsNoMatchError (e : error) : bool :=
  match e with
  | NoKindMatchError _ => true
  | Wrapped _ err => IsNoMatchError err
  | _ => false
  end.

Fixpoint FindStatusCondition (conditions : list Condition) (conditionType : string)
  : option Condition :=
  match conditions with
  | [] => None
  | c :: rest =>
      if String.eqb (Type_ c) conditionType then Some c
      else FindStatusCondition rest conditionType
  end.

(** The in-place update [SetStatusCondition] applies to the entry it
    found; [now] is the reading of [time.Now()] it falls back to. *)
Definition mergeCondition (now : Time) (existing newCondition : Condition)
  : Condition * bool :=
  let statusChanged := negb (ConditionStatus_eqb (Status existing) (Status newCondition)) in
  let reasonChanged := negb (String.eqb (Reason existing) (Reason newCondition)) in
  let messageChanged := negb (String.eqb (Message existing) (Message newCondition)) in
  let generationChanged :=
    negb (ObservedGeneration existing =? ObservedGeneration newCondition) in
  ({| Type_ := Type_ existing;
      Status := Status newCondition;
      ObservedGeneration := ObservedGeneration newCondition;
      LastTransitionTime :=
        if statusChanged then
          (if negb (IsZero (LastTransitionTime newCondition))
           then LastTransitionTime newCondition else now)
        else LastTransitionTime existing;
      Reason := Reason newCondition;
      Message := Message newCondition |},
   statusChanged || reasonChanged || messageChanged || generationChanged).

(** [meta.SetStatusCondition(&conditions, newCondition)]: the new slice
    and the [changed] result.  The first entry of the type is updated in
    place; a missing one is appended. *)
Fixpoint SetStatusCondition (now : Time) (conditions : list Condition)
         (newCondition : Condition) : list Condition * bool :=
  match conditions with
  | [] =>
      ([ {| Type_ := Type_ newCondition;
            Status := Status newCondition;
            ObservedGeneration := ObservedGeneration newCondition;
            LastTransitionTime :=
              if IsZero (LastTransitionTime newCondition) then now
              else LastTransitionTime newCondition;
            Reason := Reason newCondition;
            Message := Message newCondition |} ], true)
  | c :: rest =>
      if String.eqb (Type_ c) (Type_ newCondition) then
        let '(c', changed) := mergeCondition now c newCondition in
        (c' :: rest, changed)
      else
        let '(rest', changed) := SetStatusCondition now rest newCondition in
        (c :: rest', changed)
  end.

End meta.

(* ===================================================================== *)
(** ** reflect: the values [reflect.DeepEqual] walks *)
(* ===================================================================== *)

Module reflect.
Import Go.

(** A Go value as reflection sees it.  A pointer is [nil] or its pointee,
    a slice is [nil] or its elements, a map is [nil] or its entries taken
    in key order (so that two maps with the same entries have the same
    representation).  Floats, functions, channels and cyclic values do
    not occur in the resource types of this operator. *)
Inductive Value :=
| VBool (b : bool)
| VInt (n : Z)
| VString (s : string)
| VPtr (p : option Value)
| VSlice (s : option (list Value))
| VMap (m : option (list (string * Value)))
| VStruct (fields : list (string * Value)).

(** [reflect.DeepEqual]: values of different shape (type) differ; basic
    values use [==]; pointers are equal when both are nil or their
    pointees are deeply equal; slices and maps when both are nil or both
    are not and they agree entry by entry; structs field by field. *)
Fixpoint DeepEqual (x y : Value) {struct x} : bool :=
  match x, y with
  | VBool a, VBool b => Bool.eqb a b
  | VInt a, VInt b => a =? b
  | VString a, VString b => String.eqb a b
  | VPtr None, VPtr None => true
  | VPtr (Some a), VPtr (Some b) => DeepEqual a b
  | VSlice None, VSlice None => true
  | VSlice (Some xs), VSlice (Some ys) =>
      (fix elems (xs ys : list Value) {struct xs} : bool :=
         match xs, ys with
         | [], [] => true
         | a :: xs', b :: ys' => DeepEqual a b && elems xs' ys'
         | _, _ => false
         end) xs ys
  | VMap None, VMap None => true
  | VMap (Some xs), VMap (Some ys) =>
      (fix entries (xs ys : list (string * Value)) {struct xs} : bool :=
         match xs, ys with
         | [], [] => true
         | (k, a) :: xs', (k', b) :: ys' =>
             String.eqb k k' && DeepEqual a b && entries xs' ys'
         | _, _ => false
         end) xs ys
  | VStruct xs, VStruct ys =>
      (fix fields (xs ys : list (string * Value)) {struct xs} : bool :=
         match xs, ys with
         | [], [] => true
         | (k, a) :: xs', (k', b) :: ys' =>
             String.eqb k k' && DeepEqual a b && fields xs' ys'
         | _, _ => false
         end) xs ys
  | _, _ => false
  end.

Fixpoint lookupField (fields : list (string * Value)) (name : string) : option Value :=
  match fields with
  | [] => None
  | (k, v) :: rest => if String.eqb k name then Some v else lookupField rest name
  end.

(** [v.FieldByName(name)]: panics unless [v] is a struct; the result is
    the field, or the invalid (zero) [reflect.Value] when there is none. *)
Definition FieldByName (v : Value) (name : string) : outcome (option Value) :=
  match v with
  | VStruct fields => Returns (lookupField fields name)
  | _ => Panics
  end.

(** [reflect.ValueOf(p).Elem()] for a non-nil [p : *T]. *)
Class Reflectable (T : Type) := ValueOf : T -> Value.

End reflect.

(* ===================================================================== *)
(** ** internal/common *)
(* ===================================================================== *)

Module common.
Import Go reflect.

Definition DPFHCPBridgeName : string := "dpfhcpbridge".
Definition LabelDPFHCPBridgeName : string := "dpfhcpbridge.dpu.hcp.io/name".
Definition LabelDPFHCPBridgeNamespace : string := "dpfhcpbridge.dpu.hcp.io/namespace".
Definition OpenshiftOperatorsNamespace : string := "openshift-operators".

(** [ResourceNeedsUpdate[T any](existing, desired *T) bool]. *)
Definition ResourceNeedsUpdate {T : Type} `{Reflectable T}
           (existing desired : option T) : outcome bool :=
  match existing, desired with
  | None, None => Returns false            (* existing != desired, both nil *)
  | None, Some _ | Some _, None => Returns true
  | Some e, Some d =>
      let existingVal := ValueOf e in
      let desiredVal := ValueOf d in
      match FieldByName existingVal "Spec" with
      | Panics => Panics
      | Returns existingSpec =>
          match FieldByName desiredVal "Spec" with
          | Panics => Panics
          | Returns desiredSpec =>
              match existingSpec, desiredSpec with
              | Some es, Some ds => Returns (negb (DeepEqual es ds))
              | _, _ => Returns false
              end
          end
      end
  end.

End common.

(* ===================================================================== *)
(** ** Resource types *)
(* ===================================================================== *)

(** How the resource types reflect.  Maps reflect to their entries in the
    canonical order of [map_to_list]. *)
Module Reflection.
Import reflect metav1.

Definition ofStrings (s : option (list string)) : Value :=
  VSlice (fmap (M := option) (map VString) s).

Definition ofStringMap (m : option (gmap string string)) : Value :=
  VMap (fmap (M := option)
          (fun m => map (fun kv : string * string => (kv.1, VString kv.2)) (map_to_list m)) m).

Definition ofTime (t : option Go.Time) : Value :=
  VPtr (fmap (M := option) VInt t).

#[export] Instance ObjectMeta_Reflectable : Reflectable ObjectMeta := fun m =>
  VStruct [ ("Name", VString (Name m));
            ("Namespace", VString (Namespace m));
            ("Labels", ofStringMap (Labels m));
            ("ResourceVersion", VInt (ResourceVersion m));
            ("Generation", VInt (Generation m));
            ("DeletionTimestamp", ofTime (DeletionTimestamp m));
            ("Finalizers", ofStrings (Some (Finalizers m))) ].

End Reflection.

(** [go.universe.tf/metallb/api/v1beta1]: the two MetalLB kinds the
    operator manages. *)
Module metallbv1beta1.
Import reflect metav1 Reflection.

Record LabelSelectorRequirement := mkLabelSelectorRequirement {
  Key : string;
  Operator : string;
  Values : option (list string)
}.

Record LabelSelector := mkLabelSelector {
  MatchLabels : option (gmap string string);
  MatchExpressions : option (list LabelSelectorRequirement)
}.

Record ServiceAllocation := mkServiceAllocation {
  Priority : Z;
  Namespaces : option (list string);
  NamespaceSelectors : option (list LabelSelector);
  ServiceSelectors : option (list LabelSelector)
}.

Record IPAddressPoolSpec := mkIPAddressPoolSpec {
  Addresses : option (list string);
  AutoAssign : option bool;
  AvoidBuggyIPs : bool;
  AllocateTo : option ServiceAllocation
}.

Record IPAddressPool := mkIPAddressPool {
  pool_ObjectMeta : ObjectMeta;
  pool_Spec : IPAddressPoolSpec
}.

Record L2AdvertisementSpec := mkL2AdvertisementSpec {
  IPAddressPools : option (list string);
  IPAddressPoolSelectors : option (list LabelSelector);
  NodeSelectors : option (list LabelSelector);
  Interfaces : option (list string)
}.

Record L2Advertisement := mkL2Advertisement {
  l2_ObjectMeta : ObjectMeta;
  l2_Spec : L2AdvertisementSpec
}.

Definition ofRequirement (r : LabelSelectorRequirement) : Value :=
  VStruct [ ("Key", VString (Key r));
            ("Operator", VString (Operator r));
            ("Values", ofStrings (Values r)) ].

Definition ofSelector (s : LabelSelector) : Value :=
  VStruct [ ("MatchLabels", ofStringMap (MatchLabels s));
            ("MatchExpressions",
             VSlice (fmap (M := option) (map ofRequirement) (MatchExpressions s))) ].

Definition ofSelectors (s : option (list LabelSelector)) : Value :=
  VSlice (fmap (M := option) (map ofSelector) s).

Definition ofAllocation (a : ServiceAllocation) : Value :=
  VStruct [ ("Priority", VInt (Priority a));
            ("Namespaces", ofStrings (Namespaces a));
            ("NamespaceSelectors", ofSelectors (NamespaceSelectors a));
            ("ServiceSelectors", ofSelectors (ServiceSelectors a)) ].

Definition ofPoolSpec (s : IPAddressPoolSpec) : Value :=
  VStruct [ ("Addresses", ofStrings (Addresses s));
            ("AutoAssign", VPtr (fmap (M := option) VBool (AutoAssign s)));
            ("AvoidBuggyIPs", VBool (AvoidBuggyIPs s));
            ("AllocateTo", VPtr (fmap (M := option) ofAllocation (AllocateTo s))) ].

Definition ofL2Spec (s : L2AdvertisementSpec) : Value :=
  VStruct [ ("IPAddressPools", ofStrings (IPAddressPools s));
            ("IPAddressPoolSelectors", ofSelectors (IPAddressPoolSelectors s));
            ("NodeSelectors", ofSelectors (NodeSelectors s));
            ("Interfaces", ofStrings (Interfaces s)) ].

#[export] Instance IPAddressPool_Reflectable : Reflectable IPAddressPool := fun p =>
  VStruct [ ("ObjectMeta", ValueOf (pool_ObjectMeta p));
            ("Spec", ofPoolSpec (pool_Spec p)) ].

#[export] Instance L2Advertisement_Reflectable : Reflectable L2Advertisement := fun a =>
  VStruct [ ("ObjectMeta", ValueOf (l2_ObjectMeta a));
            ("Spec", ofL2Spec (l2_Spec a)) ].

End metallbv1beta1.

(** [github.com/openshift/hypershift/api/hypershift/v1beta1]: the service
    publishing types and the names of the hosted-cluster services. *)
Module hyperv1.

Definition ServiceType := string.
Definition APIServer : ServiceType := "APIServer".
Definition OAuthServer : ServiceType := "OAuthServer".
Definition OIDC : ServiceType := "OIDC".
Definition Konnectivity : ServiceType := "Konnectivity".
Definition Ignition : ServiceType := "Ignition".

Inductive PublishingStrategyType := LoadBalancer | NodePort | Route.

Record NodePortPublishingStrategy := mkNodePortPublishingStrategy {
  Address : string
}.

Record ServicePublishingStrategy := mkServicePublishingStrategy {
  Type_ : PublishingStrategyType;
  NodePort_ : option NodePortPublishingStrategy
}.

Record ServicePublishingStrategyMapping := mkServicePublishingStrategyMapping {
  Service : ServiceType;
  Strategy : ServicePublishingStrategy
}.

End hyperv1.

(** [api/v1alpha1]: the parent object.  The package is declared outside
    the files at hand; the records below hold the fields the controllers
    read and write (identity, generation, deletion marker, finalizers,
    [Spec.VirtualIP], [Status.Phase], [Status.Conditions]). *)
Module provisioningv1alpha1.
Import metav1.

(** Modelled from the spec: the two condition types, constants of
    [api/v1alpha1].  Each stands for "a condition entry for a given type";
    the constant's name is taken as its value, and no property below
    depends on the strings. *)
Definition MetalLBConfigured : string := "MetalLBConfigured".
Definition HostedClusterCleanup : string := "HostedClusterCleanup".

Record DPFHCPBridgeSpec := mkDPFHCPBridgeSpec {
  VirtualIP : string;
  ExposeThroughLoadBalancer : bool
}.

Record DPFHCPBridgeStatus := mkDPFHCPBridgeStatus {
  Phase : string;
  Conditions : list Condition
}.

Record DPFHCPBridge := mkDPFHCPBridge {
  ObjectMeta_ : ObjectMeta;
  Spec : DPFHCPBridgeSpec;
  Status_ : DPFHCPBridgeStatus
}.

(** Modelled from the spec: [ShouldExposeThroughLoadBalancer], a method
    of the parent type declared outside the files at hand.  The spec only
    says that the parent "requests exposure via a load-balancer"; the
    request is a flag of the parent's spec here. *)
Definition ShouldExposeThroughLoadBalancer (b : DPFHCPBridge) : bool :=
  ExposeThroughLoadBalancer (Spec b).

Definition withConditions (b : DPFHCPBridge) (cs : list Condition) : DPFHCPBridge :=
  {| ObjectMeta_ := ObjectMeta_ b;
     Spec := Spec b;
     Status_ := {| Phase := Phase (Status_ b); Conditions := cs |} |}.

End provisioningv1alpha1.

(** The other kinds the finalizer reads and deletes; the operator only
    looks at their metadata. *)
Module corev1.
Record Secret := mkSecret { secret_ObjectMeta : metav1.ObjectMeta }.
End corev1.

Module hyperv1objects.
Record HostedCluster := mkHostedCluster { hc_ObjectMeta : metav1.ObjectMeta }.
Record NodePool := mkNodePool { np_ObjectMeta : metav1.ObjectMeta }.
End hyperv1objects.

(* ===================================================================== *)
(** ** The world outside: API server, event recorder, clock *)
(* ===================================================================== *)

Module client.
Import Go metav1 metallbv1beta1 provisioningv1alpha1 corev1 hyperv1objects.

Inductive Kind :=
| KindIPAddressPool
| KindL2Advertisement
| KindHostedCluster
| KindNodePool
| KindSecret
| KindDPFHCPBridge.

(** [types.NamespacedName] / [client.ObjectKey], as (namespace, name). *)
Abbreviation ObjectKey := (string * string)%type.

(** An object on the wire. *)
Inductive Object :=
| OIPAddressPool (p : IPAddressPool)
| OL2Advertisement (a : L2Advertisement)
| OHostedCluster (h : HostedCluster)
| ONodePool (n : NodePool)
| OSecret (s : Secret)
| ODPFHCPBridge (b : DPFHCPBridge).

Inductive Request :=
| ReqGet (k : Kind) (key : ObjectKey)
| ReqCreate (o : Object)
| ReqUpdate (o : Object)
| ReqDelete (k : Kind) (key : ObjectKey)
| ReqStatusUpdate (o : Object).

(** [recorder.Event(object, eventtype, reason, message)]. *)
Record Event := mkEvent {
  InvolvedObject : ObjectKey;
  EventType : string;
  EventReason : string;
  EventMessage : string
}.

Record Store := mkStore {
  pools : gmap ObjectKey IPAddressPool;
  l2advertisements : gmap ObjectKey L2Advertisement;
  hostedClusters : gmap ObjectKey HostedCluster;
  nodePools : gmap ObjectKey NodePool;
  secrets : gmap ObjectKey Secret;
  bridges : gmap ObjectKey DPFHCPBridge
}.

(** The state every call runs against.  [faults] lets the API server
    refuse a request with any error (unreachable server, conflict, kind
    not installed, a delete racing with another actor, ...); a request
    that is not refused is served from [store].  [calls] is the audit
    log: each request in order, with the error it got, if any.  [now] is
    what the clock shows: one invocation is taken to run within a single
    reading of the clock. *)
Record World := mkWorld {
  store : Store;
  faults : Request -> option error;
  now : Time;
  calls : list (Request * option error);
  events : list Event
}.

(** A computation against the world: it returns a value or panics, in
    the world it leaves behind. *)
Definition M (A : Type) : Type := World -> outcome A * World.

Definition ret {A} (a : A) : M A := fun w => (Returns a, w).
Definition bind {A B} (m : M A) (k : A -> M B) : M B :=
  fun w =>
    match m w with
    | (Returns a, w') => k a w'
    | (Panics, w') => (Panics, w')
    end.
Definition panic {A} : M A := fun w => (Panics, w).

Inductive result (A : Type) :=
| Ok (a : A)
| Err (e : error).
Arguments Ok {A} a.
Arguments Err {A} e.

Definition withStore (s : Store) (w : World) : World :=
  {| store := s; faults := faults w; now := now w; calls := calls w; events := events w |}.

Definition logCall (r : Request) (e : option error) (w : World) : World :=
  {| store := store w; faults := faults w; now := now w;
     calls := calls w ++ [(r, e)]; events := events w |}.

(** [time.Now()] / [metav1.Now()]. *)
Definition Now : M Time := fun w => (Returns (now w), w).

Definition RecordEvent (obj : ObjectKey) (eventtype reason message : string) : M unit :=
  fun w => (Returns tt, {| store := store w; faults := faults w; now := now w; calls := calls w;
                   events := events w ++ [mkEvent obj eventtype reason message] |}).

Definition setMeta_ResourceVersion (rv : Z) (m : ObjectMeta) : ObjectMeta :=
  {| Name := Name m; Namespace := Namespace m; Labels := Labels m;
     ResourceVersion := rv; Generation := Generation m;
     DeletionTimestamp := DeletionTimestamp m; Finalizers := Finalizers m |}.

Definition setMeta_DeletionTimestamp (t : option Time) (m : ObjectMeta) : ObjectMeta :=
  {| Name := Name m; Namespace := Namespace m; Labels := Labels m;
     ResourceVersion := ResourceVersion m; Generation := Generation m;
     DeletionTimestamp := t; Finalizers := Finalizers m |}.

(** [client.Object]: what the client needs to know of a resource type. *)
Class KubeObject (T : Type) := {
  kind : Kind;
  toObject : T -> Object;
  GetObjectMeta : T -> ObjectMeta;
  SetObjectMeta : ObjectMeta -> T -> T;
  objects : Store -> gmap ObjectKey T;
  setObjects : gmap ObjectKey T -> Store -> Store
}.
Arguments kind T {_}.

#[export] Instance IPAddressPool_KubeObject : KubeObject IPAddressPool := {|
  kind := KindIPAddressPool;
  toObject := OIPAddressPool;
  GetObjectMeta := pool_ObjectMeta;
  SetObjectMeta m p := {| pool_ObjectMeta := m; pool_Spec := pool_Spec p |};
  objects := pools;
  setObjects m s :=
    {| pools := m; l2advertisements := l2advertisements s;
       hostedClusters := hostedClusters s; nodePools := nodePools s;
       secrets := secrets s; bridges := bridges s |}
|}.

#[export] Instance L2Advertisement_KubeObject : KubeObject L2Advertisement := {|
  kind := KindL2Advertisement;
  toObject := OL2Advertisement;
  GetObjectMeta := l2_ObjectMeta;
  SetObjectMeta m a := {| l2_ObjectMeta := m; l2_Spec := l2_Spec a |};
  objects := l2advertisements;
  setObjects m s :=
    {| pools := pools s; l2advertisements := m;
       hostedClusters := hostedClusters s; nodePools := nodePools s;
       secrets := secrets s; bridges := bridges s |}
|}.

#[export] Instance HostedCluster_KubeObject : KubeObject HostedCluster := {|
  kind := KindHostedCluster;
  toObject := OHostedCluster;
  GetObjectMeta := hc_ObjectMeta;
  SetObjectMeta m _ := {| hc_ObjectMeta := m |};
  objects := hostedClusters;
  setObjects m s :=
    {| pools := pools s; l2advertisements := l2advertisements s;
       hostedClusters := m; nodePools := nodePools s;
       secrets := secrets s; bridges := bridges s |}
|}.

#[export] Instance NodePool_KubeObject : KubeObject NodePool := {|
  kind := KindNodePool;
  toObject := ONodePool;
  GetObjectMeta := np_ObjectMeta;
  SetObjectMeta m _ := {| np_ObjectMeta := m |};
  objects := nodePools;
  setObjects m s :=
    {| pools := pools s; l2advertisements := l2advertisements s;
       hostedClusters := hostedClusters s; nodePools := m;
       secrets := secrets s; bridges := bridges s |}
|}.

#[export] Instance Secret_KubeObject : KubeObject Secret := {|
  kind := KindSecret;
  toObject := OSecret;
  GetObjectMeta := secret_ObjectMeta;
  SetObjectMeta m _ := {| secret_ObjectMeta := m |};
  objects := secrets;
  setObjects m s :=
    {| pools := pools s; l2advertisements := l2advertisements s;
       hostedClusters := hostedClusters s; nodePools := nodePools s;
       secrets := m; bridges := bridges s |}
|}.

#[export] Instance DPFHCPBridge_KubeObject : KubeObject DPFHCPBridge := {|
  kind := KindDPFHCPBridge;
  toObject := ODPFHCPBridge;
  GetObjectMeta := ObjectMeta_;
  SetObjectMeta m b := {| ObjectMeta_ := m; Spec := Spec b; Status_ := Status_ b |};
  objects := bridges;
  setObjects m s :=
    {| pools := pools s; l2advertisements := l2advertisements s;
       hostedClusters := hostedClusters s; nodePools := nodePools s;
       secrets := secrets s; bridges := m |}
|}.

Definition keyOf {T} `{KubeObject T} (obj : T) : ObjectKey :=
  (Namespace (GetObjectMeta obj), Name (GetObjectMeta obj)).

Definition errNotFound (key : ObjectKey) : error :=
  StatusError StatusReasonNotFound (key.2 +:+ " not found").
Definition errAlreadyExists (key : ObjectKey) : error :=
  StatusError StatusReasonAlreadyExists (key.2 +:+ " already exists").
Definition errConflict (key : ObjectKey) : error :=
  StatusError StatusReasonConflict (key.2 +:+ " has been modified").

(** [c.Get(ctx, key, &obj)]. *)
Definition Get (T : Type) `{KubeObject T} (key : ObjectKey) : M (result T) := fun w =>
  let req := ReqGet (kind T) key in
  match faults w req with
  | Some e => (Returns (Err e), logCall req (Some e) w)
  | None =>
      match objects (store w) !! key with
      | Some obj => (Returns (Ok obj), logCall req None w)
      | None => (Returns (Err (errNotFound key)), logCall req (Some (errNotFound key)) w)
      end
  end.

(** [c.Create(ctx, obj)]. *)
Definition Create {T} `{KubeObject T} (obj : T) : M (option error) := fun w =>
  let req := ReqCreate (toObject obj) in
  let key := keyOf obj in
  match faults w req with
  | Some e => (Returns (Some e), logCall req (Some e) w)
  | None =>
      match objects (store w) !! key with
      | Some _ =>
          (Returns (Some (errAlreadyExists key)), logCall req (Some (errAlreadyExists key)) w)
      | None =>
          let stored := SetObjectMeta (setMeta_ResourceVersion 1 (GetObjectMeta obj)) obj in
          (Returns None, logCall req None
                   (withStore (setObjects (<[key := stored]> (objects (store w))) (store w)) w))
      end
  end.

(** [c.Update(ctx, obj)]: refused with a conflict when the version token
    of [obj] is stale. *)
Definition Update {T} `{KubeObject T} (obj : T) : M (option error) := fun w =>
  let req := ReqUpdate (toObject obj) in
  let key := keyOf obj in
  match faults w req with
  | Some e => (Returns (Some e), logCall req (Some e) w)
  | None =>
      match objects (store w) !! key with
      | None => (Returns (Some (errNotFound key)), logCall req (Some (errNotFound key)) w)
      | Some old =>
          if ResourceVersion (GetObjectMeta old) =? ResourceVersion (GetObjectMeta obj) then
            let stored :=
              SetObjectMeta (setMeta_ResourceVersion (ResourceVersion (GetObjectMeta old) + 1)
                               (GetObjectMeta obj)) obj in
            (Returns None, logCall req None
                     (withStore (setObjects (<[key := stored]> (objects (store w))) (store w)) w))
          else (Returns (Some (errConflict key)), logCall req (Some (errConflict key)) w)
      end
  end.

(** [c.Delete(ctx, obj)]: an object with finalizers is only marked for
    deletion; one without is removed. *)
Definition Delete {T} `{KubeObject T} (obj : T) : M (option error) := fun w =>
  let key := keyOf obj in
  let req := ReqDelete (kind T) key in
  match faults w req with
  | Some e => (Returns (Some e), logCall req (Some e) w)
  | None =>
      match objects (store w) !! key with
      | None => (Returns (Some (errNotFound key)), logCall req (Some (errNotFound key)) w)
      | Some old =>
          let m := GetObjectMeta old in
          let objs :=
            match Finalizers m with
            | [] => delete key (objects (store w))
            | _ :: _ =>
                match DeletionTimestamp m with
                | Some _ => objects (store w)
                | None =>
                    <[key := SetObjectMeta (setMeta_DeletionTimestamp (Some (now w)) m) old]>
                      (objects (store w))
                end
            end in
          (Returns None, logCall req None (withStore (setObjects objs (store w)) w))
      end
  end.

(** [c.Status().Update(ctx, cr)]: only the status of the stored parent is
    replaced; on success the caller's object is refreshed from the
    response, which is the [Ok] result. *)
Definition StatusUpdate (cr : DPFHCPBridge) : M (result DPFHCPBridge) := fun w =>
  let req := ReqStatusUpdate (ODPFHCPBridge cr) in
  let key := keyOf cr in
  match faults w req with
  | Some e => (Returns (Err e), logCall req (Some e) w)
  | None =>
      match bridges (store w) !! key with
      | None => (Returns (Err (errNotFound key)), logCall req (Some (errNotFound key)) w)
      | Some old =>
          if ResourceVersion (ObjectMeta_ old) =? ResourceVersion (ObjectMeta_ cr) then
            let stored :=
              {| ObjectMeta_ :=
                   setMeta_ResourceVersion (ResourceVersion (ObjectMeta_ old) + 1)
                     (ObjectMeta_ old);
                 Spec := Spec old;
                 Status_ := Status_ cr |} in
            (Returns (Ok stored), logCall req None
                          (withStore (setObjects (<[key := stored]> (bridges (store w)))
                                        (store w)) w))
          else (Returns (Err (errConflict key)), logCall req (Some (errConflict key)) w)
      end
  end.

End client.

Declare Scope go_scope.
Delimit Scope go_scope with go.
Notation "x <- m ;; k" := (client.bind m (fun x => k))
  (at level 100, m at next level, right associativity,
   format "x  <-  m  ;;  '//' k") : go_scope.

(** [sigs.k8s.io/controller-runtime]: what a reconciliation step asks of
    the scheduler. *)
Module ctrl.
Record Result := mkResult {
  Requeue : bool;
  RequeueAfter : Go.Duration
}.
(** [ctrl.Result{}]. *)
Definition noResult : Result := {| Requeue := false; RequeueAfter := 0 |}.
End ctrl.

(* ===================================================================== *)
(** ** internal/controller/metallb/metallb.go *)
(* ===================================================================== *)

Module metallb.
Import Go metav1 reflect common metallbv1beta1 provisioningv1alpha1 client.
Local Open Scope go_scope.

(** [v, ok := m[key]] on a non-nil map. *)
Definition mapIndex (m : gmap string string) (key : string) : string * bool :=
  match m !! key with
  | Some v => (v, true)
  | None => ("", false)
  end.

(** [isOwnedByBridge]. *)
Definition isOwnedByBridge {T} `{KubeObject T} (obj : T) (bridge : DPFHCPBridge) : bool :=
  match Labels (GetObjectMeta obj) with
  | None => false
  | Some labels =>
      let '(bridgeName, hasBridgeName) := mapIndex labels LabelDPFHCPBridgeName in
      let '(bridgeNamespace, hasBridgeNamespace) :=
        mapIndex labels LabelDPFHCPBridgeNamespace in
      hasBridgeName && hasBridgeNamespace &&
      String.eqb bridgeName (Name (ObjectMeta_ bridge)) &&
      String.eqb bridgeNamespace (Namespace (ObjectMeta_ bridge))
  end.

Definition ownershipLabels (bridge : DPFHCPBridge) : gmap string string :=
  <[LabelDPFHCPBridgeNamespace := Namespace (ObjectMeta_ bridge)]>
    (<[LabelDPFHCPBridgeName := Name (ObjectMeta_ bridge)]> ∅).

(** The zero [metav1.ObjectMeta] with the three fields the builders set. *)
Definition newObjectMeta (name namespace : string) (labels : gmap string string)
  : ObjectMeta :=
  {| Name := name; Namespace := namespace; Labels := Some labels;
     ResourceVersion := 0; Generation := 0;
     DeletionTimestamp := None; Finalizers := [] |}.

(** [buildIPAddressPool]. *)
Definition buildIPAddressPool (bridge : DPFHCPBridge) : IPAddressPool :=
  {| pool_ObjectMeta :=
       newObjectMeta (Name (ObjectMeta_ bridge)) OpenshiftOperatorsNamespace
         (ownershipLabels bridge);
     pool_Spec :=
       {| Addresses := Some [ VirtualIP (Spec bridge) +:+ "/32" ];
          AllocateTo :=
            Some {| Priority := 0;
                    Namespaces := Some [ "clusters-" +:+ Name (ObjectMeta_ bridge) ];
                    NamespaceSelectors := None;
                    ServiceSelectors := None |};
          AutoAssign := Some true;
          AvoidBuggyIPs := false |} |}.

(** [buildL2Advertisement]. *)
Definition buildL2Advertisement (bridge : DPFHCPBridge) : L2Advertisement :=
  {| l2_ObjectMeta :=
       newObjectMeta ("advertise-" +:+ Name (ObjectMeta_ bridge)) OpenshiftOperatorsNamespace
         (ownershipLabels bridge);
     l2_Spec :=
       {| IPAddressPools := Some [ Name (ObjectMeta_ bridge) ];
          IPAddressPoolSelectors := None;
          NodeSelectors := None;
          Interfaces := None |} |}.

(** [setCondition]: the parent after the call (its conditions are updated
    in memory whatever the store answers) and the error. *)
Definition setCondition (bridge : DPFHCPBridge) (status : ConditionStatus)
           (reason message : string) : M (DPFHCPBridge * option error) :=
  t <- Now ;;
  let condition :=
    {| Type_ := MetalLBConfigured;
       Status := status;
       Reason := reason;
       Message := message;
       LastTransitionTime := t;
       ObservedGeneration := Generation (ObjectMeta_ bridge) |} in
  let '(conditions, changed) :=
    meta.SetStatusCondition t (Conditions (Status_ bridge)) condition in
  let bridge := withConditions bridge conditions in
  if changed then
    let eventType :=
      match status with ConditionFalse => "Warning" | _ => "Normal" end in
    let eventReason :=
      match status with
      | ConditionFalse => "MetalLBConfigurationFailed"
      | _ => "MetalLBConfigured"
      end in
    _ <- RecordEvent (keyOf bridge) eventType eventReason message ;;
    r <- StatusUpdate bridge ;;
    match r with
    | Err err => ret (bridge, Some (Wrapped "updating MetalLBConfigured condition: " err))
    | Ok bridge' => ret (bridge', None)
    end
  else ret (bridge, None).

Definition errForeignPool (existing : IPAddressPool) (bridge : DPFHCPBridge) : error :=
  ErrorString
    ("IPAddressPool " +:+ Namespace (pool_ObjectMeta existing) +:+ "/" +:+
     Name (pool_ObjectMeta existing) +:+ " exists but is not owned by DPFHCPBridge " +:+
     Namespace (ObjectMeta_ bridge) +:+ "/" +:+ Name (ObjectMeta_ bridge) +:+
     " (missing ownership labels)").

Definition errForeignL2 (existing : L2Advertisement) (bridge : DPFHCPBridge) : error :=
  ErrorString
    ("L2Advertisement " +:+ Namespace (l2_ObjectMeta existing) +:+ "/" +:+
     Name (l2_ObjectMeta existing) +:+ " exists but is not owned by DPFHCPBridge " +:+
     Namespace (ObjectMeta_ bridge) +:+ "/" +:+ Name (ObjectMeta_ bridge) +:+
     " (missing ownership labels)").

(** [ensureIPAddressPool]. *)
Definition ensureIPAddressPool (bridge : DPFHCPBridge) : M (option error) :=
  let desired := buildIPAddressPool bridge in
  r <- Get IPAddressPool (OpenshiftOperatorsNamespace, Name (ObjectMeta_ bridge)) ;;
  match r with
  | Err err =>
      if apierrors.IsNotFound err then
        e <- Create desired ;;
        match e with
        | Some err => ret (Some (Wrapped "creating IPAddressPool: " err))
        | None => ret None
        end
      else ret (Some (Wrapped "getting IPAddressPool: " err))
  | Ok existing =>
      if negb (isOwnedByBridge existing bridge) then
        ret (Some (errForeignPool existing bridge))
      else
        match ResourceNeedsUpdate (Some existing) (Some desired) with
        | Panics => panic
        | Returns true =>
            let existing :=
              {| pool_ObjectMeta := pool_ObjectMeta existing;
                 pool_Spec := pool_Spec desired |} in
            e <- Update existing ;;
            match e with
            | Some err => ret (Some (Wrapped "updating IPAddressPool: " err))
            | None =>
                _ <- RecordEvent (keyOf bridge) "Normal" "MetalLBDriftCorrected"
                       ("Corrected spec drift in IPAddressPool " +:+
                        Name (pool_ObjectMeta existing)) ;;
                ret None
            end
        | Returns false => ret None
        end
  end.

(** [ensureL2Advertisement]. *)
Definition ensureL2Advertisement (bridge : DPFHCPBridge) : M (option error) :=
  let desired := buildL2Advertisement bridge in
  r <- Get L2Advertisement
         (OpenshiftOperatorsNamespace, "advertise-" +:+ Name (ObjectMeta_ bridge)) ;;
  match r with
  | Err err =>
      if apierrors.IsNotFound err then
        e <- Create desired ;;
        match e with
        | Some err => ret (Some (Wrapped "creating L2Advertisement: " err))
        | None => ret None
        end
      else ret (Some (Wrapped "getting L2Advertisement: " err))
  | Ok existing =>
      if negb (isOwnedByBridge existing bridge) then
        ret (Some (errForeignL2 existing bridge))
      else
        match ResourceNeedsUpdate (Some existing) (Some desired) with
        | Panics => panic
        | Returns true =>
            let existing :=
              {| l2_ObjectMeta := l2_ObjectMeta existing;
                 l2_Spec := l2_Spec desired |} in
            e <- Update existing ;;
            match e with
            | Some err => ret (Some (Wrapped "updating L2Advertisement: " err))
            | None =>
                _ <- RecordEvent (keyOf bridge) "Normal" "MetalLBDriftCorrected"
                       ("Corrected spec drift in L2Advertisement " +:+
                        Name (l2_ObjectMeta existing)) ;;
                ret None
            end
        | Returns false => ret None
        end
  end.

(** [ConfigureMetalLB]: the parent after the call, the result and the
    error. *)
Definition ConfigureMetalLB (bridge : DPFHCPBridge)
  : M (DPFHCPBridge * ctrl.Result * option error) :=
  if negb (ShouldExposeThroughLoadBalancer bridge) then
    ret (bridge, ctrl.noResult, None)
  else
    e <- ensureIPAddressPool bridge ;;
    match e with
    | Some err =>
        r <- setCondition bridge ConditionFalse "CreatingIPAddressPool"
               ("Failed to create/update IPAddressPool: " +:+ Error err) ;;
        ret (r.1, ctrl.noResult, Some err)
    | None =>
        e <- ensureL2Advertisement bridge ;;
        match e with
        | Some err =>
            r <- setCondition bridge ConditionFalse "L2AdvertisementFailed"
                   ("Failed to create/update L2Advertisement: " +:+ Error err) ;;
            ret (r.1, ctrl.noResult, Some err)
        | None =>
            r <- setCondition bridge ConditionTrue "MetalLBReady"
                   "MetalLB configured successfully" ;;
            match r.2 with
            | Some err => ret (r.1, ctrl.noResult, Some err)
            | None => ret (r.1, ctrl.noResult, None)
            end
        end
    end.

End metallb.

(* ===================================================================== *)
(** ** internal/controller/hostedcluster *)
(* ===================================================================== *)

(** [sort.Slice] on a slice of at most 12 elements is an insertion sort:
    each element in turn is swapped leftwards while it is less than its
    left neighbour. *)
Module sort.

Section Insertion.
Context {A : Type} (less : A -> A -> bool).

(** [sorted] is the part already in order, nearest neighbour first. *)
Fixpoint sink (x : A) (sorted : list A) : list A :=
  match sorted with
  | [] => [x]
  | y :: rest => if less x y then y :: sink x rest else x :: sorted
  end.

Definition Slice (data : list A) : list A :=
  rev (fold_left (fun sorted x => sink x sorted) data []).
End Insertion.

End sort.

Module hostedcluster.
Import Go metav1 provisioningv1alpha1 client corev1 hyperv1objects.
Local Open Scope go_scope.

(* ------------------------------------------------------------------- *)
(** *** servicepublishing.go *)

Import hyperv1.

(** [BuildServicePublishingStrategy]. *)
Definition BuildServicePublishingStrategy (exposeThroughLoadBalancer : bool)
           (nodeAddress : string) : list ServicePublishingStrategyMapping :=
  if exposeThroughLoadBalancer then
    [ {| Service := APIServer;
         Strategy := {| Type_ := LoadBalancer; NodePort_ := None |} |};
      {| Service := OAuthServer;
         Strategy := {| Type_ := Route; NodePort_ := None |} |};
      {| Service := Konnectivity;
         Strategy := {| Type_ := Route; NodePort_ := None |} |};
      {| Service := Ignition;
         Strategy := {| Type_ := Route; NodePort_ := None |} |} ]
  else
    let services := [ APIServer; OAuthServer; OIDC; Konnectivity; Ignition ] in
    let result :=
      map (fun service =>
             {| Service := service;
                Strategy := {| Type_ := NodePort;
                               NodePort_ := Some {| Address := nodeAddress |} |} |})
          services in
    sort.Slice (fun i j => String.ltb (Service i) (Service j)) result.

(* ------------------------------------------------------------------- *)
(** *** finalizer.go *)

Definition DeletionTimeout : Duration := 30 * Minute.
Definition DeletionRequeueInterval : Duration := 10 * Second.

(** [deleteResource]: [T] is the type of the empty object the caller
    passes in, [resourceKind] its name in messages. *)
Definition deleteResource (T : Type) `{KubeObject T} (cr : DPFHCPBridge)
           (resourceKind : string) : M (bool * option error) :=
  let key := (Namespace (ObjectMeta_ cr), Name (ObjectMeta_ cr)) in
  r <- Get T key ;;
  match r with
  | Err err =>
      if apierrors.IsNotFound err then ret (true, None)
      else if meta.IsNoMatchError err then ret (true, None)
      else ret (false, Some (Wrapped ("failed to get " +:+ resourceKind +:+ ": ") err))
  | Ok obj =>
      match DeletionTimestamp (GetObjectMeta obj) with
      | None =>
          e <- Delete obj ;;
          match e with
          | Some err =>
              if apierrors.IsNotFound err then ret (true, None)
              else ret (false,
                        Some (Wrapped ("failed to delete " +:+ resourceKind +:+ ": ") err))
          | None => ret (false, None)
          end
      | Some deletionTimestamp =>
          _ <- Now ;;   (* time.Since, for the log line only *)
          ret (false, None)
      end
  end.

(** [deleteSecret]. *)
Definition deleteSecret (namespace secretName : string) : M (option error) :=
  r <- Get Secret (namespace, secretName) ;;
  match r with
  | Err err =>
      if apierrors.IsNotFound err then ret None
      else ret (Some (Wrapped ("failed to get secret " +:+ secretName +:+ ": ") err))
  | Ok secret =>
      e <- Delete secret ;;
      match e with
      | Some err =>
          if apierrors.IsNotFound err then ret None
          else ret (Some (Wrapped ("failed to delete secret " +:+ secretName +:+ ": ") err))
      | None => ret None
      end
  end.

(** The [for _, secretName := range secretNames] loop of [deleteSecrets]. *)
Fixpoint deleteSecretsLoop (namespace : string) (secretNames : list string)
  : M (option error) :=
  match secretNames with
  | [] => ret None
  | secretName :: rest =>
      e <- deleteSecret namespace secretName ;;
      match e with
      | Some err => ret (Some err)
      | None => deleteSecretsLoop namespace rest
      end
  end.

Definition secretNamesOf (cr : DPFHCPBridge) : list string :=
  [ Name (ObjectMeta_ cr) +:+ "-pull-secret";
    Name (ObjectMeta_ cr) +:+ "-ssh-key";
    Name (ObjectMeta_ cr) +:+ "-etcd-encryption-key" ].

(** [deleteSecrets]. *)
Definition deleteSecrets (cr : DPFHCPBridge) : M (option error) :=
  deleteSecretsLoop (Namespace (ObjectMeta_ cr)) (secretNamesOf cr).

(** [GetDeletionElapsedTime]. *)
Definition GetDeletionElapsedTime (deletionTimestamp : option Time) : M Duration :=
  match deletionTimestamp with
  | None => ret 0
  | Some t => n <- Now ;; ret (Sub n t)
  end.

(** [IsDeletionTimeoutExceeded]. *)
Definition IsDeletionTimeoutExceeded (deletionTimestamp : option Time) : M bool :=
  elapsed <- GetDeletionElapsedTime deletionTimestamp ;;
  ret (DeletionTimeout <? elapsed).

(** [meta.SetStatusCondition(&cr.Status.Conditions, ...)] as the finalizer
    calls it: the [changed] result is dropped. *)
Definition setCleanupCondition (cr : DPFHCPBridge) (status : ConditionStatus)
           (reason message : string) : M DPFHCPBridge :=
  t <- Now ;;
  ret (withConditions cr
         (meta.SetStatusCondition t (Conditions (Status_ cr))
            {| metav1.Type_ := HostedClusterCleanup;
               Status := status;
               Reason := reason;
               Message := message;
               LastTransitionTime := t;
               ObservedGeneration := 0 |}).1).

Section Finalizer.
(** [time.Duration.String], which [%v] prints in the timeout message. *)
Variable durationString : Duration -> string.

(** [HandleFinalizerCleanup]: the parent after the call, the result and
    the error. *)
Definition HandleFinalizerCleanup (cr : DPFHCPBridge)
  : M (DPFHCPBridge * ctrl.Result * option error) :=
  cr <- setCleanupCondition cr ConditionFalse "CleanupInProgress"
          "Deleting HostedCluster and associated resources" ;;
  r <- StatusUpdate cr ;;
  match r with
  | Err err => ret (cr, ctrl.noResult, Some err)
  | Ok cr =>
      match DeletionTimestamp (ObjectMeta_ cr) with
      | None => ret (cr, ctrl.noResult, Some (ErrorString "deletionTimestamp is nil"))
      | Some deletionTimestamp =>
          n <- Now ;;
          let elapsedTime := Sub n deletionTimestamp in
          if DeletionTimeout <? elapsedTime then
            cr <- setCleanupCondition cr ConditionFalse "CleanupTimeout"
                    ("HostedCluster deletion timeout exceeded after " +:+
                     durationString elapsedTime) ;;
            r <- StatusUpdate cr ;;
            let cr := match r with Ok cr' => cr' | Err _ => cr end in
            ret (cr, ctrl.noResult, None)
          else
            hc <- deleteResource HostedCluster cr "HostedCluster" ;;
            match hc with
            | (_, Some err) => ret (cr, ctrl.noResult, Some err)
            | (false, None) =>
                ret (cr, {| ctrl.Requeue := false;
                            ctrl.RequeueAfter := DeletionRequeueInterval |}, None)
            | (true, None) =>
                np <- deleteResource NodePool cr "NodePool" ;;
                match np with
                | (_, Some err) => ret (cr, ctrl.noResult, Some err)
                | (false, None) =>
                    ret (cr, {| ctrl.Requeue := false;
                                ctrl.RequeueAfter := DeletionRequeueInterval |}, None)
                | (true, None) =>
                    e <- deleteSecrets cr ;;
                    match e with
                    | Some err => ret (cr, ctrl.noResult, Some err)
                    | None =>
                        cr <- setCleanupCondition cr ConditionTrue "CleanupSucceeded"
                                "HostedCluster and associated resources deleted successfully" ;;
                        r <- StatusUpdate cr ;;
                        match r with
                        | Err err => ret (cr, ctrl.noResult, Some err)
                        | Ok cr => ret (cr, ctrl.noResult, None)
                        end
                    end
                end
            end
      end
  end.
End Finalizer.

End hostedcluster.

(* ===================================================================== *)
(** ** Sample objects and worlds *)
(* ===================================================================== *)

(** A parent [P] in namespace [N], the resources around it and a few
    worlds, for the examples that run the code. *)
Module Sample.
Import Go metav1 metallbv1beta1 provisioningv1alpha1 client corev1 hyperv1objects.

Definition noFaults : Request -> option error := fun _ => None.

Definition objectMeta (namespace name : string) (finalizers : list string) : ObjectMeta :=
  {| Name := name; Namespace := namespace; Labels := None;
     ResourceVersion := 1; Generation := 1;
     DeletionTimestamp := None; Finalizers := finalizers |}.

Definition bridgeWith (deletionTimestamp : option Time) (conditions : list Condition)
  : DPFHCPBridge :=
  {| ObjectMeta_ :=
       setMeta_DeletionTimestamp deletionTimestamp
         (objectMeta "N" "P" ["provisioning.dpu.hcp.io/finalizer"]);
     Spec := {| VirtualIP := "192.168.1.100"; ExposeThroughLoadBalancer := true |};
     Status_ := {| Phase := "Ready"; Conditions := conditions |} |}.

(** The live parent. *)
Definition bridge : DPFHCPBridge := bridgeWith None [].

(** The parent marked for deletion at time [t]. *)
Definition deleted (t : Time) : DPFHCPBridge := bridgeWith (Some t) [].

Definition hostedCluster : HostedCluster :=
  {| hc_ObjectMeta := objectMeta "N" "P" ["hypershift.openshift.io/finalizer"] |}.

Definition nodePool : NodePool :=
  {| np_ObjectMeta := objectMeta "N" "P" ["hypershift.openshift.io/finalizer"] |}.

Definition secret (name : string) : Secret :=
  {| secret_ObjectMeta := objectMeta "N" name [] |}.

(** A pool and an advertisement somebody else created under the
    operator's names: no ownership labels. *)
Definition foreignPool : IPAddressPool :=
  {| pool_ObjectMeta := objectMeta "openshift-operators" "P" [];
     pool_Spec := {| Addresses := Some ["10.0.0.0/24"]; AutoAssign := None;
                     AvoidBuggyIPs := false; AllocateTo := None |} |}.

Definition foreignL2 : L2Advertisement :=
  {| l2_ObjectMeta := objectMeta "openshift-operators" "advertise-P" [];
     l2_Spec := {| IPAddressPools := None; IPAddressPoolSelectors := None;
                   NodeSelectors := None; Interfaces := None |} |}.

(** The operator's own pool and advertisement after somebody edited their
    specs. *)
Definition driftedPool : IPAddressPool :=
  {| pool_ObjectMeta :=
       setMeta_ResourceVersion 7 (pool_ObjectMeta (metallb.buildIPAddressPool bridge));
     pool_Spec := {| Addresses := Some ["10.9.9.9/32"]; AutoAssign := Some false;
                     AvoidBuggyIPs := false; AllocateTo := None |} |}.

Definition driftedL2 : L2Advertisement :=
  {| l2_ObjectMeta :=
       setMeta_ResourceVersion 7 (l2_ObjectMeta (metallb.buildL2Advertisement bridge));
     l2_Spec := {| IPAddressPools := Some ["P"; "other"]; IPAddressPoolSelectors := None;
                   NodeSelectors := None; Interfaces := Some ["eth0"] |} |}.

Definition storeOf (parent : DPFHCPBridge) (pool : option IPAddressPool)
           (l2 : option L2Advertisement) (hc : option HostedCluster)
           (np : option NodePool) (secretNames : list string) : Store :=
  {| pools := from_option (fun p => {[ ("openshift-operators", "P") := p ]}) ∅ pool;
     l2advertisements :=
       from_option (fun a => {[ ("openshift-operators", "advertise-P") := a ]}) ∅ l2;
     hostedClusters := from_option (fun h => {[ ("N", "P") := h ]}) ∅ hc;
     nodePools := from_option (fun n => {[ ("N", "P") := n ]}) ∅ np;
     secrets := list_to_map (map (fun name => (("N", name), secret name)) secretNames);
     bridges := {[ ("N", "P") := parent ]} |}.

Definition world (s : Store) (faultPlan : Request -> option error) (t : Time) : World :=
  {| store := s; faults := faultPlan; now := t; calls := []; events := [] |}.

(** [time.Duration.String] stands for itself in the examples. *)
Definition durationString (d : Duration) : string := "30m0s".

End Sample.

(* ===================================================================== *)
(** * Properties *)
(* ===================================================================== *)

Import Go metav1 reflect common metallbv1beta1 provisioningv1alpha1 client.
Import corev1 hyperv1objects.
Local Open Scope list_scope.

(** ** Ownership guard *)

(** C8. [isOwnedByBridge] answers true exactly when the resource has a label
    map in which both ownership labels are present and equal the parent's
    name and namespace; a nil label map, a missing label or a mismatch
    gives false.  The check is a function of its two arguments to [bool]:
    it runs outside the world monad and returns nothing but the answer. *)
Theorem isOwnedByBridge_iff {T : Type} `{KubeObject T} (obj : T) (bridge : DPFHCPBridge) :
  (metallb.isOwnedByBridge obj bridge = true <->
   exists labels : gmap string string,
     Labels (GetObjectMeta obj) = Some labels /\
     labels !! LabelDPFHCPBridgeName = Some (Name (ObjectMeta_ bridge)) /\
     labels !! LabelDPFHCPBridgeNamespace = Some (Namespace (ObjectMeta_ bridge)))
  /\ (Labels (GetObjectMeta obj) = None -> metallb.isOwnedByBridge obj bridge = false)
  /\ (forall labels : gmap string string,
        Labels (GetObjectMeta obj) = Some labels ->
        labels !! LabelDPFHCPBridgeName = None \/
        labels !! LabelDPFHCPBridgeNamespace = None ->
        metallb.isOwnedByBridge obj bridge = false)
  /\ (forall (labels : gmap string string) (n ns : string),
        Labels (GetObjectMeta obj) = Some labels ->
        labels !! LabelDPFHCPBridgeName = Some n ->
        labels !! LabelDPFHCPBridgeNamespace = Some ns ->
        (n, ns) <> (Name (ObjectMeta_ bridge), Namespace (ObjectMeta_ bridge)) ->
        metallb.isOwnedByBridge obj bridge = false).
Proof.
  assert (Hiff :
    metallb.isOwnedByBridge obj bridge = true <->
    exists labels : gmap string string,
      Labels (GetObjectMeta obj) = Some labels /\
      labels !! LabelDPFHCPBridgeName = Some (Name (ObjectMeta_ bridge)) /\
      labels !! LabelDPFHCPBridgeNamespace = Some (Namespace (ObjectMeta_ bridge))).
  { unfold metallb.isOwnedByBridge, metallb.mapIndex.
    destruct (Labels (GetObjectMeta obj)) as [labels|].
    - destruct (labels !! LabelDPFHCPBridgeName) as [n|] eqn:Hn;
        destruct (labels !! LabelDPFHCPBridgeNamespace) as [ns|] eqn:Hns; cbn.
      + rewrite andb_true_iff, !String.eqb_eq. split.
        * intros [-> ->]. exists labels. auto.
        * intros (l & Hl & Hn' & Hns'). inversion Hl; subst l.
          rewrite Hn in Hn'. rewrite Hns in Hns'.
          inversion Hn'; inversion Hns'; auto.
      + split; [discriminate|]. intros (l & Hl & _ & Hns'). inversion Hl; subst l.
        rewrite Hns in Hns'. discriminate.
      + split; [discriminate|]. intros (l & Hl & Hn' & _). inversion Hl; subst l.
        rewrite Hn in Hn'. discriminate.
      + split; [discriminate|]. intros (l & Hl & Hn' & _). inversion Hl; subst l.
        rewrite Hn in Hn'. discriminate.
    - split; [discriminate|]. intros (l & Hl & _). discriminate. }
  split; [exact Hiff|].
  repeat split.
  - intros Hnil. apply not_true_is_false. rewrite Hiff.
    intros (l & Hl & _). congruence.
  - intros labels Hl Hmiss. apply not_true_is_false. rewrite Hiff.
    intros (l & Hl' & Hn & Hns). rewrite Hl in Hl'. inversion Hl'; subst l.
    destruct Hmiss; congruence.
  - intros labels n ns Hl Hn Hns Hne. apply not_true_is_false. rewrite Hiff.
    intros (l & Hl' & Hn' & Hns'). rewrite Hl in Hl'. inversion Hl'; subst l.
    apply Hne. congruence.
Qed.

(** ** Drift detector *)

(** Induction over [Value] that reaches below pointers, slices, maps and
    structs. *)
Section ValueInduction.
Variable P : Value -> Prop.
Hypothesis HBool : forall b, P (VBool b).
Hypothesis HInt : forall n, P (VInt n).
Hypothesis HString : forall s, P (VString s).
Hypothesis HPtrNil : P (VPtr None).
Hypothesis HPtr : forall v, P v -> P (VPtr (Some v)).
Hypothesis HSliceNil : P (VSlice None).
Hypothesis HSlice : forall l, Forall P l -> P (VSlice (Some l)).
Hypothesis HMapNil : P (VMap None).
Hypothesis HMap : forall l, Forall (fun kv => P kv.2) l -> P (VMap (Some l)).
Hypothesis HStruct : forall l, Forall (fun kv => P kv.2) l -> P (VStruct l).

Fixpoint Value_nested_ind (v : Value) : P v :=
  match v with
  | VBool b => HBool b
  | VInt n => HInt n
  | VString s => HString s
  | VPtr None => HPtrNil
  | VPtr (Some p) => HPtr p (Value_nested_ind p)
  | VSlice None => HSliceNil
  | VSlice (Some l) =>
      HSlice l
        ((fix all (l : list Value) : Forall P l :=
            match l with
            | [] => List.Forall_nil P
            | x :: r => List.Forall_cons P x r (Value_nested_ind x) (all r)
            end) l)
  | VMap None => HMapNil
  | VMap (Some l) =>
      HMap l
        ((fix all (l : list (string * Value)) : Forall (fun kv => P kv.2) l :=
            match l with
            | [] => List.Forall_nil _
            | x :: r => List.Forall_cons _ x r (Value_nested_ind x.2) (all r)
            end) l)
  | VStruct l =>
      HStruct l
        ((fix all (l : list (string * Value)) : Forall (fun kv => P kv.2) l :=
            match l with
            | [] => List.Forall_nil _
            | x :: r => List.Forall_cons _ x r (Value_nested_ind x.2) (all r)
            end) l)
  end.
End ValueInduction.

Lemma DeepEqual_refl (x : Value) : DeepEqual x x = true.
Proof.
  induction x using Value_nested_ind; cbn;
    auto using Bool.eqb_reflx, Z.eqb_refl, String.eqb_refl.
  - induction H as [|a l Ha _ IH]; [reflexivity|]. now rewrite Ha, IH.
  - induction H as [|[k a] l Ha _ IH]; [reflexivity|].
    cbn in Ha. now rewrite String.eqb_refl, Ha, IH.
  - induction H as [|[k a] l Ha _ IH]; [reflexivity|].
    cbn in Ha. now rewrite String.eqb_refl, Ha, IH.
Qed.

Lemma DeepEqual_sound (x : Value) : forall y, DeepEqual x y = true -> x = y.
Proof.
  induction x using Value_nested_ind; intros y Heq; destruct y; cbn in Heq;
    try discriminate.
  - apply Bool.eqb_prop in Heq. congruence.
  - apply Z.eqb_eq in Heq. congruence.
  - apply String.eqb_eq in Heq. congruence.
  - destruct p; [discriminate | reflexivity].
  - destruct p as [y|]; [|discriminate]. now rewrite (IHx y Heq).
  - destruct s; [discriminate | reflexivity].
  - destruct s as [ys|]; [|discriminate].
    do 2 f_equal. revert ys Heq.
    induction H as [|a l Ha _ IH]; intros [|b ys] Heq; try discriminate; [reflexivity|].
    apply andb_true_iff in Heq as [Hab Hrest].
    now rewrite (Ha b Hab), (IH ys Hrest).
  - destruct m; [discriminate | reflexivity].
  - destruct m as [ys|]; [|discriminate].
    do 2 f_equal. revert ys Heq.
    induction H as [|[k a] l Ha _ IH]; intros [|[k' b] ys] Heq; try discriminate;
      [reflexivity|].
    apply andb_true_iff in Heq as [Hhead Hrest].
    apply andb_true_iff in Hhead as [Hk Hab].
    apply String.eqb_eq in Hk. cbn in Ha.
    now rewrite Hk, (Ha b Hab), (IH ys Hrest).
  - f_equal. revert fields Heq.
    induction H as [|[k a] l Ha _ IH]; intros [|[k' b] ys] Heq; try discriminate;
      [reflexivity|].
    apply andb_true_iff in Heq as [Hhead Hrest].
    apply andb_true_iff in Hhead as [Hk Hab].
    apply String.eqb_eq in Hk. cbn in Ha.
    now rewrite Hk, (Ha b Hab), (IH ys Hrest).
Qed.

(** [reflect.DeepEqual] decides structural equality of the values. *)
Lemma DeepEqual_eq (x y : Value) : DeepEqual x y = true <-> x = y.
Proof.
  split; [apply DeepEqual_sound | intros ->; apply DeepEqual_refl].
Qed.

Lemma DeepEqual_false (x y : Value) : DeepEqual x y = false <-> x <> y.
Proof.
  rewrite <- DeepEqual_eq. destruct (DeepEqual x y); split; congruence.
Qed.

(** The reflection of the two managed specs loses nothing: different specs
    reflect to different values. *)
Lemma map_injective {A B : Type} (f : A -> B) :
  (forall x y, f x = f y -> x = y) -> forall l l' : list A, map f l = map f l' -> l = l'.
Proof.
  intros Hf l. induction l as [|x l IH]; intros [|y l'] Heq; cbn in Heq;
    try discriminate; [reflexivity|].
  inversion Heq as [[Hxy Hrest]]. now rewrite (Hf _ _ Hxy), (IH _ Hrest).
Qed.

Lemma option_map_injective {A B : Type} (f : A -> B) :
  (forall x y, f x = f y -> x = y) ->
  forall o o' : option A, fmap (M := option) f o = fmap (M := option) f o' -> o = o'.
Proof.
  intros Hf [x|] [y|] Heq; cbn in Heq; try discriminate; [|reflexivity].
  inversion Heq as [Hxy]. now rewrite (Hf _ _ Hxy).
Qed.

Lemma ofStrings_inj (s s' : option (list string)) :
  Reflection.ofStrings s = Reflection.ofStrings s' -> s = s'.
Proof.
  unfold Reflection.ofStrings. intros Heq. inversion Heq as [Hs].
  revert Hs. apply option_map_injective. apply map_injective.
  intros x y Hxy. now inversion Hxy.
Qed.

Lemma ofStringMap_inj (m m' : option (gmap string string)) :
  Reflection.ofStringMap m = Reflection.ofStringMap m' -> m = m'.
Proof.
  unfold Reflection.ofStringMap. intros Heq. inversion Heq as [Hm].
  revert Hm. apply option_map_injective. intros x y Hxy.
  apply map_injective in Hxy.
  - rewrite <- (list_to_map_to_list x), <- (list_to_map_to_list y). now rewrite Hxy.
  - intros [k v] [k' v'] Hkv. cbn in Hkv. now inversion Hkv.
Qed.

Lemma ofRequirement_inj (r r' : LabelSelectorRequirement) :
  ofRequirement r = ofRequirement r' -> r = r'.
Proof.
  destruct r, r'. unfold ofRequirement. cbn. intros Heq.
  inversion Heq as [[Hk Ho Hv]].
  apply (f_equal VSlice), ofStrings_inj in Hv. now subst.
Qed.

Lemma ofSelector_inj (s s' : LabelSelector) : ofSelector s = ofSelector s' -> s = s'.
Proof.
  destruct s, s'. unfold ofSelector. cbn. intros Heq.
  inversion Heq as [[Hl He]]. apply (f_equal VMap), ofStringMap_inj in Hl.
  apply (option_map_injective _ (map_injective _ ofRequirement_inj)) in He. now subst.
Qed.

Lemma ofSelectors_inj (s s' : option (list LabelSelector)) :
  ofSelectors s = ofSelectors s' -> s = s'.
Proof.
  unfold ofSelectors. intros Heq. inversion Heq as [Hs].
  revert Hs. apply option_map_injective, map_injective, ofSelector_inj.
Qed.

Lemma ofAllocation_inj (a a' : ServiceAllocation) :
  ofAllocation a = ofAllocation a' -> a = a'.
Proof.
  destruct a, a'. unfold ofAllocation. cbn. intros Heq.
  inversion Heq as [[Hp Hn Hs Hs']].
  apply (f_equal VSlice), ofStrings_inj in Hn.
  apply (f_equal VSlice), ofSelectors_inj in Hs.
  apply (f_equal VSlice), ofSelectors_inj in Hs'. now subst.
Qed.

Lemma ofPoolSpec_inj (s s' : IPAddressPoolSpec) : ofPoolSpec s = ofPoolSpec s' -> s = s'.
Proof.
  destruct s, s'. unfold ofPoolSpec. cbn. intros Heq.
  inversion Heq as [[Ha Hauto Hb Hto]].
  apply (f_equal VSlice), ofStrings_inj in Ha.
  apply (option_map_injective VBool) in Hauto; [|intros x y Hxy; now inversion Hxy].
  apply (option_map_injective _ ofAllocation_inj) in Hto. now subst.
Qed.

Lemma ofL2Spec_inj (s s' : L2AdvertisementSpec) : ofL2Spec s = ofL2Spec s' -> s = s'.
Proof.
  destruct s, s'. unfold ofL2Spec. cbn. intros Heq.
  inversion Heq as [[Hp Hs Hn Hi]].
  apply (f_equal VSlice), ofStrings_inj in Hp.
  apply (f_equal VSlice), ofStrings_inj in Hi.
  apply (f_equal VSlice), ofSelectors_inj in Hs.
  apply (f_equal VSlice), ofSelectors_inj in Hn. now subst.
Qed.

(** The [Spec] field of a reflected object, when it is a struct that has
    one. *)
Definition specPortion {T : Type} `{Reflectable T} (obj : T) : option Value :=
  match ValueOf obj with
  | VStruct fields => lookupField fields "Spec"
  | _ => None
  end.

Lemma ResourceNeedsUpdate_pool (existing desired : IPAddressPool) :
  ResourceNeedsUpdate (Some existing) (Some desired) =
  Returns (negb (DeepEqual (ofPoolSpec (pool_Spec existing)) (ofPoolSpec (pool_Spec desired)))).
Proof. reflexivity. Qed.

Lemma ResourceNeedsUpdate_l2 (existing desired : L2Advertisement) :
  ResourceNeedsUpdate (Some existing) (Some desired) =
  Returns (negb (DeepEqual (ofL2Spec (l2_Spec existing)) (ofL2Spec (l2_Spec desired)))).
Proof. reflexivity. Qed.

Lemma ResourceNeedsUpdate_pool_true (existing desired : IPAddressPool) :
  ResourceNeedsUpdate (Some existing) (Some desired) = Returns true <->
  pool_Spec existing <> pool_Spec desired.
Proof.
  rewrite ResourceNeedsUpdate_pool. split.
  - intros Heq Hspec. rewrite Hspec, DeepEqual_refl in Heq. discriminate.
  - intros Hne. f_equal. apply negb_true_iff, DeepEqual_false.
    intros Heq. apply Hne. now apply ofPoolSpec_inj.
Qed.

Lemma ResourceNeedsUpdate_pool_false (existing desired : IPAddressPool) :
  ResourceNeedsUpdate (Some existing) (Some desired) = Returns false <->
  pool_Spec existing = pool_Spec desired.
Proof.
  rewrite ResourceNeedsUpdate_pool. split.
  - intros Heq. apply ofPoolSpec_inj, DeepEqual_eq.
    inversion Heq as [Hb]. now apply negb_false_iff in Hb.
  - intros ->. now rewrite DeepEqual_refl.
Qed.

Lemma ResourceNeedsUpdate_l2_true (existing desired : L2Advertisement) :
  ResourceNeedsUpdate (Some existing) (Some desired) = Returns true <->
  l2_Spec existing <> l2_Spec desired.
Proof.
  rewrite ResourceNeedsUpdate_l2. split.
  - intros Heq Hspec. rewrite Hspec, DeepEqual_refl in Heq. discriminate.
  - intros Hne. f_equal. apply negb_true_iff, DeepEqual_false.
    intros Heq. apply Hne. now apply ofL2Spec_inj.
Qed.

Lemma ResourceNeedsUpdate_l2_false (existing desired : L2Advertisement) :
  ResourceNeedsUpdate (Some existing) (Some desired) = Returns false <->
  l2_Spec existing = l2_Spec desired.
Proof.
  rewrite ResourceNeedsUpdate_l2. split.
  - intros Heq. apply ofL2Spec_inj, DeepEqual_eq.
    inversion Heq as [Hb]. now apply negb_false_iff in Hb.
  - intros ->. now rewrite DeepEqual_refl.
Qed.

(** C5. [ResourceNeedsUpdate] on two non-nil pointers answers true exactly
    when both objects have a [Spec] field and the two fields differ as
    values (a field, an element more or less, nil against present); nothing
    outside [Spec] is looked at.  One nil pointer against a non-nil one
    gives true, two nil pointers give false, and neither case panics,
    whatever the type.  For the two managed kinds the answer is exactly
    whether their typed specs differ.  The function takes its arguments by
    value and returns only the answer. *)
Theorem ResourceNeedsUpdate_spec :
  (forall (T : Type) `{Reflectable T} (e d : T),
      ResourceNeedsUpdate (Some e) (Some d) = Returns true <->
      exists es ds, specPortion e = Some es /\ specPortion d = Some ds /\ es <> ds)
  /\ (forall (T : Type) `{Reflectable T} (x : T),
        ResourceNeedsUpdate (@None T) (Some x) = Returns true /\
        ResourceNeedsUpdate (Some x) (@None T) = Returns true /\
        ResourceNeedsUpdate (@None T) (@None T) = Returns false)
  /\ (forall existing desired : IPAddressPool,
        (ResourceNeedsUpdate (Some existing) (Some desired) = Returns true <->
         pool_Spec existing <> pool_Spec desired)
        /\ (ResourceNeedsUpdate (Some existing) (Some desired) = Returns false <->
            pool_Spec existing = pool_Spec desired))
  /\ (forall existing desired : L2Advertisement,
        (ResourceNeedsUpdate (Some existing) (Some desired) = Returns true <->
         l2_Spec existing <> l2_Spec desired)
        /\ (ResourceNeedsUpdate (Some existing) (Some desired) = Returns false <->
            l2_Spec existing = l2_Spec desired)).
Proof.
  split; [|split; [|split]].
  - intros T HT e d. unfold ResourceNeedsUpdate, specPortion, FieldByName.
    destruct (ValueOf e) as [| | | | | |fe]; try (split; [discriminate|]);
      try (intros (es & ds & Hes & _); discriminate).
    destruct (ValueOf d) as [| | | | | |fd]; try (split; [discriminate|]);
      try (intros (es & ds & _ & Hds & _); discriminate).
    destruct (lookupField fe "Spec") as [es|]; [|split; [discriminate|]];
      try (intros (es & ds & Hes & _); discriminate).
    destruct (lookupField fd "Spec") as [ds|]; [|split; [discriminate|]];
      try (intros (es' & ds & _ & Hds & _); discriminate).
    split.
    + intros Heq. exists es, ds. repeat split.
      inversion Heq as [Hb]. apply negb_true_iff in Hb. now apply DeepEqual_false.
    + intros (es' & ds' & Hes & Hds & Hne). inversion Hes; inversion Hds; subst.
      f_equal. apply negb_true_iff. now apply DeepEqual_false.
  - intros T HT x. repeat split.
  - intros existing desired. split.
    + apply ResourceNeedsUpdate_pool_true.
    + apply ResourceNeedsUpdate_pool_false.
  - intros existing desired. split.
    + apply ResourceNeedsUpdate_l2_true.
    + apply ResourceNeedsUpdate_l2_false.
Qed.

(** ** Service publishing strategy *)

Lemma sink_Permutation {A : Type} (less : A -> A -> bool) (x : A) (sorted : list A) :
  Permutation (sort.sink less x sorted) (x :: sorted).
Proof.
  induction sorted as [|y rest IH]; cbn; [reflexivity|].
  destruct (less x y); [|reflexivity].
  rewrite IH. apply perm_swap.
Qed.

(** [sort.Slice] rearranges the slice and neither drops nor adds an
    element. *)
Lemma Slice_Permutation {A : Type} (less : A -> A -> bool) (data : list A) :
  Permutation (sort.Slice less data) data.
Proof.
  unfold sort.Slice. rewrite <- Permutation_rev.
  assert (Hgen : forall acc, Permutation
            (fold_left (fun sorted x => sort.sink less x sorted) data acc) (data ++ acc)).
  { induction data as [|x data IH]; intros acc; cbn; [reflexivity|].
    rewrite IH, sink_Permutation. symmetry. apply Permutation_middle. }
  rewrite Hgen. now rewrite app_nil_r.
Qed.

Definition strategyOf (mappings : list hyperv1.ServicePublishingStrategyMapping)
           (service : hyperv1.ServiceType) : option hyperv1.ServicePublishingStrategy :=
  hyperv1.Strategy <$>
    find (fun m => String.eqb (hyperv1.Service m) service) mappings.

(** C10. In load-balancer mode the builder returns four mappings: APIServer
    published through a LoadBalancer, OAuthServer, Konnectivity and Ignition
    each through a Route.  In node-port mode it returns five mappings, one
    for each of APIServer, OAuthServer, OIDC, Konnectivity and Ignition, each
    of type NodePort with the given address, in strictly increasing order of
    service name. *)
Theorem BuildServicePublishingStrategy_spec (nodeAddress : string) :
  let lb := hostedcluster.BuildServicePublishingStrategy true nodeAddress in
  let np := hostedcluster.BuildServicePublishingStrategy false nodeAddress in
  length lb = 4%nat
  /\ map hyperv1.Service lb =
     [hyperv1.APIServer; hyperv1.OAuthServer; hyperv1.Konnectivity; hyperv1.Ignition]
  /\ (hyperv1.Type_ <$> strategyOf lb hyperv1.APIServer) = Some hyperv1.LoadBalancer
  /\ (hyperv1.Type_ <$> strategyOf lb hyperv1.OAuthServer) = Some hyperv1.Route
  /\ (hyperv1.Type_ <$> strategyOf lb hyperv1.Konnectivity) = Some hyperv1.Route
  /\ (hyperv1.Type_ <$> strategyOf lb hyperv1.Ignition) = Some hyperv1.Route
  /\ length np = 5%nat
  /\ Permutation (map hyperv1.Service np)
       [hyperv1.APIServer; hyperv1.OAuthServer; hyperv1.OIDC;
        hyperv1.Konnectivity; hyperv1.Ignition]
  /\ Forall (fun m =>
               hyperv1.Strategy m =
               {| hyperv1.Type_ := hyperv1.NodePort;
                  hyperv1.NodePort_ := Some {| hyperv1.Address := nodeAddress |} |}) np
  /\ StronglySorted
       (fun m m' => String.ltb (hyperv1.Service m) (hyperv1.Service m') = true) np.
Proof.
  cbv zeta. repeat split.
  - unfold hostedcluster.BuildServicePublishingStrategy.
    rewrite Slice_Permutation, map_map. reflexivity.
  - repeat constructor.
  - repeat constructor.
Qed.

(** ** Upsert reconciler *)

(** The deterministic identities of the two managed resources. *)
Definition poolKey (bridge : DPFHCPBridge) : ObjectKey :=
  (OpenshiftOperatorsNamespace, Name (ObjectMeta_ bridge)).

Definition l2Key (bridge : DPFHCPBridge) : ObjectKey :=
  (OpenshiftOperatorsNamespace, "advertise-" +:+ Name (ObjectMeta_ bridge)).

(** The API server serves the read of [key] and finds [obj] there. *)
Definition found {T : Type} `{KubeObject T} (w : World) (key : ObjectKey) (obj : T) : Prop :=
  faults w (ReqGet (kind T) key) = None /\ objects (store w) !! key = Some obj.

Lemma Get_found {T : Type} `{KubeObject T} (w : World) (key : ObjectKey) (obj : T) :
  found w key obj ->
  Get T key w = (Returns (Ok obj), logCall (ReqGet (kind T) key) None w).
Proof. intros [Hfault Hobj]. unfold Get. now rewrite Hfault, Hobj. Qed.

Lemma bind_Returns {A B : Type} (m : M A) (k : A -> M B) (w w' : World) (a : A) :
  m w = (Returns a, w') -> bind m k w = k a w'.
Proof. intros Hm. unfold bind. now rewrite Hm. Qed.

(** C1. When the read under the deterministic name finds a resource that
    [isOwnedByBridge] rejects (labels absent or not the parent's),
    [ensureIPAddressPool] and [ensureL2Advertisement] return the
    foreign-ownership error; the read is the only request they issue: no
    create, update or delete reaches the store, whose content is left as it
    was, and no event is recorded. *)
Theorem ensure_foreign_ownership (bridge : DPFHCPBridge) (w : World) :
  (forall existing : IPAddressPool,
      found w (poolKey bridge) existing ->
      metallb.isOwnedByBridge existing bridge = false ->
      exists w',
        metallb.ensureIPAddressPool bridge w =
          (Returns (Some (metallb.errForeignPool existing bridge)), w')
        /\ calls w' = calls w ++ [(ReqGet KindIPAddressPool (poolKey bridge), None)]
        /\ store w' = store w
        /\ events w' = events w)
  /\ (forall existing : L2Advertisement,
        found w (l2Key bridge) existing ->
        metallb.isOwnedByBridge existing bridge = false ->
        exists w',
          metallb.ensureL2Advertisement bridge w =
            (Returns (Some (metallb.errForeignL2 existing bridge)), w')
          /\ calls w' = calls w ++ [(ReqGet KindL2Advertisement (l2Key bridge), None)]
          /\ store w' = store w
          /\ events w' = events w).
Proof.
  split; intros existing Hfound Howned; eexists.
  - unfold metallb.ensureIPAddressPool.
    erewrite bind_Returns by (apply Get_found, Hfound).
    cbv beta iota. rewrite Howned. cbn. repeat split.
  - unfold metallb.ensureL2Advertisement.
    erewrite bind_Returns by (apply Get_found, Hfound).
    cbv beta iota. rewrite Howned. cbn. repeat split.
Qed.

(** The existing object with only its spec replaced, as the drift
    correction sends it. *)
Definition poolWithSpec (existing : IPAddressPool) (spec : IPAddressPoolSpec) : IPAddressPool :=
  {| pool_ObjectMeta := pool_ObjectMeta existing; pool_Spec := spec |}.

Definition l2WithSpec (existing : L2Advertisement) (spec : L2AdvertisementSpec)
  : L2Advertisement :=
  {| l2_ObjectMeta := l2_ObjectMeta existing; l2_Spec := spec |}.

Definition driftEvent (bridge : DPFHCPBridge) (kindName name : string) : Event :=
  {| InvolvedObject := keyOf bridge;
     EventType := "Normal";
     EventReason := "MetalLBDriftCorrected";
     EventMessage := "Corrected spec drift in " +:+ kindName +:+ " " +:+ name |}.

(** What the store holds once it has accepted the update of [obj]: [obj]
    with the next version token. *)
Definition accepted {T : Type} `{KubeObject T} (obj : T) : T :=
  SetObjectMeta
    (setMeta_ResourceVersion (ResourceVersion (GetObjectMeta obj) + 1) (GetObjectMeta obj)) obj.

Lemma Update_served {T : Type} `{KubeObject T} (w : World) (old obj : T) :
  faults w (ReqUpdate (toObject obj)) = None ->
  objects (store w) !! keyOf obj = Some old ->
  ResourceVersion (GetObjectMeta old) = ResourceVersion (GetObjectMeta obj) ->
  Update obj w =
    (Returns None,
     logCall (ReqUpdate (toObject obj)) None
       (withStore (setObjects (<[keyOf obj := accepted obj]> (objects (store w))) (store w)) w)).
Proof.
  intros Hfault Hold Hrv. unfold Update, accepted.
  rewrite Hfault, Hold, Hrv, Z.eqb_refl. reflexivity.
Qed.

(** C6. For a resource found under the deterministic name (and stored under
    its own name) that the parent owns: when its spec differs from the
    desired one and the API server serves the update, the upsert issues,
    after the read, exactly one update whose payload is the existing object
    with its spec replaced by the desired spec (metadata, hence name,
    namespace, labels and version token, as read), records exactly one
    "MetalLBDriftCorrected" event and returns no error; the store then holds
    that payload.  When the specs are equal, the read is the only request,
    the store is untouched and no event is recorded. *)
Theorem ensure_drift_correction (bridge : DPFHCPBridge) (w : World) :
  (forall existing : IPAddressPool,
      found w (poolKey bridge) existing ->
      keyOf existing = poolKey bridge ->
      metallb.isOwnedByBridge existing bridge = true ->
      let desired := metallb.buildIPAddressPool bridge in
      let updated := poolWithSpec existing (pool_Spec desired) in
      pool_ObjectMeta updated = pool_ObjectMeta existing
      /\ pool_Spec updated = pool_Spec desired
      /\ (pool_Spec existing <> pool_Spec desired ->
          faults w (ReqUpdate (OIPAddressPool updated)) = None ->
          exists w',
            metallb.ensureIPAddressPool bridge w = (Returns None, w')
            /\ calls w' = calls w ++ [ (ReqGet KindIPAddressPool (poolKey bridge), None);
                                       (ReqUpdate (OIPAddressPool updated), None) ]
            /\ events w' =
               events w ++ [ driftEvent bridge "IPAddressPool" (Name (pool_ObjectMeta existing)) ]
            /\ store w' =
               setObjects (<[poolKey bridge := accepted updated]> (pools (store w))) (store w))
      /\ (pool_Spec existing = pool_Spec desired ->
          exists w',
            metallb.ensureIPAddressPool bridge w = (Returns None, w')
            /\ calls w' = calls w ++ [ (ReqGet KindIPAddressPool (poolKey bridge), None) ]
            /\ events w' = events w
            /\ store w' = store w))
  /\ (forall existing : L2Advertisement,
        found w (l2Key bridge) existing ->
        keyOf existing = l2Key bridge ->
        metallb.isOwnedByBridge existing bridge = true ->
        let desired := metallb.buildL2Advertisement bridge in
        let updated := l2WithSpec existing (l2_Spec desired) in
        l2_ObjectMeta updated = l2_ObjectMeta existing
        /\ l2_Spec updated = l2_Spec desired
        /\ (l2_Spec existing <> l2_Spec desired ->
            faults w (ReqUpdate (OL2Advertisement updated)) = None ->
            exists w',
              metallb.ensureL2Advertisement bridge w = (Returns None, w')
              /\ calls w' = calls w ++ [ (ReqGet KindL2Advertisement (l2Key bridge), None);
                                         (ReqUpdate (OL2Advertisement updated), None) ]
              /\ events w' =
                 events w ++
                 [ driftEvent bridge "L2Advertisement" (Name (l2_ObjectMeta existing)) ]
              /\ store w' =
                 setObjects (<[l2Key bridge := accepted updated]> (l2advertisements (store w)))
                   (store w))
        /\ (l2_Spec existing = l2_Spec desired ->
            exists w',
              metallb.ensureL2Advertisement bridge w = (Returns None, w')
              /\ calls w' = calls w ++ [ (ReqGet KindL2Advertisement (l2Key bridge), None) ]
              /\ events w' = events w
              /\ store w' = store w)).
Proof.
  split; intros existing Hfound Hkey Howned desired updated;
    (split; [reflexivity|]); (split; [reflexivity|]); split.
  - intros Hdiff Hfault. eexists.
    unfold metallb.ensureIPAddressPool.
    erewrite bind_Returns by (apply Get_found, Hfound).
    cbv beta iota. rewrite Howned. cbv beta iota. unfold negb.
    apply ResourceNeedsUpdate_pool_true in Hdiff. fold desired. rewrite Hdiff.
    erewrite bind_Returns.
    2:{ apply (Update_served _ existing updated).
        - exact Hfault.
        - destruct Hfound as [_ Hobj]. change (keyOf updated) with (keyOf existing).
          rewrite Hkey. exact Hobj.
        - reflexivity. }
    change (keyOf updated) with (keyOf existing). rewrite Hkey.
    cbn. rewrite <- app_assoc. repeat split.
  - intros Hsame. eexists.
    unfold metallb.ensureIPAddressPool.
    erewrite bind_Returns by (apply Get_found, Hfound).
    cbv beta iota. rewrite Howned. cbv beta iota. unfold negb.
    apply ResourceNeedsUpdate_pool_false in Hsame. fold desired. rewrite Hsame.
    cbn. repeat split.
  - intros Hdiff Hfault. eexists.
    unfold metallb.ensureL2Advertisement.
    erewrite bind_Returns by (apply Get_found, Hfound).
    cbv beta iota. rewrite Howned. cbv beta iota. unfold negb.
    apply ResourceNeedsUpdate_l2_true in Hdiff. fold desired. rewrite Hdiff.
    erewrite bind_Returns.
    2:{ apply (Update_served _ existing updated).
        - exact Hfault.
        - destruct Hfound as [_ Hobj]. change (keyOf updated) with (keyOf existing).
          rewrite Hkey. exact Hobj.
        - reflexivity. }
    change (keyOf updated) with (keyOf existing). rewrite Hkey.
    cbn. rewrite <- app_assoc. repeat split.
  - intros Hsame. eexists.
    unfold metallb.ensureL2Advertisement.
    erewrite bind_Returns by (apply Get_found, Hfound).
    cbv beta iota. rewrite Howned. cbv beta iota. unfold negb.
    apply ResourceNeedsUpdate_l2_false in Hsame. fold desired. rewrite Hsame.
    cbn. repeat split.
Qed.

Lemma Update_refused {T : Type} `{KubeObject T} (w : World) (obj : T) (err : error) :
  faults w (ReqUpdate (toObject obj)) = Some err ->
  Update obj w = (Returns (Some err), logCall (ReqUpdate (toObject obj)) (Some err) w).
Proof. intros Hfault. unfold Update. now rewrite Hfault. Qed.

(** The other side of drift correction: an update the API server refuses
    is returned to the caller, wrapped, and no event is recorded for it. *)
Lemma ensureIPAddressPool_update_refused (bridge : DPFHCPBridge) (w : World)
      (existing : IPAddressPool) (err : error) :
  found w (poolKey bridge) existing ->
  metallb.isOwnedByBridge existing bridge = true ->
  pool_Spec existing <> pool_Spec (metallb.buildIPAddressPool bridge) ->
  faults w (ReqUpdate (OIPAddressPool
                         (poolWithSpec existing
                            (pool_Spec (metallb.buildIPAddressPool bridge))))) = Some err ->
  exists w',
    metallb.ensureIPAddressPool bridge w =
      (Returns (Some (Wrapped "updating IPAddressPool: " err)), w')
    /\ events w' = events w
    /\ store w' = store w.
Proof.
  intros Hfound Howned Hdiff Hfault. eexists.
  unfold metallb.ensureIPAddressPool.
  erewrite bind_Returns by (apply Get_found, Hfound).
  cbv beta iota. rewrite Howned. cbv beta iota. unfold negb.
  apply ResourceNeedsUpdate_pool_true in Hdiff. rewrite Hdiff.
  erewrite bind_Returns by (apply Update_refused; exact Hfault).
  cbn. repeat split.
Qed.

(** ** Condition reporter *)

Lemma ConditionStatus_eqb_eq (a b : ConditionStatus) :
  ConditionStatus_eqb a b = true <-> a = b.
Proof. destruct a, b; cbn; split; congruence. Qed.

(** Whether a stored condition differs from a computed one in a field
    [SetStatusCondition] compares. *)
Definition conditionDiffers (old c : Condition) : Prop :=
  Status old <> Status c \/ Reason old <> Reason c \/ Message old <> Message c \/
  ObservedGeneration old <> ObservedGeneration c.

Lemma mergeCondition_changed (t : Time) (old c : Condition) :
  (meta.mergeCondition t old c).2 = true <-> conditionDiffers old c.
Proof.
  unfold meta.mergeCondition, conditionDiffers. cbn.
  rewrite !orb_true_iff, !negb_true_iff.
  rewrite <- !not_true_iff_false, ConditionStatus_eqb_eq, !String.eqb_eq, Z.eqb_eq.
  tauto.
Qed.

Lemma SetStatusCondition_changed (t : Time) (conditions : list Condition) (c : Condition) :
  (meta.SetStatusCondition t conditions c).2 = true <->
  match meta.FindStatusCondition conditions (Type_ c) with
  | None => True
  | Some old => conditionDiffers old c
  end.
Proof.
  induction conditions as [|x rest IH]; cbn; [tauto|].
  destruct (String.eqb (Type_ x) (Type_ c)).
  - exact (mergeCondition_changed t x c).
  - destruct (meta.SetStatusCondition t rest c) as [rest' changed]. exact IH.
Qed.

(** The entry is updated in place: the slice keeps its length when an
    entry of the type exists and grows by one otherwise. *)
Lemma SetStatusCondition_length (t : Time) (conditions : list Condition) (c : Condition) :
  length (meta.SetStatusCondition t conditions c).1 =
  match meta.FindStatusCondition conditions (Type_ c) with
  | None => S (length conditions)
  | Some _ => length conditions
  end.
Proof.
  induction conditions as [|x rest IH]; cbn; [reflexivity|].
  destruct (String.eqb (Type_ x) (Type_ c)).
  - now destruct (meta.mergeCondition t x c).
  - destruct (meta.SetStatusCondition t rest c) as [rest' changed]. cbn in *.
    rewrite IH. now destruct (meta.FindStatusCondition rest (Type_ c)).
Qed.

(** After the call the entry of the type carries the computed status,
    reason, message and generation. *)
Lemma SetStatusCondition_find (t : Time) (conditions : list Condition) (c : Condition) :
  exists c',
    meta.FindStatusCondition (meta.SetStatusCondition t conditions c).1 (Type_ c) = Some c'
    /\ Type_ c' = Type_ c /\ Status c' = Status c /\ Reason c' = Reason c
    /\ Message c' = Message c /\ ObservedGeneration c' = ObservedGeneration c.
Proof.
  induction conditions as [|x rest IH]; cbn.
  - rewrite String.eqb_refl. eexists. split; [reflexivity|]. cbn. auto.
  - destruct (String.eqb (Type_ x) (Type_ c)) eqn:Htype.
    + cbn. rewrite Htype. eexists. split; [reflexivity|]. cbn.
      apply String.eqb_eq in Htype. auto.
    + destruct (meta.SetStatusCondition t rest c) as [rest' changed]. cbn in *.
      rewrite Htype. exact IH.
Qed.

(** Setting the same status, reason, message and generation a second time
    changes nothing, whatever the time stamps offered. *)
Lemma SetStatusCondition_again (t t' : Time) (conditions : list Condition) (c c' : Condition) :
  Type_ c' = Type_ c -> Status c' = Status c -> Reason c' = Reason c ->
  Message c' = Message c -> ObservedGeneration c' = ObservedGeneration c ->
  meta.SetStatusCondition t' (meta.SetStatusCondition t conditions c).1 c' =
  ((meta.SetStatusCondition t conditions c).1, false).
Proof.
  intros Htype Hstatus Hreason Hmessage Hgen.
  induction conditions as [|x rest IH]; cbn.
  - rewrite Htype, String.eqb_refl. unfold meta.mergeCondition. cbn.
    rewrite Hstatus, Hreason, Hmessage, Hgen.
    rewrite (proj2 (ConditionStatus_eqb_eq _ _) eq_refl), !String.eqb_refl, Z.eqb_refl.
    reflexivity.
  - destruct (String.eqb (Type_ x) (Type_ c)) eqn:Hx.
    + cbn. rewrite Htype, Hx. unfold meta.mergeCondition. cbn.
      rewrite Hstatus, Hreason, Hmessage, Hgen.
      rewrite (proj2 (ConditionStatus_eqb_eq _ _) eq_refl), !String.eqb_refl, Z.eqb_refl.
      reflexivity.
    + destruct (meta.SetStatusCondition t rest c) as [rest' changed]. cbn in *.
      rewrite Htype, Hx, IH. reflexivity.
Qed.

Lemma withConditions_id (b : DPFHCPBridge) : withConditions b (Conditions (Status_ b)) = b.
Proof. now destruct b as [m s [p cs]]. Qed.

(** ** Teardown state machine *)

#[local] Instance Kind_eq_dec : EqDecision Kind.
Proof. solve_decision. Defined.

Definition objectKind (o : Object) : Kind :=
  match o with
  | OIPAddressPool _ => KindIPAddressPool
  | OL2Advertisement _ => KindL2Advertisement
  | OHostedCluster _ => KindHostedCluster
  | ONodePool _ => KindNodePool
  | OSecret _ => KindSecret
  | ODPFHCPBridge _ => KindDPFHCPBridge
  end.

(** The kind a request addresses. *)
Definition requestKind (r : Request) : Kind :=
  match r with
  | ReqGet k _ | ReqDelete k _ => k
  | ReqCreate o | ReqUpdate o | ReqStatusUpdate o => objectKind o
  end.

(** An entry of the audit log that confirms kind [k] absent: a read answered
    not-found or no-match, or a delete answered not-found. *)
Definition confirmsAbsent (k : Kind) (entry : Request * option error) : bool :=
  match entry with
  | (ReqGet k' _, Some err) =>
      bool_decide (k' = k) && (apierrors.IsNotFound err || meta.IsNoMatchError err)
  | (ReqDelete k' _, Some err) => bool_decide (k' = k) && apierrors.IsNotFound err
  | _ => false
  end.

(** An entry that shows kind [k] still there: a read that found it. *)
Definition readFound (k : Kind) (entry : Request * option error) : bool :=
  match entry with
  | (ReqGet k' _, None) => bool_decide (k' = k)
  | _ => false
  end.

(** An entry in which a delete of kind [k] came back with an error. *)
Definition deleteRefused (k : Kind) (entry : Request * option error) : bool :=
  match entry with
  | (ReqDelete k' _, Some _) => bool_decide (k' = k)
  | _ => false
  end.

(** The invocation saw kind [k] still present: its read found the object
    and no delete of it came back with an error. *)
Definition stillPresent (k : Kind) (trace : list (Request * option error)) : Prop :=
  existsb (readFound k) trace = true /\ existsb (deleteRefused k) trace = false.

(** The log monitor for the teardown order: scanning the log, a request on
    a NodePool is admitted only after an entry confirmed the HostedCluster
    absent, a request on a Secret only after entries confirmed both
    absent. *)
Fixpoint ordered (hcAbsent npAbsent : bool) (trace : list (Request * option error)) : bool :=
  match trace with
  | [] => true
  | entry :: rest =>
      (if bool_decide (requestKind entry.1 = KindNodePool) then hcAbsent else true)
      && (if bool_decide (requestKind entry.1 = KindSecret) then hcAbsent && npAbsent else true)
      && ordered (hcAbsent || confirmsAbsent KindHostedCluster entry)
                 (npAbsent || confirmsAbsent KindNodePool entry) rest
  end.

Lemma ordered_app (h n : bool) (a b : list (Request * option error)) :
  ordered h n (a ++ b) =
  ordered h n a &&
  ordered (h || existsb (confirmsAbsent KindHostedCluster) a)
          (n || existsb (confirmsAbsent KindNodePool) a) b.
Proof.
  revert h n. induction a as [|x a IH]; intros h n; cbn.
  - now rewrite !orb_false_r.
  - rewrite IH, !orb_assoc, !andb_assoc. reflexivity.
Qed.

(** What the monitor accepts, said without the monitor. *)
Lemma ordered_sound (trace : list (Request * option error)) :
  ordered false false trace = true ->
  forall pre entry post,
    trace = pre ++ entry :: post ->
    (requestKind entry.1 = KindNodePool ->
     existsb (confirmsAbsent KindHostedCluster) pre = true)
    /\ (requestKind entry.1 = KindSecret ->
        existsb (confirmsAbsent KindHostedCluster) pre = true
        /\ existsb (confirmsAbsent KindNodePool) pre = true).
Proof.
  intros Hord pre entry post ->.
  rewrite ordered_app in Hord. cbn in Hord.
  apply andb_true_iff in Hord as [_ Hord].
  apply andb_true_iff in Hord as [Hentry _].
  apply andb_true_iff in Hentry as [Hnp Hsecret].
  cbn in Hnp, Hsecret.
  split; intros Hkind.
  - rewrite bool_decide_eq_true_2 in Hnp by assumption. exact Hnp.
  - rewrite bool_decide_eq_true_2 in Hsecret by assumption.
    now apply andb_true_iff in Hsecret.
Qed.

(** Requests of a single kind pass the monitor when that kind is admitted. *)
Lemma ordered_single_kind (k : Kind) (h n : bool) (trace : list (Request * option error)) :
  Forall (fun entry => requestKind entry.1 = k) trace ->
  (k = KindNodePool -> h = true) ->
  (k = KindSecret -> h = true /\ n = true) ->
  ordered h n trace = true.
Proof.
  intros Hall. revert h n. induction Hall as [|x l Hx _ IH]; intros h n Hnp Hsecret; cbn;
    [reflexivity|].
  rewrite Hx. rewrite IH.
  - repeat case_bool_decide; try reflexivity; try congruence.
    + match goal with Hk : _ = KindNodePool |- _ => rewrite (Hnp Hk) end. reflexivity.
    + match goal with Hk : _ = KindSecret |- _ => destruct (Hsecret Hk) as [-> ->] end.
      reflexivity.
  - intros Hk. rewrite (Hnp Hk). reflexivity.
  - intros Hk. destruct (Hsecret Hk) as [-> ->]. split; reflexivity.
Qed.

(** [w'] is [w] after the requests [trace], with the same fault plan, clock
    and events. *)
Definition extends (w w' : World) (trace : list (Request * option error)) : Prop :=
  calls w' = calls w ++ trace /\ faults w' = faults w /\ now w' = now w /\
  events w' = events w.

Lemma extends_refl (w : World) : extends w w [].
Proof. unfold extends. now rewrite app_nil_r. Qed.

Lemma extends_trans (w w' w'' : World) (t t' : list (Request * option error)) :
  extends w w' t -> extends w' w'' t' -> extends w w'' (t ++ t').
Proof.
  intros (Hc & Hf & Hn & He) (Hc' & Hf' & Hn' & He'). unfold extends.
  rewrite Hc', Hc, Hf', Hf, Hn', Hn, He', He, app_assoc. auto.
Qed.

Lemma Get_log (T : Type) `{KubeObject T} (key : ObjectKey) (w : World) :
  (exists e, Get T key w = (Returns (Err e), logCall (ReqGet (kind T) key) (Some e) w)
             /\ (faults w (ReqGet (kind T) key) = Some e
                 \/ (faults w (ReqGet (kind T) key) = None
                     /\ objects (store w) !! key = None /\ e = errNotFound key)))
  \/ (exists obj, Get T key w = (Returns (Ok obj), logCall (ReqGet (kind T) key) None w)
                  /\ found w key obj).
Proof.
  unfold Get, found. destruct (faults w (ReqGet (kind T) key)) as [e|] eqn:Hfault.
  - left. exists e. auto.
  - destruct (objects (store w) !! key) as [obj|] eqn:Hobj.
    + right. exists obj. auto.
    + left. exists (errNotFound key). auto.
Qed.

Lemma Delete_log {T : Type} `{KubeObject T} (obj : T) (w : World) :
  exists e w',
    Delete obj w = (Returns e, w')
    /\ extends w w' [(ReqDelete (kind T) (keyOf obj), e)].
Proof.
  unfold Delete, extends.
  destruct (faults w (ReqDelete (kind T) (keyOf obj))) as [e|].
  - eexists _, _. split; [reflexivity|]. cbn. auto.
  - destruct (objects (store w) !! keyOf obj) as [old|].
    + eexists _, _. split; [reflexivity|]. cbn. auto.
    + eexists _, _. split; [reflexivity|]. cbn. auto.
Qed.

Lemma extends_logCall (w : World) (r : Request) (e : option error) :
  extends w (logCall r e w) [(r, e)].
Proof. unfold extends. cbn. auto. Qed.

(** What one [deleteResource] call leaves in the log, and how its answer
    relates to it. *)
Lemma deleteResource_trace (T : Type) `{KubeObject T} (cr : DPFHCPBridge)
      (resourceKind : string) (w : World) :
  exists b e w' trace,
    hostedcluster.deleteResource T cr resourceKind w = (Returns (b, e), w')
    /\ extends w w' trace
    /\ Forall (fun entry => requestKind entry.1 = kind T) trace
    /\ (exists e0 rest,
          trace = (ReqGet (kind T) (Namespace (ObjectMeta_ cr), Name (ObjectMeta_ cr)), e0)
                  :: rest)
    /\ (b = true -> e = None /\ existsb (confirmsAbsent (kind T)) trace = true)
    /\ (stillPresent (kind T) trace -> b = false /\ e = None).
Proof.
  unfold hostedcluster.deleteResource.
  set (key := (Namespace (ObjectMeta_ cr), Name (ObjectMeta_ cr))).
  destruct (Get_log T key w) as [(err & Hget & _)|(obj & Hget & _)];
    erewrite bind_Returns by exact Hget; cbv beta iota.
  - (* the read came back with an error *)
    assert (Hnot : ~ stillPresent (kind T) [(ReqGet (kind T) key, Some err)]).
    { intros [Hfound _]. cbn in Hfound. discriminate. }
    destruct (apierrors.IsNotFound err) eqn:Hnf;
      [|destruct (meta.IsNoMatchError err) eqn:Hnm];
      eexists _, _, _, _; (split; [reflexivity|]);
      (split; [apply extends_logCall|]);
      (split; [repeat constructor|]); (split; [eexists _, _; reflexivity|]);
      (split; [|intros Hp; now destruct Hnot]).
    + intros _. split; [reflexivity|]. cbn.
      rewrite bool_decide_eq_true_2 by reflexivity. now rewrite Hnf.
    + intros _. split; [reflexivity|]. cbn.
      rewrite bool_decide_eq_true_2 by reflexivity. now rewrite Hnm, orb_true_r.
    + discriminate.
  - (* the read found the object *)
    destruct (DeletionTimestamp (GetObjectMeta obj)) as [ts|].
    + eexists _, _, _, _. split; [reflexivity|].
      split; [apply extends_logCall|].
      split; [repeat constructor|]. split; [eexists _, _; reflexivity|].
      split; [discriminate|]. auto.
    + destruct (Delete_log obj (logCall (ReqGet (kind T) key) None w))
        as (e & w' & Hdel & Hext).
      erewrite bind_Returns by exact Hdel. cbv beta iota.
      pose proof (extends_trans _ _ _ _ _ (extends_logCall w _ None) Hext) as Hext'.
      cbn [app] in Hext'.
      destruct e as [err|]; [destruct (apierrors.IsNotFound err) eqn:Hnf|];
        eexists _, _, _, _; (split; [reflexivity|]); (split; [exact Hext'|]);
        (split; [repeat constructor|]); (split; [eexists _, _; reflexivity|]).
      * split.
        -- intros _. split; [reflexivity|]. cbn.
           rewrite bool_decide_eq_true_2 by reflexivity. now rewrite Hnf.
        -- intros [_ Hrefused]. cbn in Hrefused.
           rewrite bool_decide_eq_true_2 in Hrefused by reflexivity. discriminate.
      * split; [discriminate|].
        intros [_ Hrefused]. cbn in Hrefused.
        rewrite bool_decide_eq_true_2 in Hrefused by reflexivity. discriminate.
      * split; [discriminate|]. auto.
Qed.

Lemma StatusUpdate_log (cr : DPFHCPBridge) (w : World) :
  exists r w',
    StatusUpdate cr w = (Returns r, w')
    /\ extends w w' [(ReqStatusUpdate (ODPFHCPBridge cr),
                      match r with Ok _ => None | Err e => Some e end)].
Proof.
  unfold StatusUpdate, extends.
  destruct (faults w (ReqStatusUpdate (ODPFHCPBridge cr))) as [e|].
  - eexists _, _. split; [reflexivity|]. cbn. auto.
  - destruct (bridges (store w) !! keyOf cr) as [old|].
    + destruct (ResourceVersion (ObjectMeta_ old) =? ResourceVersion (ObjectMeta_ cr)).
      * eexists _, _. split; [reflexivity|]. cbn. auto.
      * eexists _, _. split; [reflexivity|]. cbn. auto.
    + eexists _, _. split; [reflexivity|]. cbn. auto.
Qed.

(** The parent with the cleanup condition set in memory, as
    [HandleFinalizerCleanup] does before each status write. *)
Definition withCleanupCondition (cr : DPFHCPBridge) (t : Time) (status : ConditionStatus)
           (reason message : string) : DPFHCPBridge :=
  withConditions cr
    (meta.SetStatusCondition t (Conditions (Status_ cr))
       {| Type_ := HostedClusterCleanup; Status := status; Reason := reason;
          Message := message; LastTransitionTime := t; ObservedGeneration := 0 |}).1.

Lemma setCleanupCondition_eq (cr : DPFHCPBridge) (status : ConditionStatus)
      (reason message : string) (w : World) :
  hostedcluster.setCleanupCondition cr status reason message w =
  (Returns (withCleanupCondition cr (now w) status reason message), w).
Proof. reflexivity. Qed.

Definition inProgress (cr : DPFHCPBridge) (t : Time) : DPFHCPBridge :=
  withCleanupCondition cr t ConditionFalse "CleanupInProgress"
    "Deleting HostedCluster and associated resources".

Lemma deleteSecret_trace (namespace secretName : string) (w : World) :
  exists e w' trace,
    hostedcluster.deleteSecret namespace secretName w = (Returns e, w')
    /\ extends w w' trace
    /\ Forall (fun entry => requestKind entry.1 = KindSecret) trace.
Proof.
  unfold hostedcluster.deleteSecret.
  destruct (Get_log Secret (namespace, secretName) w) as [(err & Hget & _)|(obj & Hget & _)];
    erewrite bind_Returns by exact Hget; cbv beta iota.
  - destruct (apierrors.IsNotFound err); eexists _, _, _;
      (split; [reflexivity|]); (split; [apply extends_logCall|]); repeat constructor.
  - destruct (Delete_log obj (logCall (ReqGet (kind Secret) (namespace, secretName)) None w))
      as (e & w' & Hdel & Hext).
    erewrite bind_Returns by exact Hdel. cbv beta iota.
    pose proof (extends_trans _ _ _ _ _ (extends_logCall w _ None) Hext) as Hext'.
    destruct e as [err|]; [destruct (apierrors.IsNotFound err)|];
      eexists _, _, _; (split; [reflexivity|]); (split; [exact Hext'|]); repeat constructor.
Qed.

Lemma deleteSecretsLoop_trace (namespace : string) (secretNames : list string) (w : World) :
  exists e w' trace,
    hostedcluster.deleteSecretsLoop namespace secretNames w = (Returns e, w')
    /\ extends w w' trace
    /\ Forall (fun entry => requestKind entry.1 = KindSecret) trace.
Proof.
  revert w. induction secretNames as [|name rest IH]; intros w; cbn.
  - eexists _, _, _. split; [reflexivity|]. split; [apply extends_refl|]. constructor.
  - destruct (deleteSecret_trace namespace name w) as (e & w1 & t1 & Hone & Hext1 & Hkind1).
    erewrite bind_Returns by exact Hone. cbv beta iota.
    destruct e as [err|].
    + eexists _, _, _. split; [reflexivity|]. split; [exact Hext1 | exact Hkind1].
    + destruct (IH w1) as (e' & w2 & t2 & Hrest & Hext2 & Hkind2).
      eexists _, _, _. split; [exact Hrest|].
      split; [eapply extends_trans; eassumption|]. now apply Forall_app.
Qed.

Lemma other_kind_silent (k k' : Kind) (trace : list (Request * option error)) :
  Forall (fun entry => requestKind entry.1 = k') trace ->
  k' <> k ->
  existsb (readFound k) trace = false
  /\ existsb (deleteRefused k) trace = false
  /\ existsb (confirmsAbsent k) trace = false.
Proof.
  intros Hall Hne. induction Hall as [|[r e] l Hr _ (IH1 & IH2 & IH3)]; cbn; [auto|].
  rewrite IH1, IH2, IH3. cbn in Hr.
  destruct r; cbn in *; destruct e; cbn;
    rewrite ?bool_decide_eq_false_2 by congruence; auto.
Qed.

(** [ctrl.Result{RequeueAfter: DeletionRequeueInterval}]. *)
Definition requeueSoon : ctrl.Result :=
  {| ctrl.Requeue := false; ctrl.RequeueAfter := hostedcluster.DeletionRequeueInterval |}.

Lemma Now_eq (w : World) : Now w = (Returns (now w), w).
Proof. reflexivity. Qed.

Lemma stillPresent_app_l (k : Kind) (a b : list (Request * option error)) :
  existsb (readFound k) b = false ->
  stillPresent k (a ++ b) -> stillPresent k a.
Proof.
  unfold stillPresent. rewrite !existsb_app. intros Hb [Hfound Hrefused].
  rewrite Hb, orb_false_r in Hfound. apply orb_false_iff in Hrefused as [Hrefused _].
  auto.
Qed.

Lemma stillPresent_app_r (k : Kind) (a b : list (Request * option error)) :
  existsb (readFound k) a = false ->
  stillPresent k (a ++ b) -> stillPresent k b.
Proof.
  unfold stillPresent. rewrite !existsb_app. intros Ha [Hfound Hrefused].
  rewrite Ha, orb_false_l in Hfound. apply orb_false_iff in Hrefused as [_ Hrefused].
  auto.
Qed.

Lemma not_stillPresent_silent (k : Kind) (trace : list (Request * option error)) :
  existsb (readFound k) trace = false -> ~ stillPresent k trace.
Proof. intros Hsilent [Hfound _]. congruence. Qed.

Ltac trace_eq :=
  repeat (progress (cbn [app]; rewrite <- ?app_assoc, ?app_nil_r)); reflexivity.

Local Open Scope go_scope.

(** The two ways [HandleFinalizerCleanup] goes on after its timeout test,
    given names: the timeout branch and steps 1 to 3. *)
Definition timedOut (durationString : Duration -> string) (cr : DPFHCPBridge)
           (elapsedTime : Duration) : M (DPFHCPBridge * ctrl.Result * option error) :=
  cr <- hostedcluster.setCleanupCondition cr ConditionFalse "CleanupTimeout"
          ("HostedCluster deletion timeout exceeded after " +:+ durationString elapsedTime) ;;
  r <- StatusUpdate cr ;;
  let cr := match r with Ok cr' => cr' | Err _ => cr end in
  ret (cr, ctrl.noResult, None).

Definition drainDependents (cr : DPFHCPBridge)
  : M (DPFHCPBridge * ctrl.Result * option error) :=
  hc <- hostedcluster.deleteResource HostedCluster cr "HostedCluster" ;;
  match hc with
  | (_, Some err) => ret (cr, ctrl.noResult, Some err)
  | (false, None) => ret (cr, requeueSoon, None)
  | (true, None) =>
      np <- hostedcluster.deleteResource NodePool cr "NodePool" ;;
      match np with
      | (_, Some err) => ret (cr, ctrl.noResult, Some err)
      | (false, None) => ret (cr, requeueSoon, None)
      | (true, None) =>
          e <- hostedcluster.deleteSecrets cr ;;
          match e with
          | Some err => ret (cr, ctrl.noResult, Some err)
          | None =>
              cr <- hostedcluster.setCleanupCondition cr ConditionTrue "CleanupSucceeded"
                      "HostedCluster and associated resources deleted successfully" ;;
              r <- StatusUpdate cr ;;
              match r with
              | Err err => ret (cr, ctrl.noResult, Some err)
              | Ok cr => ret (cr, ctrl.noResult, None)
              end
          end
      end
  end.

Lemma HandleFinalizerCleanup_unfold (durationString : Duration -> string)
      (cr : DPFHCPBridge) :
  hostedcluster.HandleFinalizerCleanup durationString cr =
  (cr <- hostedcluster.setCleanupCondition cr ConditionFalse "CleanupInProgress"
           "Deleting HostedCluster and associated resources" ;;
   r <- StatusUpdate cr ;;
   match r with
   | Err err => ret (cr, ctrl.noResult, Some err)
   | Ok cr =>
       match DeletionTimestamp (ObjectMeta_ cr) with
       | None => ret (cr, ctrl.noResult, Some (ErrorString "deletionTimestamp is nil"))
       | Some deletionTimestamp =>
           n <- Now ;;
           if hostedcluster.DeletionTimeout <? Sub n deletionTimestamp
           then timedOut durationString cr (Sub n deletionTimestamp)
           else drainDependents cr
       end
   end).
Proof. reflexivity. Qed.

(** The log of steps 1 to 3: it opens with the read of the HostedCluster,
    passes the order monitor, and a kind seen still present ends the
    invocation with the short requeue before any later kind is touched. *)
Lemma drainDependents_trace (cr1 : DPFHCPBridge) (w1 : World) :
  exists cr' result err w' e0 rest,
    drainDependents cr1 w1 = (Returns (cr', result, err), w')
    /\ calls w' =
       calls w1 ++
       (ReqGet KindHostedCluster (Namespace (ObjectMeta_ cr1), Name (ObjectMeta_ cr1)), e0)
       :: rest
    /\ ordered false false
         ((ReqGet KindHostedCluster (Namespace (ObjectMeta_ cr1), Name (ObjectMeta_ cr1)), e0)
          :: rest) = true
    /\ (stillPresent KindHostedCluster
          ((ReqGet KindHostedCluster (Namespace (ObjectMeta_ cr1), Name (ObjectMeta_ cr1)), e0)
           :: rest) ->
        result = requeueSoon /\ err = None
        /\ Forall (fun entry => requestKind entry.1 = KindHostedCluster)
             ((ReqGet KindHostedCluster
                 (Namespace (ObjectMeta_ cr1), Name (ObjectMeta_ cr1)), e0) :: rest))
    /\ (stillPresent KindNodePool
          ((ReqGet KindHostedCluster (Namespace (ObjectMeta_ cr1), Name (ObjectMeta_ cr1)), e0)
           :: rest) ->
        result = requeueSoon /\ err = None
        /\ Forall (fun entry => requestKind entry.1 = KindHostedCluster
                                \/ requestKind entry.1 = KindNodePool)
             ((ReqGet KindHostedCluster
                 (Namespace (ObjectMeta_ cr1), Name (ObjectMeta_ cr1)), e0) :: rest)).
Proof.
  unfold drainDependents.
  destruct (deleteResource_trace HostedCluster cr1 "HostedCluster" w1)
    as (b & e & w2 & tHC & Hd & (Hc2 & _) & Hk2 & (e0 & tl & Hhead) & Htrue2 & Hpresent2).
  change (kind HostedCluster) with KindHostedCluster in *.
  erewrite bind_Returns by exact Hd. cbv beta iota.
  destruct (other_kind_silent KindNodePool KindHostedCluster tHC Hk2 ltac:(discriminate))
    as (HNPfound2 & _ & HNPabsent2).
  assert (Hord2 : ordered false false tHC = true).
  { apply (ordered_single_kind KindHostedCluster); [exact Hk2 | discriminate..]. }
  destruct b.
  2:{ (* the HostedCluster is still there, or the call failed *)
      destruct e as [err|]; eexists _, _, _, _, e0, tl; rewrite <- Hhead;
        (split; [reflexivity|]); (split; [exact Hc2|]); (split; [exact Hord2|]); split.
      - intros Hp. destruct (Hpresent2 Hp) as [_ Hnone]. discriminate.
      - intros Hp. now apply not_stillPresent_silent in Hp.
      - intros _. auto.
      - intros Hp. now apply not_stillPresent_silent in Hp. }
  destruct (Htrue2 eq_refl) as [-> Habsent2].
  destruct (deleteResource_trace NodePool cr1 "NodePool" w2)
    as (b & e & w3 & tNP & Hd3 & (Hc3 & _) & Hk3 & _ & Htrue3 & Hpresent3).
  change (kind NodePool) with KindNodePool in *.
  erewrite bind_Returns by exact Hd3. cbv beta iota.
  destruct (other_kind_silent KindHostedCluster KindNodePool tNP Hk3 ltac:(discriminate))
    as (HHCfound3 & _ & _).
  assert (Hord3 : ordered false false (tHC ++ tNP) = true).
  { rewrite ordered_app, Hord2, Habsent2. cbn.
    apply (ordered_single_kind KindNodePool); [exact Hk3 | reflexivity | discriminate]. }
  assert (HnotHC : forall more, existsb (readFound KindHostedCluster) more = false ->
                     ~ stillPresent KindHostedCluster (tHC ++ tNP ++ more)).
  { intros more Hmore Hp. apply stillPresent_app_l in Hp.
    - destruct (Hpresent2 Hp). discriminate.
    - now rewrite existsb_app, HHCfound3, Hmore. }
  assert (Hcalls3 : calls w3 = calls w1 ++ tHC ++ tNP).
  { rewrite Hc3, Hc2. trace_eq. }
  destruct b.
  2:{ (* the NodePool is still there, or the call failed *)
      destruct e as [err|]; eexists _, _, _, _, e0, (tl ++ tNP);
        rewrite app_comm_cons, <- Hhead;
        (split; [reflexivity|]); (split; [exact Hcalls3|]); (split; [exact Hord3|]); split.
      - intros Hp. destruct (HnotHC [] eq_refl). now rewrite app_nil_r.
      - intros Hp. apply stillPresent_app_r in Hp; [|exact HNPfound2].
        destruct (Hpresent3 Hp) as [_ Hnone]. discriminate.
      - intros Hp. destruct (HnotHC [] eq_refl). now rewrite app_nil_r.
      - intros _. split; [reflexivity|]. split; [reflexivity|].
        apply Forall_app. split; eapply Forall_impl; eauto. }
  destruct (Htrue3 eq_refl) as [-> Habsent3].
  unfold hostedcluster.deleteSecrets.
  destruct (deleteSecretsLoop_trace (Namespace (ObjectMeta_ cr1))
              (hostedcluster.secretNamesOf cr1) w3)
    as (e & w4 & tS & Hd4 & (Hc4 & _) & Hk4).
  erewrite bind_Returns by exact Hd4. cbv beta iota.
  destruct (other_kind_silent KindHostedCluster KindSecret tS Hk4 ltac:(discriminate))
    as (HHCfound4 & _ & _).
  destruct (other_kind_silent KindNodePool KindSecret tS Hk4 ltac:(discriminate))
    as (HNPfound4 & _ & _).
  assert (Hord4 : forall more,
             ordered true true more = true ->
             ordered false false (tHC ++ tNP ++ tS ++ more) = true).
  { intros more Hmore. rewrite app_assoc, ordered_app, Hord3. cbn.
    rewrite !existsb_app, Habsent2, Habsent3, orb_true_r. cbn.
    rewrite ordered_app. rewrite !orb_true_l, Hmore, andb_true_r.
    apply (ordered_single_kind KindSecret); [exact Hk4 | discriminate | auto]. }
  assert (HnotNP : forall more, existsb (readFound KindNodePool) more = false ->
                     ~ stillPresent KindNodePool (tHC ++ tNP ++ tS ++ more)).
  { intros more Hmore Hp. apply stillPresent_app_r in Hp; [|exact HNPfound2].
    apply stillPresent_app_l in Hp.
    - destruct (Hpresent3 Hp). discriminate.
    - now rewrite existsb_app, HNPfound4, Hmore. }
  assert (Hshape : forall more,
             (ReqGet KindHostedCluster (Namespace (ObjectMeta_ cr1), Name (ObjectMeta_ cr1)), e0)
             :: tl ++ tNP ++ tS ++ more = tHC ++ tNP ++ tS ++ more).
  { intros more. now rewrite Hhead. }
  destruct e as [err|].
  { eexists _, _, _, _, e0, (tl ++ tNP ++ tS ++ []). rewrite Hshape.
    split; [reflexivity|].
    split; [rewrite Hc4, Hcalls3; trace_eq|].
    split; [now apply Hord4|]. split; intros Hp.
    - destruct (HnotHC (tS ++ [])); [now rewrite app_nil_r | exact Hp].
    - now destruct (HnotNP [] eq_refl). }
  erewrite bind_Returns by apply setCleanupCondition_eq.
  set (c5 := withCleanupCondition cr1 (now w4) ConditionTrue "CleanupSucceeded"
               "HostedCluster and associated resources deleted successfully").
  destruct (StatusUpdate_log c5 w4) as (r5 & w5 & Hsu5 & Hc5 & _).
  erewrite bind_Returns by exact Hsu5. cbv beta iota.
  set (e5 := match r5 with Ok _ => None | Err e => Some e end) in Hc5.
  set (su := (ReqStatusUpdate (ODPFHCPBridge c5), e5)) in Hc5.
  assert (Hfinal : ordered false false (tHC ++ tNP ++ tS ++ [su]) = true
                   /\ ~ stillPresent KindHostedCluster (tHC ++ tNP ++ tS ++ [su])
                   /\ ~ stillPresent KindNodePool (tHC ++ tNP ++ tS ++ [su])).
  { split; [now apply Hord4|]. split.
    - apply HnotHC. now rewrite existsb_app, HHCfound4.
    - now apply HnotNP. }
  destruct Hfinal as (Hord5 & HnoHC5 & HnoNP5).
  destruct r5 as [cr5|err5]; eexists _, _, _, _, e0, (tl ++ tNP ++ tS ++ [su]);
    rewrite Hshape; (split; [reflexivity|]);
    (split; [rewrite Hc5, Hc4, Hcalls3; trace_eq|]);
    (split; [exact Hord5|]); split; intros Hp; now exfalso.
Qed.

(** The log of a whole invocation: the status write comes first, whatever
    the stored condition was; what follows passes the order monitor. *)
Lemma HandleFinalizerCleanup_trace (durationString : Duration -> string)
      (cr : DPFHCPBridge) (w : World) :
  exists cr' result err w' e1 rest,
    hostedcluster.HandleFinalizerCleanup durationString cr w =
      (Returns (cr', result, err), w')
    /\ calls w' =
       calls w ++ (ReqStatusUpdate (ODPFHCPBridge (inProgress cr (now w))), e1) :: rest
    /\ ordered false false rest = true
    /\ (stillPresent KindHostedCluster rest ->
        result = requeueSoon /\ err = None
        /\ Forall (fun entry => requestKind entry.1 = KindHostedCluster) rest)
    /\ (stillPresent KindNodePool rest ->
        result = requeueSoon /\ err = None
        /\ Forall (fun entry => requestKind entry.1 = KindHostedCluster
                                \/ requestKind entry.1 = KindNodePool) rest).
Proof.
  rewrite HandleFinalizerCleanup_unfold.
  erewrite bind_Returns by apply setCleanupCondition_eq. fold (inProgress cr (now w)).
  destruct (StatusUpdate_log (inProgress cr (now w)) w) as (r & w1 & Hsu & Hc1 & _).
  erewrite bind_Returns by exact Hsu. cbv beta iota.
  destruct r as [cr1|err1].
  2:{ eexists _, _, _, _, _, []. split; [reflexivity|]. split; [exact Hc1|].
      split; [reflexivity|]. split; intros [Hfound _]; discriminate. }
  destruct (DeletionTimestamp (ObjectMeta_ cr1)) as [ts|].
  2:{ eexists _, _, _, _, _, []. split; [reflexivity|]. split; [exact Hc1|].
      split; [reflexivity|]. split; intros [Hfound _]; discriminate. }
  erewrite bind_Returns by apply Now_eq. cbv beta iota zeta.
  destruct (hostedcluster.DeletionTimeout <? Sub (now w1) ts).
  - unfold timedOut. erewrite bind_Returns by apply setCleanupCondition_eq.
    match goal with |- context [StatusUpdate ?c] =>
      destruct (StatusUpdate_log c w1) as (r2 & w2 & Hsu2 & Hc2 & _) end.
    erewrite bind_Returns by exact Hsu2. cbv beta iota.
    eexists _, _, _, _, _, [_]. split; [reflexivity|].
    split; [rewrite Hc2, Hc1; trace_eq|].
    split; [reflexivity|]. split; intros [Hfound _]; discriminate.
  - destruct (drainDependents_trace cr1 w1)
      as (cr' & result & err & w' & e0 & rest & Hdrain & Hcalls & Hord & Hhc & Hnp).
    eexists cr', result, err, w', _, _. split; [exact Hdrain|].
    split; [rewrite Hcalls, Hc1; trace_eq|]. auto.
Qed.

(** C3. In every invocation of [HandleFinalizerCleanup], a request on the
    NodePool (read or delete) comes only after an entry of the log has
    confirmed the HostedCluster absent, and a request on a secret only after
    entries have confirmed both the HostedCluster and the NodePool absent.
    Whenever the invocation sees a dependency kind still present (its read
    finds the object, and the delete it may issue is not answered with an
    error), it returns a requeue-after of 10 seconds and no error, and its
    log holds no request on a later kind. *)
Theorem teardown_order (durationString : Duration -> string) (cr : DPFHCPBridge)
        (w : World) :
  exists cr' result err w' trace,
    hostedcluster.HandleFinalizerCleanup durationString cr w =
      (Returns (cr', result, err), w')
    /\ calls w' = calls w ++ trace
    /\ (forall pre entry post,
          trace = pre ++ entry :: post ->
          (requestKind entry.1 = KindNodePool ->
           existsb (confirmsAbsent KindHostedCluster) pre = true)
          /\ (requestKind entry.1 = KindSecret ->
              existsb (confirmsAbsent KindHostedCluster) pre = true
              /\ existsb (confirmsAbsent KindNodePool) pre = true))
    /\ (stillPresent KindHostedCluster trace ->
        ctrl.RequeueAfter result = 10 * Second /\ ctrl.Requeue result = false
        /\ err = None
        /\ Forall (fun entry => requestKind entry.1 <> KindNodePool
                                /\ requestKind entry.1 <> KindSecret) trace)
    /\ (stillPresent KindNodePool trace ->
        ctrl.RequeueAfter result = 10 * Second /\ ctrl.Requeue result = false
        /\ err = None
        /\ Forall (fun entry => requestKind entry.1 <> KindSecret) trace).
Proof.
  destruct (HandleFinalizerCleanup_trace durationString cr w)
    as (cr' & result & err & w' & e1 & rest & Hrun & Hcalls & Hord & Hhc & Hnp).
  exists cr', result, err, w',
    ((ReqStatusUpdate (ODPFHCPBridge (inProgress cr (now w))), e1) :: rest).
  split; [exact Hrun|]. split; [exact Hcalls|]. split; [|split].
  - apply ordered_sound. exact Hord.
  - intros [Hfound Hrefused]. cbn in Hfound, Hrefused.
    destruct (Hhc (conj Hfound Hrefused)) as (-> & -> & Hkinds).
    repeat split; try reflexivity. constructor.
    + cbn. split; discriminate.
    + eapply Forall_impl; [exact Hkinds|]. intros entry ->. split; discriminate.
  - intros [Hfound Hrefused]. cbn in Hfound, Hrefused.
    destruct (Hnp (conj Hfound Hrefused)) as (-> & -> & Hkinds).
    repeat split; try reflexivity. constructor.
    + cbn. discriminate.
    + eapply Forall_impl; [exact Hkinds|]. intros entry [-> | ->]; discriminate.
Qed.

(** *** Timeout *)

Lemma DeletionTimeout_value : hostedcluster.DeletionTimeout = 1800000000000.
Proof. reflexivity. Qed.

(** Saturation is far away from the timeout: the test on the saturated
    difference is the test on the difference. *)
Lemma timeout_test (n t : Time) :
  (hostedcluster.DeletionTimeout <? Sub n t) = true <-> hostedcluster.DeletionTimeout < n - t.
Proof.
  rewrite Z.ltb_lt, DeletionTimeout_value. unfold Sub, minDuration, maxDuration.
  destruct (n - t <? - 2 ^ 63) eqn:Hlow; [apply Z.ltb_lt in Hlow; lia|].
  apply Z.ltb_ge in Hlow.
  destruct (2 ^ 63 - 1 <? n - t) eqn:Hhigh; [apply Z.ltb_lt in Hhigh; lia|].
  reflexivity.
Qed.


(** What the store holds after it accepted a status write of [cr] over
    [old]: the metadata and spec it had, the next version token, the status
    sent. *)
Definition persisted (old cr : DPFHCPBridge) : DPFHCPBridge :=
  {| ObjectMeta_ :=
       setMeta_ResourceVersion (ResourceVersion (ObjectMeta_ old) + 1) (ObjectMeta_ old);
     Spec := Spec old;
     Status_ := Status_ cr |}.

Lemma StatusUpdate_served (cr old : DPFHCPBridge) (w : World) :
  faults w (ReqStatusUpdate (ODPFHCPBridge cr)) = None ->
  bridges (store w) !! keyOf cr = Some old ->
  ResourceVersion (ObjectMeta_ old) = ResourceVersion (ObjectMeta_ cr) ->
  StatusUpdate cr w =
    (Returns (Ok (persisted old cr)),
     logCall (ReqStatusUpdate (ODPFHCPBridge cr)) None
       (withStore (setObjects (<[keyOf cr := persisted old cr]> (bridges (store w)))
                     (store w)) w)).
Proof.
  intros Hfault Hold Hrv. unfold StatusUpdate.
  rewrite Hfault, Hold, (proj2 (Z.eqb_eq _ _) Hrv). reflexivity.
Qed.

Definition timeoutMessage (durationString : Duration -> string) (elapsed : Duration)
  : string :=
  "HostedCluster deletion timeout exceeded after " +:+ durationString elapsed.

(** The cleanup condition of a parent. *)
Definition cleanupCondition (cr : DPFHCPBridge) : option Condition :=
  meta.FindStatusCondition (Conditions (Status_ cr)) HostedClusterCleanup.

Lemma withCleanupCondition_find (cr : DPFHCPBridge) (t : Time) (status : ConditionStatus)
      (reason message : string) :
  exists c,
    cleanupCondition (withCleanupCondition cr t status reason message) = Some c
    /\ Status c = status /\ Reason c = reason /\ Message c = message.
Proof.
  unfold cleanupCondition, withCleanupCondition.
  destruct (SetStatusCondition_find t (Conditions (Status_ cr))
              {| Type_ := HostedClusterCleanup; Status := status; Reason := reason;
                 Message := message; LastTransitionTime := t; ObservedGeneration := 0 |})
    as (c & Hfind & _ & Hs & Hr & Hm & _).
  exists c. cbn in *. auto.
Qed.

(** C2 (as amended). Take an invocation whose first status write the store
    accepts, for a parent stored with deletion timestamp [ts].  When the
    time elapsed since [ts] is strictly more than the 30 minutes of
    [DeletionTimeout], [HandleFinalizerCleanup] sets the cleanup condition
    to False with reason "CleanupTimeout", tries once to persist it
    (whatever the store answers), and returns no error and no requeue; the
    two status writes are its only requests, so no dependent is read or
    deleted, and the parent keeps its finalizers and deletion timestamp, in
    memory and in the store.  When the elapsed time is at most the timeout,
    and in particular equal to it, the branch is not taken: the invocation
    goes on to read the HostedCluster. *)
Theorem teardown_timeout (durationString : Duration -> string) (cr stored : DPFHCPBridge)
        (ts : Time) (w : World) :
  faults w (ReqStatusUpdate (ODPFHCPBridge (inProgress cr (now w)))) = None ->
  bridges (store w) !! keyOf cr = Some stored ->
  keyOf stored = keyOf cr ->
  ResourceVersion (ObjectMeta_ stored) = ResourceVersion (ObjectMeta_ cr) ->
  DeletionTimestamp (ObjectMeta_ stored) = Some ts ->
  (hostedcluster.DeletionTimeout < now w - ts ->
   exists cr' w' payload e2,
     hostedcluster.HandleFinalizerCleanup durationString cr w =
       (Returns (cr', ctrl.noResult, None), w')
     /\ calls w' =
        calls w ++ [ (ReqStatusUpdate (ODPFHCPBridge (inProgress cr (now w))), None);
                     (ReqStatusUpdate (ODPFHCPBridge payload), e2) ]
     /\ (exists c, cleanupCondition payload = Some c
                   /\ Status c = ConditionFalse /\ Reason c = "CleanupTimeout"
                   /\ Message c = timeoutMessage durationString (Sub (now w) ts))
     /\ Status_ cr' = Status_ payload
     /\ Finalizers (ObjectMeta_ cr') = Finalizers (ObjectMeta_ stored)
     /\ (exists kept, bridges (store w') !! keyOf cr = Some kept
                      /\ Finalizers (ObjectMeta_ kept) = Finalizers (ObjectMeta_ stored)
                      /\ DeletionTimestamp (ObjectMeta_ kept) = Some ts)
     /\ hostedClusters (store w') = hostedClusters (store w)
     /\ nodePools (store w') = nodePools (store w)
     /\ secrets (store w') = secrets (store w))
  /\ (now w - ts <= hostedcluster.DeletionTimeout ->
      exists r w' e0 rest,
        hostedcluster.HandleFinalizerCleanup durationString cr w = (Returns r, w')
        /\ calls w' =
           calls w ++ (ReqStatusUpdate (ODPFHCPBridge (inProgress cr (now w))), None)
                   :: (ReqGet KindHostedCluster (keyOf cr), e0) :: rest).
Proof.
  intros Hfault Hstored Hkey Hrv Hts.
  assert (Hkey0 : keyOf (inProgress cr (now w)) = keyOf cr) by reflexivity.
  pose proof (StatusUpdate_served (inProgress cr (now w)) stored w Hfault) as Hsu.
  rewrite Hkey0 in Hsu. specialize (Hsu Hstored Hrv).
  set (cr1 := persisted stored (inProgress cr (now w))) in *.
  set (w1 := logCall _ None _) in Hsu.
  assert (Hts1 : DeletionTimestamp (ObjectMeta_ cr1) = Some ts) by exact Hts.
  rewrite HandleFinalizerCleanup_unfold.
  erewrite bind_Returns by apply setCleanupCondition_eq. fold (inProgress cr (now w)).
  erewrite bind_Returns by exact Hsu. cbv beta iota. rewrite Hts1.
  erewrite bind_Returns by apply Now_eq. cbv beta iota zeta.
  change (now w1) with (now w).
  split.
  - intros Hlate. rewrite (proj2 (timeout_test (now w) ts) Hlate).
    unfold timedOut. erewrite bind_Returns by apply setCleanupCondition_eq.
    change (now w1) with (now w).
    set (payload := withCleanupCondition cr1 (now w) ConditionFalse "CleanupTimeout" _).
    assert (Hlook : bridges (store w1) !! keyOf payload = Some cr1).
    { change (keyOf payload) with (keyOf stored). rewrite Hkey.
      change (bridges (store w1)) with (<[keyOf cr := cr1]> (bridges (store w))).
      apply lookup_insert_eq. }
    assert (Hcond : exists c, cleanupCondition payload = Some c
                   /\ Status c = ConditionFalse /\ Reason c = "CleanupTimeout"
                   /\ Message c = timeoutMessage durationString (Sub (now w) ts)).
    { apply withCleanupCondition_find. }
    destruct (faults w1 (ReqStatusUpdate (ODPFHCPBridge payload))) as [e|] eqn:Hfault2.
    + (* the second write is refused *)
      assert (Hsu2 : StatusUpdate payload w1 =
                (Returns (Err e), logCall (ReqStatusUpdate (ODPFHCPBridge payload)) (Some e) w1)).
      { unfold StatusUpdate. now rewrite Hfault2. }
      erewrite bind_Returns by exact Hsu2. cbv beta iota.
      eexists _, _, payload, _. split; [reflexivity|].
      split; [cbn; trace_eq|]. split; [exact Hcond|]. split; [reflexivity|].
      split; [reflexivity|]. split; [|repeat split].
      exists cr1. split; [|split; [reflexivity | exact Hts]].
      change (keyOf payload) with (keyOf stored) in Hlook. rewrite Hkey in Hlook. exact Hlook.
    + (* the second write is served *)
      pose proof (StatusUpdate_served payload cr1 w1 Hfault2 Hlook eq_refl) as Hsu2.
      erewrite bind_Returns by exact Hsu2. cbv beta iota.
      eexists _, _, payload, _. split; [reflexivity|].
      split; [cbn; trace_eq|]. split; [exact Hcond|]. split; [reflexivity|].
      split; [reflexivity|]. split; [|repeat split].
      exists (persisted cr1 payload). split; [|split; [reflexivity | exact Hts]].
      change (keyOf payload) with (keyOf stored). rewrite Hkey. cbn.
      apply lookup_insert_eq.
  - intros Hearly.
    destruct (hostedcluster.DeletionTimeout <? Sub (now w) ts) eqn:Htest.
    { apply timeout_test in Htest. lia. }
    destruct (drainDependents_trace cr1 w1)
      as (cr' & result & err & w' & e0 & rest & Hdrain & Hcalls & _).
    eexists _, w', e0, rest. split; [exact Hdrain|].
    rewrite Hcalls. change (Namespace (ObjectMeta_ cr1), Name (ObjectMeta_ cr1))
      with (keyOf stored). rewrite Hkey. cbn. trace_eq.
Qed.

(** ** Which operations write the status, and when *)

(** The condition [setCondition] computes. *)
Definition metalLBCondition (bridge : DPFHCPBridge) (t : Time) (status : ConditionStatus)
           (reason message : string) : Condition :=
  {| Type_ := MetalLBConfigured; Status := status; Reason := reason; Message := message;
     LastTransitionTime := t; ObservedGeneration := Generation (ObjectMeta_ bridge) |}.

(** The event [setCondition] records with a change. *)
Definition conditionEvent (bridge : DPFHCPBridge) (status : ConditionStatus)
           (message : string) : Event :=
  {| InvolvedObject := keyOf bridge;
     EventType := match status with ConditionFalse => "Warning" | _ => "Normal" end;
     EventReason := match status with
                    | ConditionFalse => "MetalLBConfigurationFailed"
                    | _ => "MetalLBConfigured"
                    end;
     EventMessage := message |}.

Lemma setCondition_unchanged (bridge : DPFHCPBridge) (status : ConditionStatus)
      (reason message : string) (w : World) :
  (meta.SetStatusCondition (now w) (Conditions (Status_ bridge))
     (metalLBCondition bridge (now w) status reason message)).2 = false ->
  metallb.setCondition bridge status reason message w =
  (Returns (withConditions bridge
              (meta.SetStatusCondition (now w) (Conditions (Status_ bridge))
                 (metalLBCondition bridge (now w) status reason message)).1, None), w).
Proof.
  intros Hsame. unfold metallb.setCondition.
  erewrite bind_Returns by apply Now_eq. cbv beta.
  fold (metalLBCondition bridge (now w) status reason message).
  destruct (meta.SetStatusCondition _ _ _) as [conditions changed].
  cbn in Hsame. subst changed. reflexivity.
Qed.

Lemma setCondition_changed (bridge : DPFHCPBridge) (status : ConditionStatus)
      (reason message : string) (w : World) :
  (meta.SetStatusCondition (now w) (Conditions (Status_ bridge))
     (metalLBCondition bridge (now w) status reason message)).2 = true ->
  let updated :=
    withConditions bridge
      (meta.SetStatusCondition (now w) (Conditions (Status_ bridge))
         (metalLBCondition bridge (now w) status reason message)).1 in
  exists r w' e,
    metallb.setCondition bridge status reason message w = (Returns r, w')
    /\ calls w' = calls w ++ [(ReqStatusUpdate (ODPFHCPBridge updated), e)]
    /\ events w' = events w ++ [conditionEvent bridge status message]
    /\ r.2 = (Wrapped "updating MetalLBConfigured condition: " <$> e)
    /\ Status_ r.1 = Status_ updated
    /\ now w' = now w.
Proof.
  intros Hchanged updated. unfold metallb.setCondition.
  erewrite bind_Returns by apply Now_eq. cbv beta.
  fold (metalLBCondition bridge (now w) status reason message).
  subst updated.
  destruct (meta.SetStatusCondition _ _ _) as [conditions changed].
  cbn in Hchanged. subst changed. cbn [fst snd].
  erewrite bind_Returns by reflexivity.
  set (updated := withConditions bridge conditions).
  set (w0 := {| store := store w; faults := faults w; now := now w; calls := calls w;
                events := events w ++ _ |}).
  destruct (StatusUpdate_log updated w0) as (r & w' & Hsu & Hc & _ & Hn & He).
  erewrite bind_Returns by exact Hsu.
  assert (Hstatus : match r with Ok b => Status_ b = Status_ updated | Err _ => True end).
  { revert Hsu. unfold StatusUpdate.
    destruct (faults w0 _); [intros Heq; inversion Heq; exact I|].
    destruct (bridges (store w0) !! keyOf updated) as [old|];
      [|intros Heq; inversion Heq; exact I].
    destruct (_ =? _); intros Heq; inversion Heq; [reflexivity | exact I]. }
  destruct r as [b|err]; eexists _, w', _; (split; [reflexivity|]);
    (split; [exact Hc|]); (split; [exact He|]); cbn; auto.
Qed.

(** C4 (as amended). [setCondition] writes the parent's status only when
    [SetStatusCondition] reports a change, that is when the parent has no
    MetalLBConfigured condition yet or the one it has differs from the
    computed one in status, reason, message or observed generation.  An
    unchanged condition leaves the world as it is: no request, no event.  A
    changed one gives exactly one status write and one event.  Calling it
    again with the same arguments, on the parent the first call left (its
    generation unchanged), gives no further write and no further event: one
    write and one event in total when the first call changed the condition,
    none otherwise.  [HandleFinalizerCleanup] does not deduplicate: every
    invocation begins with a status write, whatever the stored condition
    is. *)
Theorem condition_writes :
  (forall (bridge : DPFHCPBridge) (status : ConditionStatus) (reason message : string)
          (w : World),
      let computed := metalLBCondition bridge (now w) status reason message in
      let set := meta.SetStatusCondition (now w) (Conditions (Status_ bridge)) computed in
      let updated := withConditions bridge set.1 in
      (set.2 = true <->
       match meta.FindStatusCondition (Conditions (Status_ bridge)) MetalLBConfigured with
       | None => True
       | Some old => conditionDiffers old computed
       end)
      /\ (set.2 = false ->
          metallb.setCondition bridge status reason message w = (Returns (updated, None), w))
      /\ (set.2 = true ->
          exists r w' e,
            metallb.setCondition bridge status reason message w = (Returns r, w')
            /\ calls w' = calls w ++ [(ReqStatusUpdate (ODPFHCPBridge updated), e)]
            /\ events w' = events w ++ [conditionEvent bridge status message])
      /\ (forall r1 w1,
            metallb.setCondition bridge status reason message w = (Returns r1, w1) ->
            Generation (ObjectMeta_ r1.1) = Generation (ObjectMeta_ bridge) ->
            metallb.setCondition r1.1 status reason message w1 = (Returns (r1.1, None), w1)))
  /\ (forall (durationString : Duration -> string) (cr : DPFHCPBridge) (w : World),
        exists out w' e rest,
          hostedcluster.HandleFinalizerCleanup durationString cr w = (Returns out, w')
          /\ calls w' =
             calls w ++ (ReqStatusUpdate (ODPFHCPBridge (inProgress cr (now w))), e) :: rest).
Proof.
  split.
  - intros bridge status reason message w computed set updated.
    split; [apply (SetStatusCondition_changed (now w) _ computed)|].
    split; [apply setCondition_unchanged|].
    split.
    + intros Hchanged.
      destruct (setCondition_changed bridge status reason message w Hchanged)
        as (r & w' & e & Hrun & Hcalls & Hevents & _).
      exists r, w', e. auto.
    + intros r1 w1 Hrun Hgen.
      assert (Hpost : Status_ r1.1 = Status_ updated /\ now w1 = now w).
      { destruct set.2 eqn:Hchanged.
        - destruct (setCondition_changed bridge status reason message w Hchanged)
            as (r & w' & e & Hrun' & _ & _ & _ & Hstatus & Hnow).
          rewrite Hrun in Hrun'. inversion Hrun'; subst. auto.
        - rewrite (setCondition_unchanged bridge status reason message w Hchanged) in Hrun.
          inversion Hrun; subst. auto. }
      destruct Hpost as [Hstatus Hnow].
      assert (Hconditions : Conditions (Status_ r1.1) = set.1).
      { rewrite Hstatus. reflexivity. }
      rewrite setCondition_unchanged.
      * rewrite Hconditions, Hnow. unfold set at 1.
        rewrite (SetStatusCondition_again (now w) (now w) _ computed) by
          (try reflexivity; cbn; exact Hgen).
        cbn [fst]. fold set. rewrite <- Hconditions, withConditions_id. reflexivity.
      * rewrite Hconditions, Hnow. unfold set.
        rewrite (SetStatusCondition_again (now w) (now w) _ computed) by
          (try reflexivity; cbn; exact Hgen).
        reflexivity.
  - intros durationString cr w.
    destruct (HandleFinalizerCleanup_trace durationString cr w)
      as (cr' & result & err & w' & e1 & rest & Hrun & Hcalls & _).
    eexists _, w', e1, rest. split; [exact Hrun | exact Hcalls].
Qed.

(** ** Teardown tolerates what is already gone *)

(** The API server serves every read and delete of a secret, or answers
    it not-found (the secret vanished in between). *)
Definition servesSecrets (w : World) : Prop :=
  forall key err,
    (faults w (ReqGet KindSecret key) = Some err -> apierrors.IsNotFound err = true)
    /\ (faults w (ReqDelete KindSecret key) = Some err -> apierrors.IsNotFound err = true).

Lemma deleteSecret_served (namespace secretName : string) (w : World) :
  servesSecrets w ->
  exists w', hostedcluster.deleteSecret namespace secretName w = (Returns None, w')
             /\ faults w' = faults w.
Proof.
  intros Hserved. unfold hostedcluster.deleteSecret.
  destruct (Get_log Secret (namespace, secretName) w)
    as [(err & Hget & Hwhy)|(obj & Hget & _)];
    erewrite bind_Returns by exact Hget; cbv beta iota.
  - assert (Hnf : apierrors.IsNotFound err = true).
    { destruct Hwhy as [Hfault|(_ & _ & ->)]; [|reflexivity].
      exact (proj1 (Hserved (namespace, secretName) err) Hfault). }
    rewrite Hnf. eexists. split; reflexivity.
  - set (w1 := logCall _ None w).
    assert (Hdelete : exists e w',
               Delete obj w1 = (Returns e, w') /\ faults w' = faults w
               /\ match e with Some err => apierrors.IsNotFound err = true | None => True end).
    { unfold Delete. change (kind Secret) with KindSecret.
      change (faults w1) with (faults w).
      destruct (faults w (ReqDelete KindSecret (keyOf obj))) as [err|] eqn:Hfault.
      - eexists _, _. split; [reflexivity|]. split; [reflexivity|].
        exact (proj2 (Hserved (keyOf obj) err) Hfault).
      - destruct (objects (store w1) !! keyOf obj) as [old|];
          eexists _, _; (split; [reflexivity|]); (split; [reflexivity|]); reflexivity. }
    destruct Hdelete as (e & w' & Hdel & Hf & He).
    erewrite bind_Returns by exact Hdel. cbv beta iota.
    destruct e as [err|]; [rewrite He|]; exists w'; split; (reflexivity || exact Hf).
Qed.

Lemma deleteSecretsLoop_served (namespace : string) (secretNames : list string) (w : World) :
  servesSecrets w ->
  exists w', hostedcluster.deleteSecretsLoop namespace secretNames w = (Returns None, w')
             /\ faults w' = faults w.
Proof.
  revert w. induction secretNames as [|name rest IH]; intros w Hserved; cbn.
  - eexists. split; reflexivity.
  - destruct (deleteSecret_served namespace name w Hserved) as (w1 & Hone & Hf1).
    erewrite bind_Returns by exact Hone. cbv beta iota.
    destruct (IH w1) as (w2 & Hrest & Hf2).
    + unfold servesSecrets. rewrite Hf1. exact Hserved.
    + exists w2. split; [exact Hrest|]. congruence.
Qed.

(** C7. During teardown a read of a dependency that comes back not-found
    or no-match (the kind is not installed) makes [deleteResource] report
    the dependency gone, with no error and no delete.  Whatever subset of
    the three derived secrets is already absent, [deleteSecrets] succeeds
    against a store that serves its requests (or answers them not-found);
    for an absent secret [deleteSecret] issues only the read and leaves the
    store as it is; with all three absent the log holds three reads and
    nothing else; and the step succeeds again when it is repeated. *)
Theorem teardown_tolerates_absence :
  (forall (T : Type) `{KubeObject T} (cr : DPFHCPBridge) (resourceKind : string)
          (w w1 : World) (err : error),
      Get T (Namespace (ObjectMeta_ cr), Name (ObjectMeta_ cr)) w = (Returns (Err err), w1) ->
      apierrors.IsNotFound err = true \/ meta.IsNoMatchError err = true ->
      hostedcluster.deleteResource T cr resourceKind w = (Returns (true, None), w1)
      /\ calls w1 =
         calls w ++ [(ReqGet (kind T) (Namespace (ObjectMeta_ cr), Name (ObjectMeta_ cr)),
                      Some err)]
      /\ store w1 = store w)
  /\ (forall (cr : DPFHCPBridge) (w : World),
        servesSecrets w ->
        exists w',
          hostedcluster.deleteSecrets cr w = (Returns None, w')
          /\ exists w'', hostedcluster.deleteSecrets cr w' = (Returns None, w''))
  /\ (forall (namespace secretName : string) (w : World),
        faults w (ReqGet KindSecret (namespace, secretName)) = None ->
        secrets (store w) !! (namespace, secretName) = None ->
        exists w',
          hostedcluster.deleteSecret namespace secretName w = (Returns None, w')
          /\ calls w' =
             calls w ++ [(ReqGet KindSecret (namespace, secretName),
                          Some (errNotFound (namespace, secretName)))]
          /\ store w' = store w)
  /\ (forall (cr : DPFHCPBridge) (w : World),
        (forall name, In name (hostedcluster.secretNamesOf cr) ->
                      faults w (ReqGet KindSecret (Namespace (ObjectMeta_ cr), name)) = None
                      /\ secrets (store w) !! (Namespace (ObjectMeta_ cr), name) = None) ->
        exists w',
          hostedcluster.deleteSecrets cr w = (Returns None, w')
          /\ calls w' =
             calls w ++
             map (fun name =>
                    (ReqGet KindSecret (Namespace (ObjectMeta_ cr), name),
                     Some (errNotFound (Namespace (ObjectMeta_ cr), name))))
                 (hostedcluster.secretNamesOf cr)
          /\ store w' = store w).
Proof.
  assert (Habsent : forall (namespace secretName : string) (w : World),
        faults w (ReqGet KindSecret (namespace, secretName)) = None ->
        secrets (store w) !! (namespace, secretName) = None ->
        hostedcluster.deleteSecret namespace secretName w =
          (Returns None,
           logCall (ReqGet KindSecret (namespace, secretName))
             (Some (errNotFound (namespace, secretName))) w)).
  { intros namespace secretName w Hfault Hnone. unfold hostedcluster.deleteSecret.
    assert (Hget : Get Secret (namespace, secretName) w =
              (Returns (Err (errNotFound (namespace, secretName))),
               logCall (ReqGet KindSecret (namespace, secretName))
                 (Some (errNotFound (namespace, secretName))) w)).
    { unfold Get. change (kind Secret) with KindSecret. rewrite Hfault.
      change (objects (store w)) with (secrets (store w)). now rewrite Hnone. }
    erewrite bind_Returns by exact Hget. reflexivity. }
  split; [|split; [|split]].
  - intros T HT cr resourceKind w w1 err Hget Herr.
    assert (Hw1 : w1 = logCall (ReqGet (kind T)
                          (Namespace (ObjectMeta_ cr), Name (ObjectMeta_ cr))) (Some err) w).
    { destruct (Get_log T (Namespace (ObjectMeta_ cr), Name (ObjectMeta_ cr)) w)
        as [(e & Hget' & _)|(obj & Hget' & _)]; rewrite Hget in Hget'; now inversion Hget'. }
    split; [|subst w1; split; reflexivity].
    unfold hostedcluster.deleteResource. erewrite bind_Returns by exact Hget.
    cbv beta iota. destruct (apierrors.IsNotFound err); [reflexivity|].
    destruct Herr as [Hnf|Hnm]; [discriminate|]. now rewrite Hnm.
  - intros cr w Hserved. unfold hostedcluster.deleteSecrets.
    destruct (deleteSecretsLoop_served (Namespace (ObjectMeta_ cr))
                (hostedcluster.secretNamesOf cr) w Hserved) as (w' & Hrun & Hf).
    exists w'. split; [exact Hrun|].
    destruct (deleteSecretsLoop_served (Namespace (ObjectMeta_ cr))
                (hostedcluster.secretNamesOf cr) w') as (w'' & Hrun' & _).
    + unfold servesSecrets. rewrite Hf. exact Hserved.
    + exists w''. exact Hrun'.
  - intros namespace secretName w Hfault Hnone. eexists.
    split; [apply Habsent; assumption|]. split; reflexivity.
  - intros cr w. unfold hostedcluster.deleteSecrets.
    generalize (hostedcluster.secretNamesOf cr) as names.
    intros names. revert w.
    induction names as [|name rest IH]; intros w Hnone; cbn.
    + eexists. split; [reflexivity|]. split; [now rewrite app_nil_r | reflexivity].
    + erewrite bind_Returns.
      2:{ apply Habsent; apply Hnone; now left. }
      cbv beta iota.
      destruct (IH (logCall (ReqGet KindSecret (Namespace (ObjectMeta_ cr), name))
                      (Some (errNotFound (Namespace (ObjectMeta_ cr), name))) w))
        as (w' & Hrun & Hcalls & Hstore).
      * intros n Hn. apply Hnone. now right.
      * exists w'. split; [exact Hrun|]. split; [rewrite Hcalls; cbn; trace_eq | exact Hstore].
Qed.

(** ** End to end: the MetalLB resources of a parent *)

Lemma ownershipLabels_lookup (bridge : DPFHCPBridge) :
  metallb.ownershipLabels bridge !! LabelDPFHCPBridgeName = Some (Name (ObjectMeta_ bridge))
  /\ metallb.ownershipLabels bridge !! LabelDPFHCPBridgeNamespace =
     Some (Namespace (ObjectMeta_ bridge)).
Proof.
  unfold metallb.ownershipLabels. split.
  - rewrite lookup_insert_ne by discriminate. apply lookup_insert_eq.
  - apply lookup_insert_eq.
Qed.

Lemma built_is_owned {T : Type} `{KubeObject T} (obj : T) (bridge : DPFHCPBridge) :
  Labels (GetObjectMeta obj) = Some (metallb.ownershipLabels bridge) ->
  metallb.isOwnedByBridge obj bridge = true.
Proof.
  intros Hlabels. unfold metallb.isOwnedByBridge, metallb.mapIndex. rewrite Hlabels.
  destruct (ownershipLabels_lookup bridge) as [-> ->].
  now rewrite !String.eqb_refl.
Qed.

(** The MetalLBConfigured condition of a parent. *)
Definition metalLBConfigured (bridge : DPFHCPBridge) : option Condition :=
  meta.FindStatusCondition (Conditions (Status_ bridge)) MetalLBConfigured.

Lemma setCondition_sets (bridge : DPFHCPBridge) (status : ConditionStatus)
      (reason message : string) (w : World) :
  exists r w' c,
    metallb.setCondition bridge status reason message w = (Returns r, w')
    /\ metalLBConfigured r.1 = Some c
    /\ Status c = status /\ Reason c = reason /\ Message c = message.
Proof.
  destruct (SetStatusCondition_find (now w) (Conditions (Status_ bridge))
              (metalLBCondition bridge (now w) status reason message))
    as (c & Hfind & _ & Hs & Hr & Hm & _).
  destruct (meta.SetStatusCondition (now w) (Conditions (Status_ bridge))
              (metalLBCondition bridge (now w) status reason message)).2 eqn:Hchanged.
  - destruct (setCondition_changed bridge status reason message w Hchanged)
      as (r & w' & e & Hrun & _ & _ & _ & Hstatus & _).
    exists r, w', c. split; [exact Hrun|].
    unfold metalLBConfigured. rewrite Hstatus. auto.
  - eexists _, _, c. split; [apply setCondition_unchanged, Hchanged|]. auto.
Qed.

(** C9 (as amended). For a parent [P] in namespace [N], the pool builder
    gives a pool named [P] in the operators' namespace with the single
    address "<virtualIP>/32", allocation restricted to the namespace
    "clusters-P" and auto-assignment on; the advertisement builder gives an
    object named "advertise-P" that references the pool "P"; both carry the
    ownership labels (P, N) and pass the ownership check.  When the parent
    asks for load-balancer exposure and both upserts succeed,
    [ConfigureMetalLB] leaves the parent with the MetalLBConfigured
    condition True, reason "MetalLBReady", message "MetalLB configured
    successfully". *)
Theorem metallb_end_to_end (bridge : DPFHCPBridge) :
  let P := Name (ObjectMeta_ bridge) in
  let N := Namespace (ObjectMeta_ bridge) in
  let pool := metallb.buildIPAddressPool bridge in
  let adv := metallb.buildL2Advertisement bridge in
  (keyOf pool = (OpenshiftOperatorsNamespace, P)
   /\ Addresses (pool_Spec pool) = Some [VirtualIP (Spec bridge) +:+ "/32"]
   /\ (Namespaces <$> AllocateTo (pool_Spec pool)) = Some (Some ["clusters-" +:+ P])
   /\ AutoAssign (pool_Spec pool) = Some true)
  /\ (keyOf adv = (OpenshiftOperatorsNamespace, "advertise-" +:+ P)
      /\ IPAddressPools (l2_Spec adv) = Some [P])
  /\ (forall labels, In labels [Labels (pool_ObjectMeta pool); Labels (l2_ObjectMeta adv)] ->
        exists m : gmap string string,
          labels = Some m
          /\ m !! LabelDPFHCPBridgeName = Some P
          /\ m !! LabelDPFHCPBridgeNamespace = Some N)
  /\ metallb.isOwnedByBridge pool bridge = true
  /\ metallb.isOwnedByBridge adv bridge = true
  /\ (forall w w1 w2 : World,
        ShouldExposeThroughLoadBalancer bridge = true ->
        metallb.ensureIPAddressPool bridge w = (Returns None, w1) ->
        metallb.ensureL2Advertisement bridge w1 = (Returns None, w2) ->
        exists bridge' err w3 c,
          metallb.ConfigureMetalLB bridge w = (Returns (bridge', ctrl.noResult, err), w3)
          /\ metalLBConfigured bridge' = Some c
          /\ Status c = ConditionTrue
          /\ Reason c = "MetalLBReady"
          /\ Message c = "MetalLB configured successfully").
Proof.
  cbv zeta. split; [repeat split|]. split; [repeat split|].
  split; [|split; [|split]].
  - intros labels [<- | [<- | []]]; exists (metallb.ownershipLabels bridge);
      (split; [reflexivity|]); apply ownershipLabels_lookup.
  - now apply built_is_owned.
  - now apply built_is_owned.
  - intros w w1 w2 Hexpose Hpool Hl2.
    unfold metallb.ConfigureMetalLB. rewrite Hexpose. cbn [negb].
    erewrite bind_Returns by exact Hpool. cbv beta iota.
    erewrite bind_Returns by exact Hl2. cbv beta iota.
    destruct (setCondition_sets bridge ConditionTrue "MetalLBReady"
                "MetalLB configured successfully" w2)
      as (r & w3 & c & Hrun & Hfind & Hs & Hr & Hm).
    erewrite bind_Returns by exact Hrun. cbv beta iota.
    destruct r as [bridge' [err|]]; cbn [fst snd] in *;
      eexists bridge', _, w3, c; (split; [reflexivity|]); auto.
Qed.

(* ===================================================================== *)
(** * The properties at work on the sample worlds *)
(* ===================================================================== *)

(** A world in which the operator's two names are taken by resources it
    does not own. *)
Definition foreignWorld : World :=
  Sample.world
    (Sample.storeOf Sample.bridge (Some Sample.foreignPool) (Some Sample.foreignL2)
       None None [])
    Sample.noFaults 100.

(** C1 at work: both upserts refuse the foreign resources and leave them
    alone. *)
Lemma ensure_foreign_ownership_witness :
  (exists w',
      metallb.ensureIPAddressPool Sample.bridge foreignWorld =
        (Returns (Some (metallb.errForeignPool Sample.foreignPool Sample.bridge)), w')
      /\ calls w' = calls foreignWorld ++
                    [(ReqGet KindIPAddressPool (poolKey Sample.bridge), None)]
      /\ store w' = store foreignWorld
      /\ events w' = events foreignWorld)
  /\ (exists w',
        metallb.ensureL2Advertisement Sample.bridge foreignWorld =
          (Returns (Some (metallb.errForeignL2 Sample.foreignL2 Sample.bridge)), w')
        /\ calls w' = calls foreignWorld ++
                      [(ReqGet KindL2Advertisement (l2Key Sample.bridge), None)]
        /\ store w' = store foreignWorld
        /\ events w' = events foreignWorld).
Proof.
  split.
  - apply (proj1 (ensure_foreign_ownership Sample.bridge foreignWorld) Sample.foreignPool).
    + split; vm_compute; reflexivity.
    + vm_compute; reflexivity.
  - apply (proj2 (ensure_foreign_ownership Sample.bridge foreignWorld) Sample.foreignL2).
    + split; vm_compute; reflexivity.
    + vm_compute; reflexivity.
Defined.

(** C8 at work: the pool the operator builds is owned, the foreign one is
    not. *)
Lemma isOwnedByBridge_witness :
  metallb.isOwnedByBridge (metallb.buildIPAddressPool Sample.bridge) Sample.bridge = true
  /\ metallb.isOwnedByBridge Sample.foreignPool Sample.bridge = false.
Proof.
  split.
  - apply (proj1 (isOwnedByBridge_iff (metallb.buildIPAddressPool Sample.bridge)
                    Sample.bridge)).
    exists (metallb.ownershipLabels Sample.bridge).
    repeat split; vm_compute; reflexivity.
  - apply (proj1 (proj2 (isOwnedByBridge_iff Sample.foreignPool Sample.bridge))).
    vm_compute; reflexivity.
Defined.

(** A world in which the operator's own pool and advertisement have
    drifted. *)
Definition driftedWorld : World :=
  Sample.world
    (Sample.storeOf Sample.bridge (Some Sample.driftedPool) (Some Sample.driftedL2)
       None None [])
    Sample.noFaults 100.

(** C6 at work: the drifted pool and the drifted advertisement are each
    put back with one update and one event. *)
Lemma ensure_drift_correction_witness :
  let pool :=
    poolWithSpec Sample.driftedPool (pool_Spec (metallb.buildIPAddressPool Sample.bridge)) in
  let adv :=
    l2WithSpec Sample.driftedL2 (l2_Spec (metallb.buildL2Advertisement Sample.bridge)) in
  (exists w',
      metallb.ensureIPAddressPool Sample.bridge driftedWorld = (Returns None, w')
      /\ calls w' = calls driftedWorld ++
                    [ (ReqGet KindIPAddressPool (poolKey Sample.bridge), None);
                      (ReqUpdate (OIPAddressPool pool), None) ]
      /\ events w' = events driftedWorld ++ [ driftEvent Sample.bridge "IPAddressPool" "P" ]
      /\ store w' =
         setObjects (<[poolKey Sample.bridge := accepted pool]> (pools (store driftedWorld)))
           (store driftedWorld))
  /\ (exists w',
        metallb.ensureL2Advertisement Sample.bridge driftedWorld = (Returns None, w')
        /\ calls w' = calls driftedWorld ++
                      [ (ReqGet KindL2Advertisement (l2Key Sample.bridge), None);
                        (ReqUpdate (OL2Advertisement adv), None) ]
        /\ events w' =
           events driftedWorld ++ [ driftEvent Sample.bridge "L2Advertisement" "advertise-P" ]
        /\ store w' =
           setObjects (<[l2Key Sample.bridge := accepted adv]>
                         (l2advertisements (store driftedWorld)))
             (store driftedWorld)).
Proof.
  cbv zeta. split.
  - apply (proj1 (proj2 (proj2
             (proj1 (ensure_drift_correction Sample.bridge driftedWorld) Sample.driftedPool
                ltac:(split; vm_compute; reflexivity)
                ltac:(vm_compute; reflexivity)
                ltac:(vm_compute; reflexivity))))).
    + vm_compute. discriminate.
    + vm_compute. reflexivity.
  - apply (proj1 (proj2 (proj2
             (proj2 (ensure_drift_correction Sample.bridge driftedWorld) Sample.driftedL2
                ltac:(split; vm_compute; reflexivity)
                ltac:(vm_compute; reflexivity)
                ltac:(vm_compute; reflexivity))))).
    + vm_compute. discriminate.
    + vm_compute. reflexivity.
Defined.

(** The parent was marked for deletion at time 0; its HostedCluster and
    NodePool are still there; the clock shows [t]. *)
Definition terminatingWorld (t : Time) : World :=
  Sample.world
    (Sample.storeOf (Sample.deleted 0) None None (Some Sample.hostedCluster)
       (Some Sample.nodePool) ["P-pull-secret"; "P-ssh-key"; "P-etcd-encryption-key"])
    Sample.noFaults t.

(** C2 at work: one nanosecond after the timeout the invocation gives up,
    with two status writes and nothing else. *)
Lemma teardown_timeout_witness :
  let w := terminatingWorld (hostedcluster.DeletionTimeout + 1) in
  exists cr' w' payload e2,
    hostedcluster.HandleFinalizerCleanup Sample.durationString (Sample.deleted 0) w =
      (Returns (cr', ctrl.noResult, None), w')
    /\ calls w' =
       calls w ++ [ (ReqStatusUpdate (ODPFHCPBridge (inProgress (Sample.deleted 0) (now w))),
                     None);
                    (ReqStatusUpdate (ODPFHCPBridge payload), e2) ]
    /\ (exists c, cleanupCondition payload = Some c
                  /\ Status c = ConditionFalse /\ Reason c = "CleanupTimeout"
                  /\ Message c = timeoutMessage Sample.durationString (Sub (now w) 0))
    /\ Status_ cr' = Status_ payload
    /\ Finalizers (ObjectMeta_ cr') = Finalizers (ObjectMeta_ (Sample.deleted 0))
    /\ (exists kept, bridges (store w') !! keyOf (Sample.deleted 0) = Some kept
                     /\ Finalizers (ObjectMeta_ kept) =
                        Finalizers (ObjectMeta_ (Sample.deleted 0))
                     /\ DeletionTimestamp (ObjectMeta_ kept) = Some 0)
    /\ hostedClusters (store w') = hostedClusters (store w)
    /\ nodePools (store w') = nodePools (store w)
    /\ secrets (store w') = secrets (store w).
Proof.
  cbv zeta.
  apply (proj1 (teardown_timeout Sample.durationString (Sample.deleted 0) (Sample.deleted 0) 0
                  (terminatingWorld (hostedcluster.DeletionTimeout + 1))
                  ltac:(vm_compute; reflexivity) ltac:(vm_compute; reflexivity)
                  ltac:(vm_compute; reflexivity) ltac:(vm_compute; reflexivity)
                  ltac:(vm_compute; reflexivity))).
  vm_compute. reflexivity.
Defined.

(** C2, the claim as stated fails: at exactly the deletion time plus the
    timeout, with the HostedCluster still present, the invocation does not
    take the timeout branch.  It requests the deletion of the HostedCluster,
    asks to be requeued after 10 seconds, and leaves the cleanup condition
    at "CleanupInProgress". *)
Lemma timeout_boundary_not_taken :
  let w := terminatingWorld (0 + hostedcluster.DeletionTimeout) in
  let run := hostedcluster.HandleFinalizerCleanup Sample.durationString (Sample.deleted 0) w in
  now w - 0 = hostedcluster.DeletionTimeout
  /\ hostedClusters (store w) !! ("N", "P") = Some Sample.hostedCluster
  /\ (hostedcluster.IsDeletionTimeoutExceeded (Some 0) w).1 = Returns false
  /\ (exists cr',
        run.1 = Returns (cr', requeueSoon, None)
        /\ (Reason <$> cleanupCondition cr') = Some "CleanupInProgress")
  /\ In (ReqDelete KindHostedCluster ("N", "P"), None) (calls run.2).
Proof.
  cbv zeta. split; [reflexivity|]. split; [vm_compute; reflexivity|].
  split; [vm_compute; reflexivity|]. split.
  - eexists. split; vm_compute; reflexivity.
  - vm_compute. auto.
Qed.

(** C3 at work: with the HostedCluster still present the invocation stops
    at it and asks for the short requeue. *)
Lemma teardown_order_witness :
  exists cr' w',
    hostedcluster.HandleFinalizerCleanup Sample.durationString (Sample.deleted 0)
      (terminatingWorld 100) = (Returns (cr', requeueSoon, None), w')
    /\ Forall (fun entry => requestKind entry.1 <> KindNodePool
                            /\ requestKind entry.1 <> KindSecret) (calls w').
Proof.
  destruct (teardown_order Sample.durationString (Sample.deleted 0) (terminatingWorld 100))
    as (cr' & result & err & w' & trace & Hrun & Hcalls & _ & Hhc & _).
  assert (Htrace : trace = calls w') by (rewrite Hcalls; reflexivity).
  assert (Hseen : stillPresent KindHostedCluster trace).
  { rewrite Htrace. vm_compute in Hrun. inversion Hrun; subst w'.
    split; vm_compute; reflexivity. }
  destruct (Hhc Hseen) as (Hafter & Hrequeue & -> & Hkinds).
  exists cr', w'. split; [|now rewrite <- Htrace].
  rewrite Hrun. destruct result as [requeue after]. cbn in Hafter, Hrequeue.
  subst. reflexivity.
Defined.

(** The live parent alone in the store: nothing of MetalLB exists yet. *)
Definition freshWorld : World :=
  Sample.world (Sample.storeOf Sample.bridge None None None None []) Sample.noFaults 100.

(** C4 at work: the first call of [setCondition] writes once and records
    one event, the second call with the same arguments does nothing. *)
Lemma condition_writes_witness :
  exists r w',
    metallb.setCondition Sample.bridge ConditionTrue "MetalLBReady"
      "MetalLB configured successfully" freshWorld = (Returns r, w')
    /\ length (calls w') = 1%nat
    /\ length (events w') = 1%nat
    /\ metallb.setCondition r.1 ConditionTrue "MetalLBReady"
         "MetalLB configured successfully" w' = (Returns (r.1, None), w').
Proof.
  destruct (proj1 condition_writes Sample.bridge ConditionTrue "MetalLBReady"
              "MetalLB configured successfully" freshWorld)
    as (_ & _ & Hchanged & Hagain).
  destruct (Hchanged ltac:(vm_compute; reflexivity))
    as (r & w' & e & Hrun & Hcalls & Hevents).
  exists r, w'. split; [exact Hrun|].
  split; [rewrite Hcalls; reflexivity|]. split; [rewrite Hevents; reflexivity|].
  apply Hagain; [exact Hrun|].
  vm_compute in Hrun. inversion Hrun. reflexivity.
Defined.

(** The parent as an earlier invocation, at time 50, left it: the cleanup
    condition already says "CleanupInProgress". *)
Definition cleaning : DPFHCPBridge := inProgress (Sample.deleted 0) 50.

(** C4, the claim as stated fails: the stored cleanup condition already
    equals the computed one in status, reason and message
    ([SetStatusCondition] reports no change), and [HandleFinalizerCleanup]
    writes the status all the same. *)
Lemma finalizer_writes_unchanged_condition :
  let w :=
    Sample.world
      (Sample.storeOf cleaning None None (Some Sample.hostedCluster) (Some Sample.nodePool) [])
      Sample.noFaults 100 in
  let computed :=
    {| Type_ := HostedClusterCleanup; Status := ConditionFalse;
       Reason := "CleanupInProgress";
       Message := "Deleting HostedCluster and associated resources";
       LastTransitionTime := now w; ObservedGeneration := 0 |} in
  bridges (store w) !! ("N", "P") = Some cleaning
  /\ (meta.SetStatusCondition (now w) (Conditions (Status_ cleaning)) computed).2 = false
  /\ In (ReqStatusUpdate (ODPFHCPBridge cleaning), None)
       (calls (hostedcluster.HandleFinalizerCleanup Sample.durationString cleaning w).2).
Proof.
  cbv zeta. split; [vm_compute; reflexivity|]. split; [vm_compute; reflexivity|].
  vm_compute. auto.
Qed.

(** C7 at work: two of the three secrets are already gone; the cleanup
    succeeds, and succeeds again. *)
Lemma teardown_tolerates_absence_witness :
  let w :=
    Sample.world (Sample.storeOf (Sample.deleted 0) None None None None ["P-ssh-key"])
      Sample.noFaults 100 in
  exists w',
    hostedcluster.deleteSecrets (Sample.deleted 0) w = (Returns None, w')
    /\ exists w'', hostedcluster.deleteSecrets (Sample.deleted 0) w' = (Returns None, w'').
Proof.
  cbv zeta.
  apply (proj1 (proj2 teardown_tolerates_absence)).
  intros key err. split; discriminate.
Defined.

(** C9 at work: on a fresh world both resources are created and the parent
    ends up configured. *)
Lemma metallb_end_to_end_witness :
  exists bridge' err w3 c,
    metallb.ConfigureMetalLB Sample.bridge freshWorld =
      (Returns (bridge', ctrl.noResult, err), w3)
    /\ metalLBConfigured bridge' = Some c
    /\ Status c = ConditionTrue
    /\ Reason c = "MetalLBReady"
    /\ Message c = "MetalLB configured successfully".
Proof.
  apply (proj2 (proj2 (proj2 (proj2 (proj2 (metallb_end_to_end Sample.bridge)))))
           freshWorld
           (metallb.ensureIPAddressPool Sample.bridge freshWorld).2
           (metallb.ensureL2Advertisement Sample.bridge
              (metallb.ensureIPAddressPool Sample.bridge freshWorld).2).2).
  - reflexivity.
  - vm_compute. reflexivity.
  - vm_compute. reflexivity.
Defined.

(** C9, the claim as stated fails: after a successful configuration the
    condition is True, but its reason is "MetalLBReady", not "Ready". *)
Lemma configured_reason_is_not_Ready :
  let run := metallb.ConfigureMetalLB Sample.bridge freshWorld in
  exists bridge' c,
    run.1 = Returns (bridge', ctrl.noResult, None)
    /\ metalLBConfigured bridge' = Some c
    /\ Status c = ConditionTrue
    /\ Reason c = "MetalLBReady"
    /\ Reason c <> "Ready".
Proof.
  cbv zeta. eexists _, _. split; [vm_compute; reflexivity|].
  split; [vm_compute; reflexivity|]. cbn. repeat split. discriminate.
Qed.

(* ===================================================================== *)
(** * Further properties of the code *)
(* ===================================================================== *)

(** ** Drift detector, both ways round *)

Lemma DeepEqual_sym (x y : Value) : DeepEqual x y = DeepEqual y x.
Proof.
  destruct (DeepEqual x y) eqn:Hxy; symmetry.
  - apply DeepEqual_eq in Hxy. subst. apply DeepEqual_refl.
  - apply DeepEqual_false. apply DeepEqual_false in Hxy. congruence.
Qed.

(** X1. [ResourceNeedsUpdate] does not depend on which object is called
    existing and which desired (same answer, same panic); no object needs an
    update against itself; and two pools or two advertisements with the same
    spec need none whatever their metadata (name, labels, version token,
    deletion marker) say. *)
Theorem ResourceNeedsUpdate_symmetric :
  (forall (T : Type) `{Reflectable T} (a b : option T),
      ResourceNeedsUpdate a b = ResourceNeedsUpdate b a)
  /\ (forall (T : Type) `{Reflectable T} (a : option T),
        ResourceNeedsUpdate a a <> Returns true)
  /\ (forall (m m' : ObjectMeta) (s : IPAddressPoolSpec),
        ResourceNeedsUpdate (Some {| pool_ObjectMeta := m; pool_Spec := s |})
                            (Some {| pool_ObjectMeta := m'; pool_Spec := s |}) = Returns false)
  /\ (forall (m m' : ObjectMeta) (s : L2AdvertisementSpec),
        ResourceNeedsUpdate (Some {| l2_ObjectMeta := m; l2_Spec := s |})
                            (Some {| l2_ObjectMeta := m'; l2_Spec := s |}) = Returns false).
Proof.
  split; [|split; [|split]].
  - intros T HT [a|] [b|]; try reflexivity.
    unfold ResourceNeedsUpdate, FieldByName.
    destruct (ValueOf a) as [| | | | | |fa], (ValueOf b) as [| | | | | |fb];
      try reflexivity.
    destruct (lookupField fa "Spec") as [sa|], (lookupField fb "Spec") as [sb|];
      try reflexivity.
    now rewrite DeepEqual_sym.
  - intros T HT [a|]; [|discriminate].
    unfold ResourceNeedsUpdate, FieldByName.
    destruct (ValueOf a) as [| | | | | |fa]; try discriminate.
    destruct (lookupField fa "Spec") as [sa|]; [|discriminate].
    rewrite DeepEqual_refl. discriminate.
  - intros m m' s. now apply ResourceNeedsUpdate_pool_false.
  - intros m m' s. now apply ResourceNeedsUpdate_l2_false.
Qed.

(** ** Ownership of what the builders build *)

Lemma isOwnedByBridge_labels {T : Type} `{KubeObject T} (obj : T) (a b : DPFHCPBridge) :
  Labels (GetObjectMeta obj) = Some (metallb.ownershipLabels a) ->
  metallb.isOwnedByBridge obj b =
  String.eqb (Name (ObjectMeta_ a)) (Name (ObjectMeta_ b))
  && String.eqb (Namespace (ObjectMeta_ a)) (Namespace (ObjectMeta_ b)).
Proof.
  intros Hlabels. unfold metallb.isOwnedByBridge, metallb.mapIndex. rewrite Hlabels.
  destruct (ownershipLabels_lookup a) as [-> ->]. reflexivity.
Qed.

(** X2. The pool and the advertisement built for a parent [a] pass the
    ownership check of a parent [b] exactly when [a] and [b] have the same
    name and the same namespace: what the operator builds for one parent is
    foreign to every other parent. *)
Theorem built_resources_owned_by_their_parent_only (a b : DPFHCPBridge) :
  (metallb.isOwnedByBridge (metallb.buildIPAddressPool a) b = true <-> keyOf a = keyOf b)
  /\ (metallb.isOwnedByBridge (metallb.buildL2Advertisement a) b = true <->
      keyOf a = keyOf b).
Proof.
  assert (Hkey : String.eqb (Name (ObjectMeta_ a)) (Name (ObjectMeta_ b))
                 && String.eqb (Namespace (ObjectMeta_ a)) (Namespace (ObjectMeta_ b)) = true
                 <-> keyOf a = keyOf b).
  { rewrite andb_true_iff, !String.eqb_eq. unfold keyOf. cbn. split.
    - intros [-> ->]. reflexivity.
    - intros Heq. now inversion Heq. }
  split.
  - rewrite (isOwnedByBridge_labels (metallb.buildIPAddressPool a) a b) by reflexivity.
    exact Hkey.
  - rewrite (isOwnedByBridge_labels (metallb.buildL2Advertisement a) a b) by reflexivity.
    exact Hkey.
Qed.

(** ** Elapsed time and the timeout test *)

Lemma Sub_monotone (n n' t : Time) : n <= n' -> Sub n t <= Sub n' t.
Proof.
  intros Hle. unfold Sub, minDuration, maxDuration.
  destruct (n - t <? - 2 ^ 63) eqn:H1; destruct (n' - t <? - 2 ^ 63) eqn:H2;
    destruct (2 ^ 63 - 1 <? n - t) eqn:H3; destruct (2 ^ 63 - 1 <? n' - t) eqn:H4;
    rewrite ?Z.ltb_lt, ?Z.ltb_ge in *; lia.
Qed.



(** ** Upsert reconciler: creation, read failures, convergence *)

(** The API server serves the read of [key] and has nothing there. *)
Definition absent (T : Type) `{KubeObject T} (w : World) (key : ObjectKey) : Prop :=
  faults w (ReqGet (kind T) key) = None /\ objects (store w) !! key = None.

(** Every object of type [T] is stored under its own namespace and name. *)
Definition wellKeyed (T : Type) `{KubeObject T} (w : World) : Prop :=
  forall key obj, objects (store w) !! key = Some obj -> keyOf obj = key.

(** What the store holds once it has accepted the creation of [obj]: [obj]
    with the first version token. *)
Definition created {T : Type} `{KubeObject T} (obj : T) : T :=
  SetObjectMeta (setMeta_ResourceVersion 1 (GetObjectMeta obj)) obj.

Lemma Get_absent (T : Type) `{KubeObject T} (w : World) (key : ObjectKey) :
  absent T w key ->
  Get T key w =
    (Returns (Err (errNotFound key)),
     logCall (ReqGet (kind T) key) (Some (errNotFound key)) w).
Proof. intros [Hfault Hobj]. unfold Get. now rewrite Hfault, Hobj. Qed.

Lemma Get_refused (T : Type) `{KubeObject T} (w : World) (key : ObjectKey) (err : error) :
  faults w (ReqGet (kind T) key) = Some err ->
  Get T key w = (Returns (Err err), logCall (ReqGet (kind T) key) (Some err) w).
Proof. intros Hfault. unfold Get. now rewrite Hfault. Qed.

Lemma Create_served {T : Type} `{KubeObject T} (w : World) (obj : T) :
  faults w (ReqCreate (toObject obj)) = None ->
  objects (store w) !! keyOf obj = None ->
  Create obj w =
    (Returns None,
     logCall (ReqCreate (toObject obj)) None
       (withStore (setObjects (<[keyOf obj := created obj]> (objects (store w))) (store w)) w)).
Proof. intros Hfault Hobj. unfold Create, created. now rewrite Hfault, Hobj. Qed.

Lemma Create_refused {T : Type} `{KubeObject T} (w : World) (obj : T) (err : error) :
  faults w (ReqCreate (toObject obj)) = Some err ->
  Create obj w = (Returns (Some err), logCall (ReqCreate (toObject obj)) (Some err) w).
Proof. intros Hfault. unfold Create. now rewrite Hfault. Qed.

(** X4. When the read under the deterministic name is served and finds
    nothing, the upsert issues exactly one create, of the built object as
    it is.  If the API server accepts it, the upsert returns no error, the
    store holds the built object under the deterministic name and no event
    is recorded; if the API server refuses it, the refusal comes back
    wrapped as "creating ...: " and the store is left as it was. *)
Theorem ensure_creates_absent_resource (bridge : DPFHCPBridge) (w : World) :
  (absent IPAddressPool w (poolKey bridge) ->
   let desired := metallb.buildIPAddressPool bridge in
   let read := (ReqGet KindIPAddressPool (poolKey bridge),
                Some (errNotFound (poolKey bridge))) in
   (faults w (ReqCreate (OIPAddressPool desired)) = None ->
    exists w',
      metallb.ensureIPAddressPool bridge w = (Returns None, w')
      /\ calls w' = calls w ++ [read; (ReqCreate (OIPAddressPool desired), None)]
      /\ pools (store w') = <[poolKey bridge := created desired]> (pools (store w))
      /\ events w' = events w)
   /\ (forall err,
         faults w (ReqCreate (OIPAddressPool desired)) = Some err ->
         exists w',
           metallb.ensureIPAddressPool bridge w =
             (Returns (Some (Wrapped "creating IPAddressPool: " err)), w')
           /\ calls w' = calls w ++ [read; (ReqCreate (OIPAddressPool desired), Some err)]
           /\ store w' = store w
           /\ events w' = events w))
  /\ (absent L2Advertisement w (l2Key bridge) ->
      let desired := metallb.buildL2Advertisement bridge in
      let read := (ReqGet KindL2Advertisement (l2Key bridge),
                   Some (errNotFound (l2Key bridge))) in
      (faults w (ReqCreate (OL2Advertisement desired)) = None ->
       exists w',
         metallb.ensureL2Advertisement bridge w = (Returns None, w')
         /\ calls w' = calls w ++ [read; (ReqCreate (OL2Advertisement desired), None)]
         /\ l2advertisements (store w') =
            <[l2Key bridge := created desired]> (l2advertisements (store w))
         /\ events w' = events w)
      /\ (forall err,
            faults w (ReqCreate (OL2Advertisement desired)) = Some err ->
            exists w',
              metallb.ensureL2Advertisement bridge w =
                (Returns (Some (Wrapped "creating L2Advertisement: " err)), w')
              /\ calls w' =
                 calls w ++ [read; (ReqCreate (OL2Advertisement desired), Some err)]
              /\ store w' = store w
              /\ events w' = events w)).
Proof.
  split; intros Habsent desired read; (split; [intros Hcreate | intros err Hcreate]).
  - eexists. unfold metallb.ensureIPAddressPool.
    erewrite bind_Returns by (apply Get_absent; exact Habsent). cbv beta iota.
    change (apierrors.IsNotFound (errNotFound _)) with true. cbv iota.
    erewrite bind_Returns by (apply Create_served; [exact Hcreate | exact (proj2 Habsent)]).
    cbv [ret]. split; [reflexivity|]. split; [cbn; trace_eq|]. split; reflexivity.
  - eexists. unfold metallb.ensureIPAddressPool.
    erewrite bind_Returns by (apply Get_absent; exact Habsent). cbv beta iota.
    change (apierrors.IsNotFound (errNotFound _)) with true. cbv iota.
    erewrite bind_Returns by (apply Create_refused; exact Hcreate).
    cbv [ret]. split; [reflexivity|]. split; [cbn; trace_eq|]. split; reflexivity.
  - eexists. unfold metallb.ensureL2Advertisement.
    erewrite bind_Returns by (apply Get_absent; exact Habsent). cbv beta iota.
    change (apierrors.IsNotFound (errNotFound _)) with true. cbv iota.
    erewrite bind_Returns by (apply Create_served; [exact Hcreate | exact (proj2 Habsent)]).
    cbv [ret]. split; [reflexivity|]. split; [cbn; trace_eq|]. split; reflexivity.
  - eexists. unfold metallb.ensureL2Advertisement.
    erewrite bind_Returns by (apply Get_absent; exact Habsent). cbv beta iota.
    change (apierrors.IsNotFound (errNotFound _)) with true. cbv iota.
    erewrite bind_Returns by (apply Create_refused; exact Hcreate).
    cbv [ret]. split; [reflexivity|]. split; [cbn; trace_eq|]. split; reflexivity.
Qed.

(** X5. A read that fails with anything but not-found ends the upsert at
    once: the error comes back wrapped as "getting ...: ", the refused read
    is the only request (no create, no update), and the store and the
    events are as before. *)
Theorem ensure_read_failure (bridge : DPFHCPBridge) (w : World) (err : error) :
  apierrors.IsNotFound err = false ->
  (faults w (ReqGet KindIPAddressPool (poolKey bridge)) = Some err ->
   metallb.ensureIPAddressPool bridge w =
     (Returns (Some (Wrapped "getting IPAddressPool: " err)),
      logCall (ReqGet KindIPAddressPool (poolKey bridge)) (Some err) w))
  /\ (faults w (ReqGet KindL2Advertisement (l2Key bridge)) = Some err ->
      metallb.ensureL2Advertisement bridge w =
        (Returns (Some (Wrapped "getting L2Advertisement: " err)),
         logCall (ReqGet KindL2Advertisement (l2Key bridge)) (Some err) w)).
Proof.
  intros Hother. split; intros Hfault.
  - unfold metallb.ensureIPAddressPool.
    erewrite bind_Returns by (apply Get_refused; exact Hfault). cbv beta iota.
    rewrite Hother. reflexivity.
  - unfold metallb.ensureL2Advertisement.
    erewrite bind_Returns by (apply Get_refused; exact Hfault). cbv beta iota.
    rewrite Hother. reflexivity.
Qed.

Lemma isOwnedByBridge_same_labels {T : Type} `{KubeObject T} (a b : T)
      (bridge : DPFHCPBridge) :
  Labels (GetObjectMeta a) = Labels (GetObjectMeta b) ->
  metallb.isOwnedByBridge a bridge = metallb.isOwnedByBridge b bridge.
Proof. intros Hlabels. unfold metallb.isOwnedByBridge. now rewrite Hlabels. Qed.

Lemma ensureIPAddressPool_settled (bridge : DPFHCPBridge) (w : World)
      (existing : IPAddressPool) :
  found w (poolKey bridge) existing ->
  metallb.isOwnedByBridge existing bridge = true ->
  pool_Spec existing = pool_Spec (metallb.buildIPAddressPool bridge) ->
  metallb.ensureIPAddressPool bridge w =
    (Returns None, logCall (ReqGet KindIPAddressPool (poolKey bridge)) None w).
Proof.
  intros Hfound Howned Hspec. unfold metallb.ensureIPAddressPool.
  erewrite bind_Returns by (apply Get_found, Hfound). cbv beta iota.
  rewrite Howned. cbn [negb]. cbv iota.
  rewrite (proj2 (ResourceNeedsUpdate_pool_false _ _) Hspec). reflexivity.
Qed.

Lemma ensureL2Advertisement_settled (bridge : DPFHCPBridge) (w : World)
      (existing : L2Advertisement) :
  found w (l2Key bridge) existing ->
  metallb.isOwnedByBridge existing bridge = true ->
  l2_Spec existing = l2_Spec (metallb.buildL2Advertisement bridge) ->
  metallb.ensureL2Advertisement bridge w =
    (Returns None, logCall (ReqGet KindL2Advertisement (l2Key bridge)) None w).
Proof.
  intros Hfound Howned Hspec. unfold metallb.ensureL2Advertisement.
  erewrite bind_Returns by (apply Get_found, Hfound). cbv beta iota.
  rewrite Howned. cbn [negb]. cbv iota.
  rewrite (proj2 (ResourceNeedsUpdate_l2_false _ _) Hspec). reflexivity.
Qed.

(** After an upsert that returned no error, the store holds under the
    deterministic name a resource the parent owns, with the desired spec. *)
Lemma ensureIPAddressPool_converges (bridge : DPFHCPBridge) (w w' : World) :
  wellKeyed IPAddressPool w ->
  faults w (ReqGet KindIPAddressPool (poolKey bridge)) = None ->
  metallb.ensureIPAddressPool bridge w = (Returns None, w') ->
  faults w' = faults w
  /\ exists existing,
       pools (store w') !! poolKey bridge = Some existing
       /\ metallb.isOwnedByBridge existing bridge = true
       /\ pool_Spec existing = pool_Spec (metallb.buildIPAddressPool bridge).
Proof.
  intros Hkeyed Hserved Hrun. unfold metallb.ensureIPAddressPool in Hrun.
  destruct (Get_log IPAddressPool (poolKey bridge) w)
    as [(e & Hget & Hwhy)|(obj & Hget & Hfound)].
  - destruct Hwhy as [Hfault|(_ & Hnone & ->)];
      [change (kind IPAddressPool) with KindIPAddressPool in Hfault; congruence|].
    erewrite bind_Returns in Hrun by exact Hget. cbv beta iota in Hrun.
    change (apierrors.IsNotFound (errNotFound _)) with true in Hrun. cbv iota in Hrun.
    destruct (faults w (ReqCreate (OIPAddressPool (metallb.buildIPAddressPool bridge))))
      as [err|] eqn:Hcreate.
    + erewrite bind_Returns in Hrun by (apply Create_refused; exact Hcreate).
      cbn in Hrun. discriminate.
    + erewrite bind_Returns in Hrun by (apply Create_served; [exact Hcreate | exact Hnone]).
      cbn in Hrun. inversion Hrun; subst w'; clear Hrun. cbn.
      split; [reflexivity|]. eexists. split; [apply lookup_insert_eq|].
      split; [now apply built_is_owned | reflexivity].
  - erewrite bind_Returns in Hrun by exact Hget. cbv beta iota in Hrun.
    destruct (metallb.isOwnedByBridge obj bridge) eqn:Howned; cbn [negb] in Hrun;
      cbv iota in Hrun; [|discriminate].
    pose proof (Hkeyed _ _ (proj2 Hfound)) as Hkey.
    destruct (ResourceNeedsUpdate (Some obj) (Some (metallb.buildIPAddressPool bridge)))
      as [[|]|] eqn:Hneed; [| |discriminate].
    + set (payload := poolWithSpec obj (pool_Spec (metallb.buildIPAddressPool bridge))).
      change {| pool_ObjectMeta := pool_ObjectMeta obj;
                pool_Spec := pool_Spec (metallb.buildIPAddressPool bridge) |}
        with payload in Hrun.
      set (w1 := logCall (ReqGet (kind IPAddressPool) (poolKey bridge)) None w) in *.
      destruct (faults w1 (ReqUpdate (toObject payload))) as [err|] eqn:Hupdate.
      * erewrite bind_Returns in Hrun by (apply Update_refused; exact Hupdate).
        cbn in Hrun. discriminate.
      * assert (Hold : objects (store w1) !! keyOf payload = Some obj).
        { change (keyOf payload) with (keyOf obj). rewrite Hkey. exact (proj2 Hfound). }
        erewrite bind_Returns in Hrun by (apply (Update_served w1 obj payload);
                                          [exact Hupdate | exact Hold | reflexivity]).
        cbn in Hrun. inversion Hrun; subst w'; clear Hrun. cbn.
        split; [reflexivity|]. eexists. split.
        -- change (keyOf payload) with (keyOf obj). rewrite Hkey. apply lookup_insert_eq.
        -- split; [|reflexivity]. rewrite <- Howned.
           now apply isOwnedByBridge_same_labels.
    + cbn in Hrun. inversion Hrun; subst w'; clear Hrun. cbn.
      split; [reflexivity|]. exists obj. split; [exact (proj2 Hfound)|].
      split; [exact Howned|].
      exact (proj1 (ResourceNeedsUpdate_pool_false _ _) Hneed).
Qed.

Lemma ensureL2Advertisement_converges (bridge : DPFHCPBridge) (w w' : World) :
  wellKeyed L2Advertisement w ->
  faults w (ReqGet KindL2Advertisement (l2Key bridge)) = None ->
  metallb.ensureL2Advertisement bridge w = (Returns None, w') ->
  faults w' = faults w
  /\ exists existing,
       l2advertisements (store w') !! l2Key bridge = Some existing
       /\ metallb.isOwnedByBridge existing bridge = true
       /\ l2_Spec existing = l2_Spec (metallb.buildL2Advertisement bridge).
Proof.
  intros Hkeyed Hserved Hrun. unfold metallb.ensureL2Advertisement in Hrun.
  destruct (Get_log L2Advertisement (l2Key bridge) w)
    as [(e & Hget & Hwhy)|(obj & Hget & Hfound)].
  - destruct Hwhy as [Hfault|(_ & Hnone & ->)];
      [change (kind L2Advertisement) with KindL2Advertisement in Hfault; congruence|].
    erewrite bind_Returns in Hrun by exact Hget. cbv beta iota in Hrun.
    change (apierrors.IsNotFound (errNotFound _)) with true in Hrun. cbv iota in Hrun.
    destruct (faults w (ReqCreate (OL2Advertisement (metallb.buildL2Advertisement bridge))))
      as [err|] eqn:Hcreate.
    + erewrite bind_Returns in Hrun by (apply Create_refused; exact Hcreate).
      cbn in Hrun. discriminate.
    + erewrite bind_Returns in Hrun by (apply Create_served; [exact Hcreate | exact Hnone]).
      cbn in Hrun. inversion Hrun; subst w'; clear Hrun. cbn.
      split; [reflexivity|]. eexists. split; [apply lookup_insert_eq|].
      split; [now apply built_is_owned | reflexivity].
  - erewrite bind_Returns in Hrun by exact Hget. cbv beta iota in Hrun.
    destruct (metallb.isOwnedByBridge obj bridge) eqn:Howned; cbn [negb] in Hrun;
      cbv iota in Hrun; [|discriminate].
    pose proof (Hkeyed _ _ (proj2 Hfound)) as Hkey.
    destruct (ResourceNeedsUpdate (Some obj) (Some (metallb.buildL2Advertisement bridge)))
      as [[|]|] eqn:Hneed; [| |discriminate].
    + set (payload := l2WithSpec obj (l2_Spec (metallb.buildL2Advertisement bridge))).
      change {| l2_ObjectMeta := l2_ObjectMeta obj;
                l2_Spec := l2_Spec (metallb.buildL2Advertisement bridge) |}
        with payload in Hrun.
      set (w1 := logCall (ReqGet (kind L2Advertisement) (l2Key bridge)) None w) in *.
      destruct (faults w1 (ReqUpdate (toObject payload))) as [err|] eqn:Hupdate.
      * erewrite bind_Returns in Hrun by (apply Update_refused; exact Hupdate).
        cbn in Hrun. discriminate.
      * assert (Hold : objects (store w1) !! keyOf payload = Some obj).
        { change (keyOf payload) with (keyOf obj). rewrite Hkey. exact (proj2 Hfound). }
        erewrite bind_Returns in Hrun by (apply (Update_served w1 obj payload);
                                          [exact Hupdate | exact Hold | reflexivity]).
        cbn in Hrun. inversion Hrun; subst w'; clear Hrun. cbn.
        split; [reflexivity|]. eexists. split.
        -- change (keyOf payload) with (keyOf obj). rewrite Hkey. apply lookup_insert_eq.
        -- split; [|reflexivity]. rewrite <- Howned.
           now apply isOwnedByBridge_same_labels.
    + cbn in Hrun. inversion Hrun; subst w'; clear Hrun. cbn.
      split; [reflexivity|]. exists obj. split; [exact (proj2 Hfound)|].
      split; [exact Howned|].
      exact (proj1 (ResourceNeedsUpdate_l2_false _ _) Hneed).
Qed.

(** X6. The upsert converges in one step.  Against a store that keeps
    every resource under its own name and serves the read, once an upsert
    has returned no error (whether it created, corrected or found nothing to
    do), repeating it issues the read and nothing else: no create, no
    update, no event, and the store stays as it is. *)
Theorem ensure_is_idempotent (bridge : DPFHCPBridge) (w w' : World) :
  (wellKeyed IPAddressPool w ->
   faults w (ReqGet KindIPAddressPool (poolKey bridge)) = None ->
   metallb.ensureIPAddressPool bridge w = (Returns None, w') ->
   metallb.ensureIPAddressPool bridge w' =
     (Returns None, logCall (ReqGet KindIPAddressPool (poolKey bridge)) None w'))
  /\ (wellKeyed L2Advertisement w ->
      faults w (ReqGet KindL2Advertisement (l2Key bridge)) = None ->
      metallb.ensureL2Advertisement bridge w = (Returns None, w') ->
      metallb.ensureL2Advertisement bridge w' =
        (Returns None, logCall (ReqGet KindL2Advertisement (l2Key bridge)) None w')).
Proof.
  split; intros Hkeyed Hserved Hrun.
  - destruct (ensureIPAddressPool_converges bridge w w' Hkeyed Hserved Hrun)
      as (Hfaults & existing & Hstored & Howned & Hspec).
    apply (ensureIPAddressPool_settled bridge w' existing); [|exact Howned | exact Hspec].
    split; [rewrite Hfaults; exact Hserved | exact Hstored].
  - destruct (ensureL2Advertisement_converges bridge w w' Hkeyed Hserved Hrun)
      as (Hfaults & existing & Hstored & Howned & Hspec).
    apply (ensureL2Advertisement_settled bridge w' existing); [|exact Howned | exact Hspec].
    split; [rewrite Hfaults; exact Hserved | exact Hstored].
Qed.

(** X7. The pool and the advertisement are named after the parent's name
    alone and live in one namespace, so two parents of the same name in
    different namespaces contend for them.  Once the upsert of parent [a]
    has created them, the upsert of parent [b] finds them taken: it returns
    the foreign-ownership error, issues only the read, and leaves what [a]
    created in place. *)
Theorem same_name_parents_contend (a b : DPFHCPBridge) (w : World) :
  Name (ObjectMeta_ a) = Name (ObjectMeta_ b) ->
  Namespace (ObjectMeta_ a) <> Namespace (ObjectMeta_ b) ->
  (absent IPAddressPool w (poolKey a) ->
   faults w (ReqCreate (OIPAddressPool (metallb.buildIPAddressPool a))) = None ->
   exists w' w'',
     metallb.ensureIPAddressPool a w = (Returns None, w')
     /\ metallb.ensureIPAddressPool b w' =
        (Returns (Some (metallb.errForeignPool (created (metallb.buildIPAddressPool a)) b)),
         w'')
     /\ calls w'' = calls w' ++ [(ReqGet KindIPAddressPool (poolKey a), None)]
     /\ store w'' = store w'
     /\ pools (store w'') !! poolKey b = Some (created (metallb.buildIPAddressPool a)))
  /\ (absent L2Advertisement w (l2Key a) ->
      faults w (ReqCreate (OL2Advertisement (metallb.buildL2Advertisement a))) = None ->
      exists w' w'',
        metallb.ensureL2Advertisement a w = (Returns None, w')
        /\ metallb.ensureL2Advertisement b w' =
           (Returns (Some (metallb.errForeignL2 (created (metallb.buildL2Advertisement a)) b)),
            w'')
        /\ calls w'' = calls w' ++ [(ReqGet KindL2Advertisement (l2Key a), None)]
        /\ store w'' = store w'
        /\ l2advertisements (store w'') !! l2Key b =
           Some (created (metallb.buildL2Advertisement a))).
Proof.
  intros Hname Hnamespace.
  assert (Hforeign : forall T `{KubeObject T} (obj : T),
             Labels (GetObjectMeta obj) = Some (metallb.ownershipLabels a) ->
             metallb.isOwnedByBridge obj b = false).
  { intros T HT obj Hlabels. rewrite (isOwnedByBridge_labels obj a b Hlabels).
    apply andb_false_iff. right. now apply String.eqb_neq. }
  assert (Hpool : poolKey b = poolKey a) by (unfold poolKey; now rewrite Hname).
  assert (Hl2 : l2Key b = l2Key a) by (unfold l2Key; now rewrite Hname).
  split; intros Habsent Hcreate.
  - eexists _, _. unfold metallb.ensureIPAddressPool at 1.
    erewrite bind_Returns by (apply Get_absent; exact Habsent). cbv beta iota.
    change (apierrors.IsNotFound (errNotFound _)) with true. cbv iota.
    erewrite bind_Returns by (apply Create_served; [exact Hcreate | exact (proj2 Habsent)]).
    cbn [ret]. split; [reflexivity|].
    unfold metallb.ensureIPAddressPool. fold (poolKey b). rewrite Hpool.
    erewrite bind_Returns.
    2:{ apply Get_found. split; [exact (proj1 Habsent)|]. cbn. apply lookup_insert_eq. }
    cbv beta iota. rewrite Hforeign by reflexivity. cbn [negb]. cbv iota.
    split; [reflexivity|]. cbn. split; [reflexivity|]. split; [reflexivity|].
    apply lookup_insert_eq.
  - eexists _, _. unfold metallb.ensureL2Advertisement at 1.
    erewrite bind_Returns by (apply Get_absent; exact Habsent). cbv beta iota.
    change (apierrors.IsNotFound (errNotFound _)) with true. cbv iota.
    erewrite bind_Returns by (apply Create_served; [exact Hcreate | exact (proj2 Habsent)]).
    cbn [ret]. split; [reflexivity|].
    unfold metallb.ensureL2Advertisement. fold (l2Key b). rewrite Hl2.
    erewrite bind_Returns.
    2:{ apply Get_found. split; [exact (proj1 Habsent)|]. cbn. apply lookup_insert_eq. }
    cbv beta iota. rewrite Hforeign by reflexivity. cbn [negb]. cbv iota.
    split; [reflexivity|]. cbn. split; [reflexivity|]. split; [reflexivity|].
    apply lookup_insert_eq.
Qed.

(** ** The MetalLB reconciler as a whole *)

(** The kinds the MetalLB reconciler manages. *)
Definition managedKind (k : Kind) : bool :=
  match k with
  | KindIPAddressPool | KindL2Advertisement => true
  | _ => false
  end.

(** The requests [ConfigureMetalLB] may issue: reads, creates and updates
    of the two managed kinds and status writes of the parent. *)
Definition metallbRequest (r : Request) : bool :=
  match r with
  | ReqGet k _ => managedKind k
  | ReqCreate o | ReqUpdate o => managedKind (objectKind o)
  | ReqStatusUpdate o =>
      match o with ODPFHCPBridge _ => true | _ => false end
  | ReqDelete _ _ => false
  end.

(** [w'] is [w] after some requests: same fault plan, same clock, and the
    teardown's kinds as they were. *)
Definition sameSurroundings (w w' : World) : Prop :=
  faults w' = faults w /\ now w' = now w
  /\ hostedClusters (store w') = hostedClusters (store w)
  /\ nodePools (store w') = nodePools (store w)
  /\ secrets (store w') = secrets (store w).

Lemma sameSurroundings_refl (w : World) : sameSurroundings w w.
Proof. unfold sameSurroundings. auto. Qed.

Lemma sameSurroundings_trans (w w' w'' : World) :
  sameSurroundings w w' -> sameSurroundings w' w'' -> sameSurroundings w w''.
Proof.
  unfold sameSurroundings. intros (? & ? & ? & ? & ?) (? & ? & ? & ? & ?).
  repeat split; congruence.
Qed.

Ltac run_cases :=
  repeat match goal with
    | |- context [match faults ?w ?r with _ => _ end] => destruct (faults w r) eqn:?
    | |- context [match ?m !! ?k with _ => _ end] => destruct (m !! k) eqn:?
    | |- context [if ?b then _ else _] => destruct b eqn:?
    end.

Ltac footprint_done :=
  cbn; repeat split; first [reflexivity | trace_eq | cbn; lia].

Lemma ensureIPAddressPool_footprint (bridge : DPFHCPBridge) (w : World) :
  exists e w' e0 rest,
    metallb.ensureIPAddressPool bridge w = (Returns e, w')
    /\ calls w' = calls w ++ (ReqGet KindIPAddressPool (poolKey bridge), e0) :: rest
    /\ forallb (fun entry => metallbRequest entry.1) rest = true
    /\ (length rest <= 1)%nat
    /\ sameSurroundings w w'
    /\ l2advertisements (store w') = l2advertisements (store w)
    /\ bridges (store w') = bridges (store w).
Proof.
  unfold metallb.ensureIPAddressPool, sameSurroundings.
  unfold bind, Get, Create, Update, RecordEvent, ret.
  change (kind IPAddressPool) with KindIPAddressPool. fold (poolKey bridge).
  destruct (faults w (ReqGet KindIPAddressPool (poolKey bridge))) as [err|].
  - destruct (apierrors.IsNotFound err).
    + cbn [faults logCall]. run_cases; eexists _, _, _, _; (split; [reflexivity|]);
        footprint_done.
    + eexists _, _, _, []. split; [reflexivity|]. footprint_done.
  - destruct (objects (store w) !! poolKey bridge) as [existing|].
    + destruct (metallb.isOwnedByBridge existing bridge); cbn [negb].
      * rewrite ResourceNeedsUpdate_pool. destruct (negb _).
        -- cbn [faults logCall store]. run_cases; eexists _, _, _, _;
             (split; [reflexivity|]); footprint_done.
        -- eexists _, _, _, []. split; [reflexivity|]. footprint_done.
      * eexists _, _, _, []. split; [reflexivity|]. footprint_done.
    + change (apierrors.IsNotFound (errNotFound _)) with true. cbv iota.
      cbn [faults logCall store]. run_cases; eexists _, _, _, _; (split; [reflexivity|]);
        footprint_done.
Qed.

Lemma ensureL2Advertisement_footprint (bridge : DPFHCPBridge) (w : World) :
  exists e w' e0 rest,
    metallb.ensureL2Advertisement bridge w = (Returns e, w')
    /\ calls w' = calls w ++ (ReqGet KindL2Advertisement (l2Key bridge), e0) :: rest
    /\ forallb (fun entry => metallbRequest entry.1) rest = true
    /\ (length rest <= 1)%nat
    /\ sameSurroundings w w'
    /\ pools (store w') = pools (store w)
    /\ bridges (store w') = bridges (store w).
Proof.
  unfold metallb.ensureL2Advertisement, sameSurroundings.
  unfold bind, Get, Create, Update, RecordEvent, ret.
  change (kind L2Advertisement) with KindL2Advertisement. fold (l2Key bridge).
  destruct (faults w (ReqGet KindL2Advertisement (l2Key bridge))) as [err|].
  - destruct (apierrors.IsNotFound err).
    + cbn [faults logCall]. run_cases; eexists _, _, _, _; (split; [reflexivity|]);
        footprint_done.
    + eexists _, _, _, []. split; [reflexivity|]. footprint_done.
  - destruct (objects (store w) !! l2Key bridge) as [existing|].
    + destruct (metallb.isOwnedByBridge existing bridge); cbn [negb].
      * rewrite ResourceNeedsUpdate_l2. destruct (negb _).
        -- cbn [faults logCall store]. run_cases; eexists _, _, _, _;
             (split; [reflexivity|]); footprint_done.
        -- eexists _, _, _, []. split; [reflexivity|]. footprint_done.
      * eexists _, _, _, []. split; [reflexivity|]. footprint_done.
    + change (apierrors.IsNotFound (errNotFound _)) with true. cbv iota.
      cbn [faults logCall store]. run_cases; eexists _, _, _, _; (split; [reflexivity|]);
        footprint_done.
Qed.

(** One [setCondition] call: at most a status write of the parent, and the
    condition it leaves in the parent it returns. *)
Lemma setCondition_footprint (bridge : DPFHCPBridge) (status : ConditionStatus)
      (reason message : string) (w : World) :
  exists r w' trace c,
    metallb.setCondition bridge status reason message w = (Returns r, w')
    /\ calls w' = calls w ++ trace
    /\ forallb (fun entry => metallbRequest entry.1) trace = true
    /\ (length trace <= 1)%nat
    /\ sameSurroundings w w'
    /\ pools (store w') = pools (store w)
    /\ l2advertisements (store w') = l2advertisements (store w)
    /\ metalLBConfigured r.1 = Some c
    /\ Status c = status /\ Reason c = reason /\ Message c = message.
Proof.
  destruct (setCondition_sets bridge status reason message w)
    as (r & w' & c & Hrun & Hfind & Hs & Hr & Hm).
  exists r, w'.
  assert (Hfoot : exists trace,
             calls w' = calls w ++ trace
             /\ forallb (fun entry => metallbRequest entry.1) trace = true
             /\ (length trace <= 1)%nat
             /\ sameSurroundings w w'
             /\ pools (store w') = pools (store w)
             /\ l2advertisements (store w') = l2advertisements (store w)).
  { revert Hrun. unfold metallb.setCondition, sameSurroundings.
    unfold bind, Now, RecordEvent, StatusUpdate, ret.
    destruct (meta.SetStatusCondition _ _ _) as [conditions [|]].
    - cbn [faults store]. run_cases; intros Hrun; inversion Hrun; subst; eexists;
        footprint_done.
    - intros Hrun; inversion Hrun; subst. exists []. footprint_done. }
  destruct Hfoot as (trace & Hfoot). exists trace, c.
  split; [exact Hrun|]. tauto.
Qed.

(** X8. [ConfigureMetalLB] always returns (no panic), issues at most five
    requests, and every one of them is a read, create or update of an
    IPAddressPool or an L2Advertisement, or a status write of the parent:
    it never deletes anything, and it leaves HostedClusters, NodePools and
    secrets as they are.  For a parent that does not ask for load-balancer
    exposure it does nothing at all; for one that does, its first request
    is the read of the pool. *)
Theorem ConfigureMetalLB_footprint (bridge : DPFHCPBridge) (w : World) :
  exists out w' trace,
    metallb.ConfigureMetalLB bridge w = (Returns out, w')
    /\ calls w' = calls w ++ trace
    /\ forallb (fun entry => metallbRequest entry.1) trace = true
    /\ (length trace <= 5)%nat
    /\ hostedClusters (store w') = hostedClusters (store w)
    /\ nodePools (store w') = nodePools (store w)
    /\ secrets (store w') = secrets (store w)
    /\ (ShouldExposeThroughLoadBalancer bridge = false ->
        out = (bridge, ctrl.noResult, None) /\ w' = w)
    /\ (ShouldExposeThroughLoadBalancer bridge = true ->
        exists e0 rest, trace = (ReqGet KindIPAddressPool (poolKey bridge), e0) :: rest).
Proof.
  unfold metallb.ConfigureMetalLB.
  destruct (ShouldExposeThroughLoadBalancer bridge); cbn [negb]; cbv iota.
  2:{ exists (bridge, ctrl.noResult, None), w, []. rewrite app_nil_r.
      split; [reflexivity|]. split; [reflexivity|]. split; [reflexivity|].
      split; [cbn; lia|]. split; [reflexivity|]. split; [reflexivity|].
      split; [reflexivity|]. split; [auto | discriminate]. }
  destruct (ensureIPAddressPool_footprint bridge w)
    as (e & w1 & e0 & rest1 & Hpool & Hc1 & Hk1 & Hl1 & Hs1 & _).
  erewrite bind_Returns by exact Hpool. cbv beta iota.
  destruct e as [err|].
  - destruct (setCondition_footprint bridge ConditionFalse "CreatingIPAddressPool"
                ("Failed to create/update IPAddressPool: " +:+ Error err) w1)
      as (r & w2 & t2 & c & Hset & Hc2 & Hk2 & Hl2 & Hs2 & _).
    erewrite bind_Returns by exact Hset. cbv beta iota.
    pose proof (sameSurroundings_trans _ _ _ Hs1 Hs2) as (_ & _ & Hhc & Hnp & Hsec).
    eexists _, w2, ((ReqGet KindIPAddressPool (poolKey bridge), e0) :: rest1 ++ t2).
    split; [reflexivity|].
    split; [rewrite Hc2, Hc1; trace_eq|].
    split; [cbn [forallb]; rewrite forallb_app, Hk1, Hk2; reflexivity|].
    split; [cbn [length]; rewrite length_app; lia|].
    split; [exact Hhc|]. split; [exact Hnp|]. split; [exact Hsec|].
    split; [discriminate|]. intros _. eexists _, _. reflexivity.
  - destruct (ensureL2Advertisement_footprint bridge w1)
      as (e & w2 & e1 & rest2 & Hadv & Hc2 & Hk2 & Hl2 & Hs2 & _).
    erewrite bind_Returns by exact Hadv. cbv beta iota.
    assert (Hrest : forall status reason message,
               exists r w3 t3,
                 metallb.setCondition bridge status reason message w2 = (Returns r, w3)
                 /\ calls w3 =
                    calls w ++ (ReqGet KindIPAddressPool (poolKey bridge), e0)
                            :: rest1 ++ (ReqGet KindL2Advertisement (l2Key bridge), e1)
                            :: rest2 ++ t3
                 /\ forallb (fun entry => metallbRequest entry.1)
                      (rest1 ++ (ReqGet KindL2Advertisement (l2Key bridge), e1)
                             :: rest2 ++ t3) = true
                 /\ (length (rest1 ++ (ReqGet KindL2Advertisement (l2Key bridge), e1)
                                   :: rest2 ++ t3) <= 4)%nat
                 /\ sameSurroundings w w3).
    { intros status reason message.
      destruct (setCondition_footprint bridge status reason message w2)
        as (r & w3 & t3 & c & Hset & Hc3 & Hk3 & Hl3 & Hs3 & _).
      exists r, w3, t3. split; [exact Hset|].
      split; [rewrite Hc3, Hc2, Hc1; trace_eq|].
      split; [rewrite forallb_app; cbn [forallb]; rewrite forallb_app, Hk1, Hk2, Hk3;
              reflexivity|].
      split; [rewrite length_app; cbn [length]; rewrite length_app; lia|].
      eauto using sameSurroundings_trans. }
    destruct e as [err|].
    + destruct (Hrest ConditionFalse "L2AdvertisementFailed"
                  ("Failed to create/update L2Advertisement: " +:+ Error err))
        as (r & w3 & t3 & Hset & Hc3 & Hk3 & Hl3 & _ & _ & Hhc & Hnp & Hsec).
      erewrite bind_Returns by exact Hset. cbv beta iota.
      eexists _, w3, _. split; [reflexivity|]. split; [exact Hc3|].
      split; [exact Hk3|]. split; [cbn [length]; lia|].
      split; [exact Hhc|]. split; [exact Hnp|]. split; [exact Hsec|].
      split; [discriminate|]. intros _. eexists _, _. reflexivity.
    + destruct (Hrest ConditionTrue "MetalLBReady" "MetalLB configured successfully")
        as (r & w3 & t3 & Hset & Hc3 & Hk3 & Hl3 & _ & _ & Hhc & Hnp & Hsec).
      erewrite bind_Returns by exact Hset. cbv beta iota.
      assert (Hout : exists out,
                 match r.2 with
                 | Some err => ret (r.1, ctrl.noResult, Some err)
                 | None => ret (r.1, ctrl.noResult, None)
                 end w3 = (Returns out, w3)).
      { destruct (r.2); eexists; reflexivity. }
      destruct Hout as (out & ->).
      exists out, w3. eexists. split; [reflexivity|]. split; [exact Hc3|].
      split; [exact Hk3|]. split; [cbn [length]; lia|].
      split; [exact Hhc|]. split; [exact Hnp|]. split; [exact Hsec|].
      split; [discriminate|]. intros _. eexists _, _. reflexivity.
Qed.

(** X9. When an upsert fails, [ConfigureMetalLB] stops there and hands the
    upsert's error back as it is, whatever becomes of the status write: a
    failing pool upsert leaves the condition False with reason
    "CreatingIPAddressPool" and the error text in the message, and no
    request on the advertisement follows; a failing advertisement upsert
    leaves it False with reason "L2AdvertisementFailed".  After the failed
    upsert the only request is at most one status write of the parent. *)
Theorem ConfigureMetalLB_reports_upsert_failure (bridge : DPFHCPBridge) (w : World) :
  ShouldExposeThroughLoadBalancer bridge = true ->
  (forall err w1,
      metallb.ensureIPAddressPool bridge w = (Returns (Some err), w1) ->
      exists bridge' w' trace c,
        metallb.ConfigureMetalLB bridge w = (Returns (bridge', ctrl.noResult, Some err), w')
        /\ calls w' = calls w1 ++ trace
        /\ Forall (fun entry => requestKind entry.1 = KindDPFHCPBridge) trace
        /\ (length trace <= 1)%nat
        /\ metalLBConfigured bridge' = Some c
        /\ Status c = ConditionFalse
        /\ Reason c = "CreatingIPAddressPool"
        /\ Message c = "Failed to create/update IPAddressPool: " +:+ Error err)
  /\ (forall err w1 w2,
        metallb.ensureIPAddressPool bridge w = (Returns None, w1) ->
        metallb.ensureL2Advertisement bridge w1 = (Returns (Some err), w2) ->
        exists bridge' w' trace c,
          metallb.ConfigureMetalLB bridge w =
            (Returns (bridge', ctrl.noResult, Some err), w')
          /\ calls w' = calls w2 ++ trace
          /\ Forall (fun entry => requestKind entry.1 = KindDPFHCPBridge) trace
          /\ (length trace <= 1)%nat
          /\ metalLBConfigured bridge' = Some c
          /\ Status c = ConditionFalse
          /\ Reason c = "L2AdvertisementFailed"
          /\ Message c = "Failed to create/update L2Advertisement: " +:+ Error err).
Proof.
  intros Hexpose.
  assert (Hset : forall reason message w1,
             exists r w' trace c,
               metallb.setCondition bridge ConditionFalse reason message w1 = (Returns r, w')
               /\ calls w' = calls w1 ++ trace
               /\ Forall (fun entry => requestKind entry.1 = KindDPFHCPBridge) trace
               /\ (length trace <= 1)%nat
               /\ metalLBConfigured r.1 = Some c
               /\ Status c = ConditionFalse /\ Reason c = reason /\ Message c = message).
  { intros reason message w1.
    destruct (setCondition_sets bridge ConditionFalse reason message w1)
      as (r & w' & c & Hrun & Hfind & Hs & Hr & Hm).
    destruct (meta.SetStatusCondition (now w1) (Conditions (Status_ bridge))
                (metalLBCondition bridge (now w1) ConditionFalse reason message)).2
      eqn:Hchanged.
    - destruct (setCondition_changed bridge ConditionFalse reason message w1 Hchanged)
        as (r' & w'' & e & Hrun' & Hcalls & _).
      rewrite Hrun in Hrun'. inversion Hrun'; subst r' w''.
      eexists r, w', [_], c. split; [exact Hrun|]. split; [exact Hcalls|].
      split; [repeat constructor|]. auto.
    - pose proof (setCondition_unchanged bridge ConditionFalse reason message w1 Hchanged)
        as Hrun'.
      rewrite Hrun in Hrun'. inversion Hrun' as [[Hr' Hw']].
      exists r, w', [], c. split; [exact Hrun|]. rewrite app_nil_r.
      split; [now rewrite Hw'|]. split; [constructor|]. cbn. auto. }
  split.
  - intros err w1 Hpool.
    destruct (Hset "CreatingIPAddressPool"
                ("Failed to create/update IPAddressPool: " +:+ Error err) w1)
      as (r & w' & trace & c & Hrun & Hrest).
    exists r.1, w', trace, c. split; [|exact Hrest].
    unfold metallb.ConfigureMetalLB. rewrite Hexpose. cbn [negb]. cbv iota.
    erewrite bind_Returns by exact Hpool. cbv beta iota.
    erewrite bind_Returns by exact Hrun. reflexivity.
  - intros err w1 w2 Hpool Hadv.
    destruct (Hset "L2AdvertisementFailed"
                ("Failed to create/update L2Advertisement: " +:+ Error err) w2)
      as (r & w' & trace & c & Hrun & Hrest).
    exists r.1, w', trace, c. split; [|exact Hrest].
    unfold metallb.ConfigureMetalLB. rewrite Hexpose. cbn [negb]. cbv iota.
    erewrite bind_Returns by exact Hpool. cbv beta iota.
    erewrite bind_Returns by exact Hadv. cbv beta iota.
    erewrite bind_Returns by exact Hrun. reflexivity.
Qed.

Lemma setCondition_refused (bridge : DPFHCPBridge) (status : ConditionStatus)
      (reason message : string) (w : World) (err : error) :
  let set :=
    meta.SetStatusCondition (now w) (Conditions (Status_ bridge))
      (metalLBCondition bridge (now w) status reason message) in
  let updated := withConditions bridge set.1 in
  set.2 = true ->
  faults w (ReqStatusUpdate (ODPFHCPBridge updated)) = Some err ->
  metallb.setCondition bridge status reason message w =
    (Returns (updated, Some (Wrapped "updating MetalLBConfigured condition: " err)),
     {| store := store w; faults := faults w; now := now w;
        calls := calls w ++ [(ReqStatusUpdate (ODPFHCPBridge updated), Some err)];
        events := events w ++ [conditionEvent bridge status message] |}).
Proof.
  cbv zeta. unfold metallb.setCondition, bind, Now, RecordEvent, StatusUpdate, ret.
  fold (metalLBCondition bridge (now w) status reason message).
  destruct (meta.SetStatusCondition _ _ _) as [conditions changed]. cbn [fst snd].
  intros -> Hfault. cbn [faults]. rewrite Hfault. reflexivity.
Qed.

(** X10. The success event can outrun the store.  When both upserts have
    succeeded and the condition has to change, [setCondition] records its
    event before it writes the status; if the API server then refuses the
    write, [ConfigureMetalLB] returns the refusal wrapped as "updating
    MetalLBConfigured condition: ", the "MetalLBConfigured" event is
    recorded all the same, the parent in memory carries the new condition,
    and the store does not. *)
Theorem ConfigureMetalLB_status_write_refused (bridge : DPFHCPBridge) (w w1 w2 : World)
        (err : error) :
  let computed :=
    metalLBCondition bridge (now w2) ConditionTrue "MetalLBReady"
      "MetalLB configured successfully" in
  let set := meta.SetStatusCondition (now w2) (Conditions (Status_ bridge)) computed in
  let updated := withConditions bridge set.1 in
  ShouldExposeThroughLoadBalancer bridge = true ->
  metallb.ensureIPAddressPool bridge w = (Returns None, w1) ->
  metallb.ensureL2Advertisement bridge w1 = (Returns None, w2) ->
  set.2 = true ->
  faults w2 (ReqStatusUpdate (ODPFHCPBridge updated)) = Some err ->
  exists w3,
    metallb.ConfigureMetalLB bridge w =
      (Returns (updated, ctrl.noResult,
                Some (Wrapped "updating MetalLBConfigured condition: " err)), w3)
    /\ events w3 =
       events w2 ++ [conditionEvent bridge ConditionTrue "MetalLB configured successfully"]
    /\ calls w3 = calls w2 ++ [(ReqStatusUpdate (ODPFHCPBridge updated), Some err)]
    /\ store w3 = store w2.
Proof.
  intros computed set updated Hexpose Hpool Hadv Hchanged Hfault.
  unfold metallb.ConfigureMetalLB. rewrite Hexpose. cbn [negb]. cbv iota.
  erewrite bind_Returns by exact Hpool. cbv beta iota.
  erewrite bind_Returns by exact Hadv. cbv beta iota.
  erewrite bind_Returns by (apply setCondition_refused; [exact Hchanged | exact Hfault]).
  cbn. eexists. repeat split.
Qed.

(** Two parents that the reconciler cannot tell apart: same name, same
    namespace, same spec. *)
Definition sameIdentity (a b : DPFHCPBridge) : Prop :=
  Name (ObjectMeta_ a) = Name (ObjectMeta_ b)
  /\ Namespace (ObjectMeta_ a) = Namespace (ObjectMeta_ b)
  /\ Spec a = Spec b.

Lemma ensureIPAddressPool_sameIdentity (a b : DPFHCPBridge) :
  sameIdentity a b -> metallb.ensureIPAddressPool a = metallb.ensureIPAddressPool b.
Proof.
  intros (Hname & Hnamespace & Hspec).
  unfold metallb.ensureIPAddressPool, metallb.buildIPAddressPool, metallb.ownershipLabels,
    metallb.isOwnedByBridge, metallb.errForeignPool, keyOf.
  cbn [GetObjectMeta DPFHCPBridge_KubeObject].
  rewrite Hname, Hnamespace, Hspec. reflexivity.
Qed.

Lemma ensureL2Advertisement_sameIdentity (a b : DPFHCPBridge) :
  sameIdentity a b -> metallb.ensureL2Advertisement a = metallb.ensureL2Advertisement b.
Proof.
  intros (Hname & Hnamespace & Hspec).
  unfold metallb.ensureL2Advertisement, metallb.buildL2Advertisement, metallb.ownershipLabels,
    metallb.isOwnedByBridge, metallb.errForeignL2, keyOf.
  cbn [GetObjectMeta DPFHCPBridge_KubeObject].
  rewrite Hname, Hnamespace. reflexivity.
Qed.

(** A [setCondition] call that returned no error, for a parent held in
    memory as the store has it: the parent it returns is the same parent to
    the reconciler, of the same generation, with the computed conditions. *)
Lemma setCondition_succeeded (bridge : DPFHCPBridge) (status : ConditionStatus)
      (reason message : string) (w w' : World) (bridge' : DPFHCPBridge) :
  bridges (store w) !! keyOf bridge = Some bridge ->
  metallb.setCondition bridge status reason message w = (Returns (bridge', None), w') ->
  sameIdentity bridge' bridge
  /\ Generation (ObjectMeta_ bridge') = Generation (ObjectMeta_ bridge)
  /\ Conditions (Status_ bridge') =
     (meta.SetStatusCondition (now w) (Conditions (Status_ bridge))
        (metalLBCondition bridge (now w) status reason message)).1.
Proof.
  intros Hstored. unfold metallb.setCondition, sameIdentity.
  unfold bind, Now, RecordEvent, StatusUpdate, ret.
  fold (metalLBCondition bridge (now w) status reason message).
  destruct (meta.SetStatusCondition _ _ _) as [conditions [|]]; cbn [fst snd].
  - cbn [faults store].
    change (keyOf (withConditions bridge conditions)) with (keyOf bridge).
    rewrite Hstored. run_cases; intros Hrun; inversion Hrun; subst; cbn; auto.
  - intros Hrun; inversion Hrun; subst; cbn; auto.
Qed.

(** X11. A second reconciliation after a successful one only looks.  Take
    a parent that asks for exposure and is held in memory as the store has
    it, in a store that keeps pools and advertisements under their own
    names and serves their reads.  Once [ConfigureMetalLB] has returned no
    error, running it again on the parent it returned issues the two reads
    and nothing else (no create, no update, no status write, no event) and
    returns the same parent and no error. *)
Theorem ConfigureMetalLB_steady_state (bridge bridge' : DPFHCPBridge) (w w' : World) :
  ShouldExposeThroughLoadBalancer bridge = true ->
  wellKeyed IPAddressPool w ->
  wellKeyed L2Advertisement w ->
  faults w (ReqGet KindIPAddressPool (poolKey bridge)) = None ->
  faults w (ReqGet KindL2Advertisement (l2Key bridge)) = None ->
  bridges (store w) !! keyOf bridge = Some bridge ->
  metallb.ConfigureMetalLB bridge w = (Returns (bridge', ctrl.noResult, None), w') ->
  metallb.ConfigureMetalLB bridge' w' =
    (Returns (bridge', ctrl.noResult, None),
     logCall (ReqGet KindL2Advertisement (l2Key bridge)) None
       (logCall (ReqGet KindIPAddressPool (poolKey bridge)) None w')).
Proof.
  intros Hexpose Hkeyed1 Hkeyed2 Hserved1 Hserved2 Hstored Hrun.
  unfold metallb.ConfigureMetalLB in Hrun. rewrite Hexpose in Hrun.
  cbn [negb] in Hrun. cbv iota in Hrun.
  (* the first run, step by step *)
  destruct (ensureIPAddressPool_footprint bridge w)
    as (e & w1 & e0 & rest1 & Hpool & _ & _ & _ & Hs1 & Hl2same1 & Hb1).
  erewrite bind_Returns in Hrun by exact Hpool. cbv beta iota in Hrun.
  destruct e as [err|].
  { destruct (setCondition_footprint bridge ConditionFalse "CreatingIPAddressPool"
                ("Failed to create/update IPAddressPool: " +:+ Error err) w1)
      as (r & w2 & t2 & c & Hset & _).
    erewrite bind_Returns in Hrun by exact Hset. cbn in Hrun. discriminate. }
  destruct (ensureL2Advertisement_footprint bridge w1)
    as (e & w2 & e1 & rest2 & Hadv & _ & _ & _ & Hs2 & Hpoolsame2 & Hb2).
  erewrite bind_Returns in Hrun by exact Hadv. cbv beta iota in Hrun.
  destruct e as [err|].
  { destruct (setCondition_footprint bridge ConditionFalse "L2AdvertisementFailed"
                ("Failed to create/update L2Advertisement: " +:+ Error err) w2)
      as (r & w3 & t3 & c & Hset & _).
    erewrite bind_Returns in Hrun by exact Hset. cbn in Hrun. discriminate. }
  destruct (setCondition_footprint bridge ConditionTrue "MetalLBReady"
              "MetalLB configured successfully" w2)
    as (r & w3 & t3 & c & Hset & _ & _ & _ & Hs3 & Hpoolsame3 & Hl2same3 & _).
  erewrite bind_Returns in Hrun by exact Hset. cbv beta iota in Hrun.
  destruct r as [b [err|]]; cbn [fst snd] in Hrun; [discriminate|].
  inversion Hrun; subst b w3; clear Hrun.
  (* what the first run left *)
  destruct (ensureIPAddressPool_converges bridge w w1 Hkeyed1 Hserved1 Hpool)
    as (Hf1 & pool & Hpoolstored & Hpoolowned & Hpoolspec).
  assert (Hkeyed2' : wellKeyed L2Advertisement w1).
  { unfold wellKeyed. cbn [objects L2Advertisement_KubeObject]. rewrite Hl2same1.
    exact Hkeyed2. }
  assert (Hserved2' : faults w1 (ReqGet KindL2Advertisement (l2Key bridge)) = None)
    by (rewrite Hf1; exact Hserved2).
  destruct (ensureL2Advertisement_converges bridge w1 w2 Hkeyed2' Hserved2' Hadv)
    as (Hf2 & adv & Hadvstored & Hadvowned & Hadvspec).
  assert (Hstored2 : bridges (store w2) !! keyOf bridge = Some bridge)
    by (rewrite Hb2, Hb1; exact Hstored).
  destruct (setCondition_succeeded bridge ConditionTrue "MetalLBReady"
              "MetalLB configured successfully" w2 w' bridge' Hstored2 Hset)
    as (Hsame & Hgen & Hconds).
  destruct Hs3 as (Hf3 & _).
  (* the second run *)
  unfold metallb.ConfigureMetalLB.
  assert (Hexpose' : ShouldExposeThroughLoadBalancer bridge' = true).
  { unfold ShouldExposeThroughLoadBalancer in *. destruct Hsame as (_ & _ & ->).
    exact Hexpose. }
  rewrite Hexpose'. cbn [negb]. cbv iota.
  rewrite (ensureIPAddressPool_sameIdentity bridge' bridge Hsame).
  rewrite (ensureL2Advertisement_sameIdentity bridge' bridge Hsame).
  erewrite bind_Returns.
  2:{ apply (ensureIPAddressPool_settled bridge w' pool); [|exact Hpoolowned|exact Hpoolspec].
      split; [rewrite Hf3, Hf2, Hf1; exact Hserved1|].
      cbn [objects IPAddressPool_KubeObject]. rewrite Hpoolsame3, Hpoolsame2.
      exact Hpoolstored. }
  cbv beta iota.
  erewrite bind_Returns.
  2:{ apply (ensureL2Advertisement_settled bridge _ adv); [|exact Hadvowned|exact Hadvspec].
      split; [cbn [faults logCall]; rewrite Hf3, Hf2, Hf1; exact Hserved2|].
      cbn [objects L2Advertisement_KubeObject store logCall]. rewrite Hl2same3.
      exact Hadvstored. }
  cbv beta iota.
  set (w'' := logCall _ None (logCall _ None w')).
  assert (Hagain :
            meta.SetStatusCondition (now w'') (Conditions (Status_ bridge'))
              (metalLBCondition bridge' (now w'') ConditionTrue "MetalLBReady"
                 "MetalLB configured successfully") =
            (Conditions (Status_ bridge'), false)).
  { rewrite Hconds. apply SetStatusCondition_again; try reflexivity. cbn. exact Hgen. }
  erewrite bind_Returns.
  2:{ apply setCondition_unchanged. rewrite Hagain. reflexivity. }
  rewrite Hagain. cbn [fst snd]. rewrite withConditions_id. reflexivity.
Qed.

(** ** The teardown as a whole *)

(** The kinds the teardown removes. *)
Definition teardownKind (k : Kind) : bool :=
  match k with
  | KindHostedCluster | KindNodePool | KindSecret => true
  | _ => false
  end.

(** The requests [HandleFinalizerCleanup] may issue: reads and deletes of
    the three dependent kinds and status writes of the parent. *)
Definition teardownRequest (r : Request) : bool :=
  match r with
  | ReqGet k _ | ReqDelete k _ => teardownKind k
  | ReqStatusUpdate o => match o with ODPFHCPBridge _ => true | _ => false end
  | ReqCreate _ | ReqUpdate _ => false
  end.

(** What a status write cannot change in a stored parent: everything but
    the version token and the status. *)
Definition frame (b : DPFHCPBridge) : ObjectMeta * DPFHCPBridgeSpec :=
  (setMeta_ResourceVersion 0 (ObjectMeta_ b), Spec b).

(** [w'] is [w] after the teardown requests [trace]: the fault plan, the
    clock, the events and the MetalLB resources are as they were, and the
    stored parents differ at most in version token and status. *)
Definition teardownStep (w w' : World) (trace : list (Request * option error)) : Prop :=
  calls w' = calls w ++ trace
  /\ forallb (fun entry => teardownRequest entry.1) trace = true
  /\ faults w' = faults w /\ now w' = now w /\ events w' = events w
  /\ pools (store w') = pools (store w)
  /\ l2advertisements (store w') = l2advertisements (store w)
  /\ (forall key, frame <$> (bridges (store w') !! key) = frame <$> (bridges (store w) !! key)).

Lemma teardownStep_refl (w : World) : teardownStep w w [].
Proof. unfold teardownStep. rewrite app_nil_r. repeat split; reflexivity. Qed.

Lemma teardownStep_trans (w w' w'' : World) (t t' : list (Request * option error)) :
  teardownStep w w' t -> teardownStep w' w'' t' -> teardownStep w w'' (t ++ t').
Proof.
  intros (Hc & Hk & Hf & Hn & He & Hp & Hl & Hb) (Hc' & Hk' & Hf' & Hn' & He' & Hp' & Hl' & Hb').
  unfold teardownStep. rewrite Hc', Hc, app_assoc, forallb_app, Hk, Hk'.
  repeat split; try congruence.
Qed.

Ltac teardown_cases :=
  repeat match goal with
    | |- context [match faults ?w ?r with _ => _ end] => destruct (faults w r) eqn:?
    | |- context [match ?m !! ?k with _ => _ end] => destruct (m !! k) eqn:?
    | |- context [match Finalizers ?m with _ => _ end] => destruct (Finalizers m) eqn:?
    | |- context [match DeletionTimestamp ?m with _ => _ end] =>
        destruct (DeletionTimestamp m) eqn:?
    | |- context [if ?b then _ else _] => destruct b eqn:?
    end.

Ltac teardown_done :=
  unfold teardownStep; cbn; repeat split;
  first [reflexivity | symmetry; apply app_assoc | cbn; lia].

Lemma deleteResource_HostedCluster_step (cr : DPFHCPBridge) (resourceKind : string)
      (w : World) :
  exists out w' trace,
    hostedcluster.deleteResource HostedCluster cr resourceKind w = (Returns out, w')
    /\ teardownStep w w' trace /\ (length trace <= 2)%nat.
Proof.
  unfold hostedcluster.deleteResource, bind, Get, Delete, Now, ret.
  cbn [kind objects GetObjectMeta SetObjectMeta setObjects HostedCluster_KubeObject
       faults store logCall].
  teardown_cases; eexists _, _, _; (split; [reflexivity|]); teardown_done.
Qed.

Lemma deleteResource_NodePool_step (cr : DPFHCPBridge) (resourceKind : string)
      (w : World) :
  exists out w' trace,
    hostedcluster.deleteResource NodePool cr resourceKind w = (Returns out, w')
    /\ teardownStep w w' trace /\ (length trace <= 2)%nat.
Proof.
  unfold hostedcluster.deleteResource, bind, Get, Delete, Now, ret.
  cbn [kind objects GetObjectMeta SetObjectMeta setObjects NodePool_KubeObject
       faults store logCall].
  teardown_cases; eexists _, _, _; (split; [reflexivity|]); teardown_done.
Qed.

Lemma deleteSecret_step (namespace secretName : string) (w : World) :
  exists e w' trace,
    hostedcluster.deleteSecret namespace secretName w = (Returns e, w')
    /\ teardownStep w w' trace /\ (length trace <= 2)%nat.
Proof.
  unfold hostedcluster.deleteSecret, bind, Get, Delete, Now, ret.
  cbn [kind objects GetObjectMeta SetObjectMeta setObjects Secret_KubeObject
       faults store logCall].
  teardown_cases; eexists _, _, _; (split; [reflexivity|]); teardown_done.
Qed.

Lemma deleteSecretsLoop_step (namespace : string) (secretNames : list string) (w : World) :
  exists e w' trace,
    hostedcluster.deleteSecretsLoop namespace secretNames w = (Returns e, w')
    /\ teardownStep w w' trace /\ (length trace <= 2 * length secretNames)%nat.
Proof.
  revert w. induction secretNames as [|name rest IH]; intros w; cbn [hostedcluster.deleteSecretsLoop].
  - eexists _, _, _. split; [reflexivity|]. split; [apply teardownStep_refl|]. cbn. lia.
  - destruct (deleteSecret_step namespace name w) as (e & w1 & t1 & Hone & Hstep1 & Hlen1).
    erewrite bind_Returns by exact Hone. cbv beta iota.
    destruct e as [err|].
    + eexists _, _, _. split; [reflexivity|]. split; [exact Hstep1|]. cbn [length]. lia.
    + destruct (IH w1) as (e' & w2 & t2 & Hrest & Hstep2 & Hlen2).
      eexists _, _, _. split; [exact Hrest|].
      split; [eapply teardownStep_trans; eassumption|].
      rewrite length_app. cbn [length]. lia.
Qed.

Lemma StatusUpdate_step (cr : DPFHCPBridge) (w : World) :
  exists r w' trace,
    StatusUpdate cr w = (Returns r, w')
    /\ teardownStep w w' trace /\ (length trace <= 1)%nat.
Proof.
  unfold StatusUpdate.
  destruct (faults w (ReqStatusUpdate (ODPFHCPBridge cr))) as [e|];
    [eexists _, _, _; split; [reflexivity|]; teardown_done|].
  destruct (bridges (store w) !! keyOf cr) as [old|] eqn:Hold;
    [|eexists _, _, _; split; [reflexivity|]; teardown_done].
  destruct (ResourceVersion (ObjectMeta_ old) =? ResourceVersion (ObjectMeta_ cr));
    [|eexists _, _, _; split; [reflexivity|]; teardown_done].
  eexists _, _, [_]. split; [reflexivity|]. split; [|cbn; lia].
  unfold teardownStep. cbn. repeat split.
  intros key. destruct (decide (key = keyOf cr)) as [->|Hne].
  - rewrite lookup_insert_eq, Hold. reflexivity.
  - rewrite lookup_insert_ne by congruence. reflexivity.
Qed.

Lemma drainDependents_step (cr : DPFHCPBridge) (w : World) :
  exists cr' result err w' trace,
    drainDependents cr w = (Returns (cr', result, err), w')
    /\ teardownStep w w' trace /\ (length trace <= 11)%nat
    /\ (result = ctrl.noResult \/ result = requeueSoon /\ err = None).
Proof.
  unfold drainDependents.
  destruct (deleteResource_HostedCluster_step cr "HostedCluster" w)
    as ([hcGone hcErr] & w1 & t1 & Hhc & Hstep1 & Hlen1).
  erewrite bind_Returns by exact Hhc. cbv beta iota.
  destruct hcGone, hcErr as [err|];
    try (eexists _, _, _, _, _; split; [reflexivity|]; split; [exact Hstep1|];
         split; [lia | auto]; fail).
  destruct (deleteResource_NodePool_step cr "NodePool" w1)
    as ([npGone npErr] & w2 & t2 & Hnp & Hstep2 & Hlen2).
  erewrite bind_Returns by exact Hnp. cbv beta iota.
  pose proof (teardownStep_trans _ _ _ _ _ Hstep1 Hstep2) as Hstep12.
  assert (Hlen12 : (length (t1 ++ t2) <= 4)%nat) by (rewrite length_app; lia).
  destruct npGone, npErr as [err|];
    try (eexists _, _, _, _, _; split; [reflexivity|]; split; [exact Hstep12|];
         split; [lia | auto]; fail).
  destruct (deleteSecretsLoop_step (Namespace (ObjectMeta_ cr))
              (hostedcluster.secretNamesOf cr) w2)
    as (e & w3 & t3 & Hsecrets & Hstep3 & Hlen3).
  unfold hostedcluster.deleteSecrets.
  erewrite bind_Returns by exact Hsecrets. cbv beta iota.
  pose proof (teardownStep_trans _ _ _ _ _ Hstep12 Hstep3) as Hstep123.
  assert (Hlen123 : (length ((t1 ++ t2) ++ t3) <= 10)%nat).
  { rewrite length_app. cbn [length hostedcluster.secretNamesOf] in Hlen3. lia. }
  destruct e as [err|];
    [eexists _, _, _, _, _; split; [reflexivity|]; split; [exact Hstep123|];
     split; [lia | auto]|].
  erewrite bind_Returns by apply setCleanupCondition_eq.
  match goal with |- context [StatusUpdate ?c] =>
    destruct (StatusUpdate_step c w3) as (r & w4 & t4 & Hsu & Hstep4 & Hlen4) end.
  erewrite bind_Returns by exact Hsu. cbv beta iota.
  pose proof (teardownStep_trans _ _ _ _ _ Hstep123 Hstep4) as Hstep1234.
  assert (Hlen1234 : (length (((t1 ++ t2) ++ t3) ++ t4) <= 11)%nat)
    by (rewrite length_app; lia).
  destruct r as [cr'|err]; eexists _, _, _, _, _; (split; [reflexivity|]);
    (split; [exact Hstep1234|]); (split; [lia | auto]).
Qed.

(** X12. Whatever the store answers, [HandleFinalizerCleanup] returns (no
    panic) after at most twelve requests, each of them a read or a delete
    of a HostedCluster, a NodePool or a secret, or a status write of the
    parent: it creates nothing and updates nothing, records no event, and
    leaves pools and advertisements alone.  Of a stored parent it changes
    at most the status and the version token: finalizers, deletion
    timestamp, labels and spec stay as they are, so the finalizer is never
    removed here.  The result is either no requeue, or the 10 second
    requeue without an error. *)
Theorem HandleFinalizerCleanup_footprint (durationString : Duration -> string)
        (cr : DPFHCPBridge) (w : World) :
  exists cr' result err w' trace,
    hostedcluster.HandleFinalizerCleanup durationString cr w =
      (Returns (cr', result, err), w')
    /\ calls w' = calls w ++ trace
    /\ forallb (fun entry => teardownRequest entry.1) trace = true
    /\ (length trace <= 12)%nat
    /\ events w' = events w
    /\ pools (store w') = pools (store w)
    /\ l2advertisements (store w') = l2advertisements (store w)
    /\ (forall key, frame <$> (bridges (store w') !! key) = frame <$> (bridges (store w) !! key))
    /\ (result = ctrl.noResult \/ result = requeueSoon /\ err = None).
Proof.
  assert (Hgoal : exists cr' result err w' trace,
             hostedcluster.HandleFinalizerCleanup durationString cr w =
               (Returns (cr', result, err), w')
             /\ teardownStep w w' trace /\ (length trace <= 12)%nat
             /\ (result = ctrl.noResult \/ result = requeueSoon /\ err = None)).
  { rewrite HandleFinalizerCleanup_unfold.
    erewrite bind_Returns by apply setCleanupCondition_eq.
    match goal with |- context [StatusUpdate ?c] =>
      destruct (StatusUpdate_step c w) as (r & w1 & t1 & Hsu & Hstep1 & Hlen1) end.
    erewrite bind_Returns by exact Hsu. cbv beta iota.
    destruct r as [cr1|err1];
      [|eexists _, _, _, _, _; split; [reflexivity|]; split; [exact Hstep1|];
        split; [lia | auto]].
    destruct (DeletionTimestamp (ObjectMeta_ cr1)) as [ts|];
      [|eexists _, _, _, _, _; split; [reflexivity|]; split; [exact Hstep1|];
        split; [lia | auto]].
    erewrite bind_Returns by apply Now_eq. cbv beta iota zeta.
    destruct (hostedcluster.DeletionTimeout <? Sub (now w1) ts).
    - unfold timedOut. erewrite bind_Returns by apply setCleanupCondition_eq.
      match goal with |- context [StatusUpdate ?c] =>
        destruct (StatusUpdate_step c w1) as (r2 & w2 & t2 & Hsu2 & Hstep2 & Hlen2) end.
      erewrite bind_Returns by exact Hsu2. cbv beta iota zeta.
      eexists _, _, _, _, _. split; [reflexivity|].
      split; [eapply teardownStep_trans; eassumption|].
      split; [rewrite length_app; lia | auto].
    - destruct (drainDependents_step cr1 w1)
        as (cr' & result & err & w' & t2 & Hdrain & Hstep2 & Hlen2 & Hresult).
      eexists _, _, _, _, _. split; [exact Hdrain|].
      split; [eapply teardownStep_trans; eassumption|].
      split; [rewrite length_app; lia | exact Hresult]. }
  destruct Hgoal as (cr' & result & err & w' & trace & Hrun & Hstep & Hlen & Hresult).
  destruct Hstep as (Hc & Hk & _ & _ & He & Hp & Hl & Hb).
  exists cr', result, err, w', trace. auto 10.
Qed.

(** ** One dependency at a time *)

(** A stored object once the API server has marked it for deletion at
    time [t]. *)
Definition marked {T : Type} `{KubeObject T} (obj : T) (t : Time) : T :=
  SetObjectMeta (setMeta_DeletionTimestamp (Some t) (GetObjectMeta obj)) obj.

(** What an accepted delete of [obj] leaves of the objects of its type:
    without finalizers the object goes, with finalizers it stays, marked. *)
Definition afterDelete {T : Type} `{KubeObject T} (obj : T) (w : World)
  : gmap ObjectKey T :=
  match Finalizers (GetObjectMeta obj) with
  | [] => delete (keyOf obj) (objects (store w))
  | _ :: _ => <[keyOf obj := marked obj (now w)]> (objects (store w))
  end.

Lemma deleteResource_asks (T : Type) `{KubeObject T} (cr : DPFHCPBridge)
      (resourceKind : string) (w : World) (obj : T) :
  found w (keyOf cr) obj -> keyOf obj = keyOf cr ->
  DeletionTimestamp (GetObjectMeta obj) = None ->
  faults w (ReqDelete (kind T) (keyOf cr)) = None ->
  hostedcluster.deleteResource T cr resourceKind w =
    (Returns (false, None),
     logCall (ReqDelete (kind T) (keyOf cr)) None
       (withStore (setObjects (afterDelete obj w) (store w))
          (logCall (ReqGet (kind T) (keyOf cr)) None w))).
Proof.
  intros Hfound Hkey Hts Hdelete. unfold hostedcluster.deleteResource.
  erewrite bind_Returns by (apply Get_found; exact Hfound). cbv beta iota.
  rewrite Hts. unfold bind, Delete, afterDelete, marked.
  rewrite Hkey. cbn [faults store logCall now].
  rewrite Hdelete, (proj2 Hfound), Hts.
  destruct (Finalizers (GetObjectMeta obj)); reflexivity.
Qed.

Lemma deleteResource_waits (T : Type) `{KubeObject T} (cr : DPFHCPBridge)
      (resourceKind : string) (w : World) (obj : T) (ts : Time) :
  found w (keyOf cr) obj ->
  DeletionTimestamp (GetObjectMeta obj) = Some ts ->
  hostedcluster.deleteResource T cr resourceKind w =
    (Returns (false, None), logCall (ReqGet (kind T) (keyOf cr)) None w).
Proof.
  intros Hfound Hts. unfold hostedcluster.deleteResource.
  erewrite bind_Returns by (apply Get_found; exact Hfound). cbv beta iota.
  rewrite Hts. reflexivity.
Qed.

Lemma deleteResource_gone (T : Type) `{KubeObject T} (cr : DPFHCPBridge)
      (resourceKind : string) (w : World) :
  absent T w (keyOf cr) ->
  hostedcluster.deleteResource T cr resourceKind w =
    (Returns (true, None),
     logCall (ReqGet (kind T) (keyOf cr)) (Some (errNotFound (keyOf cr))) w).
Proof.
  intros Habsent. unfold hostedcluster.deleteResource.
  erewrite bind_Returns by (apply Get_absent; exact Habsent). reflexivity.
Qed.

Ltac deletes_once_proof T cr w obj Hfound Hkey Hts Hdelete :=
  eexists; split; [apply (deleteResource_asks T cr _ w obj Hfound Hkey Hts Hdelete)|];
  split; [cbn; trace_eq|];
  unfold afterDelete; rewrite Hkey;
  change (@GetObjectMeta T _ obj) with (GetObjectMeta obj);
  destruct (Finalizers (GetObjectMeta obj)) as [|f fs] eqn:Hfs;
  cbn [GetObjectMeta HostedCluster_KubeObject NodePool_KubeObject] in Hfs;
  (split; intros Hfin; [|try congruence]); try congruence;
  [ pose (w1 := logCall (ReqDelete (kind T) (keyOf cr)) None
                  (withStore (@setObjects T _ (delete (keyOf cr) (@objects T _ (store w)))
                                (store w))
                     (logCall (ReqGet (kind T) (keyOf cr)) None w)));
    assert (Hgone : @objects T _ (store w1) !! keyOf cr = None)
      by (cbn; apply lookup_delete_eq);
    split; [exact Hgone|];
    exact (deleteResource_gone T cr _ w1 (conj (proj1 Hfound) Hgone))
  | pose (w1 := logCall (ReqDelete (kind T) (keyOf cr)) None
                  (withStore
                     (@setObjects T _ (<[keyOf cr := marked obj (now w)]>
                                         (@objects T _ (store w))) (store w))
                     (logCall (ReqGet (kind T) (keyOf cr)) None w)));
    assert (Hleft : @objects T _ (store w1) !! keyOf cr = Some (marked obj (now w)))
      by (cbn; apply lookup_insert_eq);
    split; [exact Hleft|];
    exact (deleteResource_waits T cr _ w1 (marked obj (now w)) (now w)
             (conj (proj1 Hfound) Hleft) eq_refl) ].

(** X13. [deleteResource] asks for the deletion once and then waits.  For
    a HostedCluster (and likewise a NodePool) that is found without a
    deletion timestamp and whose delete the API server accepts, the call
    issues the read and one delete and answers "not gone yet", even when
    the object had no finalizers and is already gone from the store.  The
    next call only reads: it answers "gone" if the object has disappeared,
    and keeps answering "not gone yet", without a second delete, while the
    object is still there with its deletion timestamp. *)
Theorem deleteResource_deletes_once (cr : DPFHCPBridge) (w : World) :
  let key := keyOf cr in
  (forall hc : HostedCluster,
      found w key hc -> keyOf hc = key ->
      DeletionTimestamp (hc_ObjectMeta hc) = None ->
      faults w (ReqDelete KindHostedCluster key) = None ->
      exists w1,
        hostedcluster.deleteResource HostedCluster cr "HostedCluster" w =
          (Returns (false, None), w1)
        /\ calls w1 = calls w ++ [ (ReqGet KindHostedCluster key, None);
                                   (ReqDelete KindHostedCluster key, None) ]
        /\ (Finalizers (hc_ObjectMeta hc) = [] ->
            hostedClusters (store w1) !! key = None
            /\ hostedcluster.deleteResource HostedCluster cr "HostedCluster" w1 =
               (Returns (true, None),
                logCall (ReqGet KindHostedCluster key) (Some (errNotFound key)) w1))
        /\ (Finalizers (hc_ObjectMeta hc) <> [] ->
            hostedClusters (store w1) !! key = Some (marked hc (now w))
            /\ hostedcluster.deleteResource HostedCluster cr "HostedCluster" w1 =
               (Returns (false, None), logCall (ReqGet KindHostedCluster key) None w1)))
  /\ (forall np : NodePool,
        found w key np -> keyOf np = key ->
        DeletionTimestamp (np_ObjectMeta np) = None ->
        faults w (ReqDelete KindNodePool key) = None ->
        exists w1,
          hostedcluster.deleteResource NodePool cr "NodePool" w =
            (Returns (false, None), w1)
          /\ calls w1 = calls w ++ [ (ReqGet KindNodePool key, None);
                                     (ReqDelete KindNodePool key, None) ]
          /\ (Finalizers (np_ObjectMeta np) = [] ->
              nodePools (store w1) !! key = None
              /\ hostedcluster.deleteResource NodePool cr "NodePool" w1 =
                 (Returns (true, None),
                  logCall (ReqGet KindNodePool key) (Some (errNotFound key)) w1))
          /\ (Finalizers (np_ObjectMeta np) <> [] ->
              nodePools (store w1) !! key = Some (marked np (now w))
              /\ hostedcluster.deleteResource NodePool cr "NodePool" w1 =
                 (Returns (false, None), logCall (ReqGet KindNodePool key) None w1))).
Proof.
  cbv zeta. split.
  - intros hc Hfound Hkey Hts Hdelete.
    deletes_once_proof HostedCluster cr w hc Hfound Hkey Hts Hdelete.
  - intros np Hfound Hkey Hts Hdelete.
    deletes_once_proof NodePool cr w np Hfound Hkey Hts Hdelete.
Qed.

(** ** Leaving the teardown early *)

Lemma StatusUpdate_refused (cr : DPFHCPBridge) (w : World) (err : error) :
  faults w (ReqStatusUpdate (ODPFHCPBridge cr)) = Some err ->
  StatusUpdate cr w =
    (Returns (Err err), logCall (ReqStatusUpdate (ODPFHCPBridge cr)) (Some err) w).
Proof. intros Hfault. unfold StatusUpdate. now rewrite Hfault. Qed.

Lemma StatusUpdate_parent_gone (cr : DPFHCPBridge) (w : World) :
  faults w (ReqStatusUpdate (ODPFHCPBridge cr)) = None ->
  bridges (store w) !! keyOf cr = None ->
  StatusUpdate cr w =
    (Returns (Err (errNotFound (keyOf cr))),
     logCall (ReqStatusUpdate (ODPFHCPBridge cr)) (Some (errNotFound (keyOf cr))) w).
Proof. intros Hfault Hnone. unfold StatusUpdate. now rewrite Hfault, Hnone. Qed.

Lemma StatusUpdate_stale (cr old : DPFHCPBridge) (w : World) :
  faults w (ReqStatusUpdate (ODPFHCPBridge cr)) = None ->
  bridges (store w) !! keyOf cr = Some old ->
  ResourceVersion (ObjectMeta_ old) <> ResourceVersion (ObjectMeta_ cr) ->
  StatusUpdate cr w =
    (Returns (Err (errConflict (keyOf cr))),
     logCall (ReqStatusUpdate (ODPFHCPBridge cr)) (Some (errConflict (keyOf cr))) w).
Proof.
  intros Hfault Hold Hrv. unfold StatusUpdate. rewrite Hfault, Hold.
  now rewrite (proj2 (Z.eqb_neq _ _) Hrv).
Qed.

(** X14. [HandleFinalizerCleanup] touches no dependency before its first
    status write has gone through.  If the write is refused (by a fault,
    because the parent is no longer stored, or because the parent in hand is
    stale), the error comes back as it is, with no requeue, and the refused
    write is the only request.  If the write goes through but the stored
    parent carries no deletion timestamp, the call fails with
    "deletionTimestamp is nil" after that single request, and the store now
    shows the parent with the cleanup condition "CleanupInProgress". *)
Theorem HandleFinalizerCleanup_early_exits (durationString : Duration -> string)
        (cr : DPFHCPBridge) (w : World) :
  let first := inProgress cr (now w) in
  let write := ReqStatusUpdate (ODPFHCPBridge first) in
  (forall err,
      faults w write = Some err ->
      hostedcluster.HandleFinalizerCleanup durationString cr w =
        (Returns (first, ctrl.noResult, Some err), logCall write (Some err) w))
  /\ (faults w write = None ->
      bridges (store w) !! keyOf cr = None ->
      hostedcluster.HandleFinalizerCleanup durationString cr w =
        (Returns (first, ctrl.noResult, Some (errNotFound (keyOf cr))),
         logCall write (Some (errNotFound (keyOf cr))) w))
  /\ (forall stored,
        faults w write = None ->
        bridges (store w) !! keyOf cr = Some stored ->
        ResourceVersion (ObjectMeta_ stored) <> ResourceVersion (ObjectMeta_ cr) ->
        hostedcluster.HandleFinalizerCleanup durationString cr w =
          (Returns (first, ctrl.noResult, Some (errConflict (keyOf cr))),
           logCall write (Some (errConflict (keyOf cr))) w))
  /\ (forall stored,
        faults w write = None ->
        bridges (store w) !! keyOf cr = Some stored ->
        ResourceVersion (ObjectMeta_ stored) = ResourceVersion (ObjectMeta_ cr) ->
        DeletionTimestamp (ObjectMeta_ stored) = None ->
        exists w' c,
          hostedcluster.HandleFinalizerCleanup durationString cr w =
            (Returns (persisted stored first, ctrl.noResult,
                      Some (ErrorString "deletionTimestamp is nil")), w')
          /\ calls w' = calls w ++ [(write, None)]
          /\ bridges (store w') !! keyOf cr = Some (persisted stored first)
          /\ cleanupCondition (persisted stored first) = Some c
          /\ Status c = ConditionFalse /\ Reason c = "CleanupInProgress").
Proof.
  cbv zeta. rewrite HandleFinalizerCleanup_unfold.
  split; [|split; [|split]].
  - intros err Hfault.
    erewrite bind_Returns by apply setCleanupCondition_eq. fold (inProgress cr (now w)).
    erewrite bind_Returns by (apply StatusUpdate_refused; exact Hfault). reflexivity.
  - intros Hfault Hnone.
    erewrite bind_Returns by apply setCleanupCondition_eq. fold (inProgress cr (now w)).
    erewrite bind_Returns by (apply StatusUpdate_parent_gone; [exact Hfault | exact Hnone]).
    reflexivity.
  - intros stored Hfault Hstored Hrv.
    erewrite bind_Returns by apply setCleanupCondition_eq. fold (inProgress cr (now w)).
    erewrite bind_Returns
      by (apply (StatusUpdate_stale _ stored); [exact Hfault | exact Hstored | exact Hrv]).
    reflexivity.
  - intros stored Hfault Hstored Hrv Hts.
    destruct (withCleanupCondition_find cr (now w) ConditionFalse "CleanupInProgress"
                "Deleting HostedCluster and associated resources")
      as (c & Hfind & Hs & Hr & _).
    eexists _, c.
    erewrite bind_Returns by apply setCleanupCondition_eq. fold (inProgress cr (now w)).
    erewrite bind_Returns
      by (apply (StatusUpdate_served _ stored); [exact Hfault | exact Hstored | exact Hrv]).
    cbv beta iota.
    change (DeletionTimestamp (ObjectMeta_ (persisted stored (inProgress cr (now w)))))
      with (DeletionTimestamp (ObjectMeta_ stored)).
    rewrite Hts. split; [reflexivity|]. cbn [ret snd calls logCall withStore].
    split; [reflexivity|]. split; [cbn; apply lookup_insert_eq|].
    split; [exact Hfind|]. auto.
Qed.

(** ** Errors of the teardown steps *)

Lemma IsNotFound_Wrapped (prefix : string) (err : error) :
  apierrors.IsNotFound (Wrapped prefix err) = apierrors.IsNotFound err.
Proof. reflexivity. Qed.

Lemma deleteSecret_error (namespace secretName : string) (w w' : World) (err : error) :
  hostedcluster.deleteSecret namespace secretName w = (Returns (Some err), w') ->
  apierrors.IsNotFound err = false.
Proof.
  unfold hostedcluster.deleteSecret.
  destruct (Get_log Secret (namespace, secretName) w) as [(e & Hget & _)|(obj & Hget & _)];
    erewrite bind_Returns by exact Hget; cbv beta iota.
  - destruct (apierrors.IsNotFound e) eqn:Hnf; intros Hrun; inversion Hrun. exact Hnf.
  - destruct (Delete_log obj (logCall (ReqGet (kind Secret) (namespace, secretName)) None w))
      as (e & w1 & Hdel & _).
    erewrite bind_Returns by exact Hdel. cbv beta iota.
    destruct e as [e|]; [destruct (apierrors.IsNotFound e) eqn:Hnf|];
      intros Hrun; inversion Hrun. exact Hnf.
Qed.

(** X15. A not-found answer never comes back as a failure of the teardown
    steps.  An error returned by [deleteResource] comes with "not gone",
    wraps the store's error as "failed to get <kind>: " or "failed to delete
    <kind>: ", and is not a not-found error; "gone" is only ever answered
    without an error.  An error returned by [deleteSecret] or
    [deleteSecrets] is not a not-found error either. *)
Theorem teardown_errors_are_not_not_found :
  (forall (T : Type) `{KubeObject T} (cr : DPFHCPBridge) (resourceKind : string)
          (w w' : World) (gone : bool) (err : error),
      hostedcluster.deleteResource T cr resourceKind w = (Returns (gone, Some err), w') ->
      gone = false
      /\ apierrors.IsNotFound err = false
      /\ exists cause,
           err = Wrapped ("failed to get " +:+ resourceKind +:+ ": ") cause
           \/ err = Wrapped ("failed to delete " +:+ resourceKind +:+ ": ") cause)
  /\ (forall (namespace secretName : string) (w w' : World) (err : error),
        hostedcluster.deleteSecret namespace secretName w = (Returns (Some err), w') ->
        apierrors.IsNotFound err = false)
  /\ (forall (cr : DPFHCPBridge) (w w' : World) (err : error),
        hostedcluster.deleteSecrets cr w = (Returns (Some err), w') ->
        apierrors.IsNotFound err = false).
Proof.
  split; [|split].
  - intros T HT cr resourceKind w w' gone err.
    unfold hostedcluster.deleteResource.
    set (key := (Namespace (ObjectMeta_ cr), Name (ObjectMeta_ cr))).
    destruct (Get_log T key w) as [(e & Hget & _)|(obj & Hget & _)];
      erewrite bind_Returns by exact Hget; cbv beta iota.
    + destruct (apierrors.IsNotFound e) eqn:Hnf; [intros Hrun; inversion Hrun|].
      destruct (meta.IsNoMatchError e); intros Hrun; inversion Hrun.
      rewrite IsNotFound_Wrapped. eauto.
    + destruct (DeletionTimestamp (GetObjectMeta obj)); [intros Hrun; inversion Hrun|].
      destruct (Delete_log obj (logCall (ReqGet (kind T) key) None w))
        as (e & w1 & Hdel & _).
      erewrite bind_Returns by exact Hdel. cbv beta iota.
      destruct e as [e|]; [destruct (apierrors.IsNotFound e) eqn:Hnf|];
        intros Hrun; inversion Hrun.
      rewrite IsNotFound_Wrapped. eauto.
  - exact deleteSecret_error.
  - intros cr w w' err. unfold hostedcluster.deleteSecrets.
    generalize (hostedcluster.secretNamesOf cr). intros names. revert w.
    induction names as [|name rest IH]; intros w; cbn [hostedcluster.deleteSecretsLoop].
    + intros Hrun; inversion Hrun.
    + destruct (deleteSecret_trace (Namespace (ObjectMeta_ cr)) name w)
        as (e & w1 & t1 & Hone & _).
      erewrite bind_Returns by exact Hone. cbv beta iota.
      destruct e as [e|].
      * intros Hrun; inversion Hrun; subst. eapply deleteSecret_error, Hone.
      * apply IH.
Qed.

(** ** The secrets *)

(** [w'] is [w] after requests on secrets: only the secrets may differ. *)
Definition secretsStep (w w' : World) : Prop :=
  faults w' = faults w /\ now w' = now w /\ events w' = events w
  /\ bridges (store w') = bridges (store w)
  /\ hostedClusters (store w') = hostedClusters (store w)
  /\ nodePools (store w') = nodePools (store w).

Lemma secretsStep_refl (w : World) : secretsStep w w.
Proof. unfold secretsStep. auto 10. Qed.

Lemma secretsStep_trans (w w' w'' : World) :
  secretsStep w w' -> secretsStep w' w'' -> secretsStep w w''.
Proof.
  unfold secretsStep. intros (? & ? & ? & ? & ? & ?) (? & ? & ? & ? & ? & ?).
  repeat split; congruence.
Qed.

Lemma deleteSecret_secretsStep (namespace secretName : string) (w : World) :
  secretsStep w (hostedcluster.deleteSecret namespace secretName w).2.
Proof.
  unfold hostedcluster.deleteSecret, bind, Get, Delete, ret, secretsStep.
  cbn [kind objects GetObjectMeta SetObjectMeta setObjects Secret_KubeObject
       faults store logCall].
  teardown_cases; cbn; auto 10.
Qed.

Lemma deleteSecretsLoop_secretsStep (namespace : string) (secretNames : list string)
      (w : World) :
  secretsStep w (hostedcluster.deleteSecretsLoop namespace secretNames w).2.
Proof.
  revert w. induction secretNames as [|name rest IH]; intros w;
    cbn [hostedcluster.deleteSecretsLoop].
  - apply secretsStep_refl.
  - pose proof (deleteSecret_secretsStep namespace name w) as Hone.
    destruct (deleteSecret_trace namespace name w) as (e & w1 & t & Hrun & _).
    rewrite Hrun in Hone. erewrite bind_Returns by exact Hrun. cbv beta iota.
    destruct e as [err|]; [exact Hone|].
    eapply secretsStep_trans; [exact Hone | apply IH].
Qed.

Lemma marked_keyOf (s : Secret) (t : option Time) :
  keyOf {| secret_ObjectMeta := setMeta_DeletionTimestamp t (secret_ObjectMeta s) |} =
  keyOf s.
Proof. reflexivity. Qed.

(** One [deleteSecret] call touches the secret it is called for and
    nothing else. *)
Lemma deleteSecret_scope (namespace secretName : string) (w w' : World)
      (e : option error) :
  wellKeyed Secret w ->
  hostedcluster.deleteSecret namespace secretName w = (Returns e, w') ->
  wellKeyed Secret w'
  /\ secretsStep w w'
  /\ (forall key, key <> (namespace, secretName) ->
                  secrets (store w') !! key = secrets (store w) !! key).
Proof.
  intros Hkeyed. unfold hostedcluster.deleteSecret.
  destruct (Get_log Secret (namespace, secretName) w)
    as [(err & Hget & _)|(obj & Hget & Hfound)];
    erewrite bind_Returns by exact Hget; cbv beta iota.
  - destruct (apierrors.IsNotFound err); intros Hrun; inversion Hrun; subst;
      (split; [exact Hkeyed|]); (split; [unfold secretsStep; cbn; auto 10 | reflexivity]).
  - pose proof (Hkeyed _ _ (proj2 Hfound)) as Hkey.
    unfold bind, Delete. rewrite Hkey.
    cbn [kind objects setObjects GetObjectMeta SetObjectMeta Secret_KubeObject
         faults store logCall now].
    destruct (faults w (ReqDelete KindSecret (namespace, secretName))) as [err|].
    { destruct (apierrors.IsNotFound err); intros Hrun; inversion Hrun; subst;
        (split; [exact Hkeyed|]);
        (split; [unfold secretsStep; cbn; auto 10 | reflexivity]). }
    rewrite (proj2 Hfound : secrets (store w) !! (namespace, secretName) = Some obj).
    destruct (Finalizers (secret_ObjectMeta obj)) as [|f fs].
    + intros Hrun; inversion Hrun; subst. unfold wellKeyed, secretsStep. cbn.
      split; [|split; [auto 10|]].
      * intros key s Hs. apply lookup_delete_Some in Hs as [_ Hs]. now apply Hkeyed.
      * intros key Hne. now apply lookup_delete_ne.
    + destruct (DeletionTimestamp (secret_ObjectMeta obj)) as [ts|];
        intros Hrun; inversion Hrun; subst; unfold wellKeyed, secretsStep; cbn.
      * split; [exact Hkeyed|]. split; [auto 10 | reflexivity].
      * split; [|split; [auto 10|]].
        -- intros key s Hs. apply lookup_insert_Some in Hs as [[<- <-]|[_ Hs]].
           ++ rewrite marked_keyOf. exact Hkey.
           ++ now apply Hkeyed.
        -- intros key Hne. now apply lookup_insert_ne.
Qed.

Lemma deleteSecretsLoop_scope (namespace : string) (secretNames : list string)
      (w w' : World) (e : option error) :
  wellKeyed Secret w ->
  hostedcluster.deleteSecretsLoop namespace secretNames w = (Returns e, w') ->
  wellKeyed Secret w'
  /\ secretsStep w w'
  /\ (forall key, ~ In key (map (fun name => (namespace, name)) secretNames) ->
                  secrets (store w') !! key = secrets (store w) !! key).
Proof.
  revert w. induction secretNames as [|name rest IH]; intros w Hkeyed;
    cbn [hostedcluster.deleteSecretsLoop].
  - intros Hrun; inversion Hrun; subst.
    split; [exact Hkeyed|]. split; [apply secretsStep_refl | reflexivity].
  - destruct (deleteSecret_trace namespace name w) as (e1 & w1 & t1 & Hone & _).
    erewrite bind_Returns by exact Hone. cbv beta iota.
    destruct (deleteSecret_scope namespace name w w1 e1 Hkeyed Hone)
      as (Hkeyed1 & Hstep1 & Hrest1).
    assert (Hother : forall key,
               ~ In key (map (fun name => (namespace, name)) (name :: rest)) ->
               secrets (store w1) !! key = secrets (store w) !! key).
    { intros key Hout. apply Hrest1. intros ->. apply Hout. now left. }
    destruct e1 as [err|].
    + intros Hrun; inversion Hrun; subst. auto.
    + intros Hrun. destruct (IH w1 Hkeyed1 Hrun) as (Hkeyed2 & Hstep2 & Hrest2).
      split; [exact Hkeyed2|]. split; [eapply secretsStep_trans; eassumption|].
      intros key Hout. rewrite Hrest2, Hother; [reflexivity | exact Hout|].
      intros Hin. apply Hout. now right.
Qed.

(** X16. [deleteSecrets] reaches for the three secrets named after the
    parent, in the parent's namespace, and for nothing else: in a store
    that keeps secrets under their own names, every other secret is after
    the call what it was before, whatever the API server answered, and so
    are the HostedClusters, the NodePools and the parents. *)
Theorem deleteSecrets_scope (cr : DPFHCPBridge) (w w' : World) (e : option error) :
  wellKeyed Secret w ->
  hostedcluster.deleteSecrets cr w = (Returns e, w') ->
  (forall key,
      ~ In key (map (fun name => (Namespace (ObjectMeta_ cr), name))
                  [ Name (ObjectMeta_ cr) +:+ "-pull-secret";
                    Name (ObjectMeta_ cr) +:+ "-ssh-key";
                    Name (ObjectMeta_ cr) +:+ "-etcd-encryption-key" ]) ->
      secrets (store w') !! key = secrets (store w) !! key)
  /\ hostedClusters (store w') = hostedClusters (store w)
  /\ nodePools (store w') = nodePools (store w)
  /\ bridges (store w') = bridges (store w).
Proof.
  intros Hkeyed Hrun.
  destruct (deleteSecretsLoop_scope _ _ w w' e Hkeyed Hrun)
    as (_ & (_ & _ & _ & Hb & Hhc & Hnp) & Hrest).
  auto.
Qed.

(** X17. [deleteSecret] does not wait.  For a secret that carries
    finalizers, an accepted delete only marks it; [deleteSecret] returns no
    error all the same, after the read and the delete, with the secret still
    in the store.  (For a HostedCluster or a NodePool in that state
    [deleteResource] answers "not gone yet".) *)
Theorem deleteSecret_does_not_wait (namespace secretName : string) (w : World)
        (secret : Secret) :
  found w (namespace, secretName) secret ->
  keyOf secret = (namespace, secretName) ->
  Finalizers (secret_ObjectMeta secret) <> [] ->
  faults w (ReqDelete KindSecret (namespace, secretName)) = None ->
  exists w' left,
    hostedcluster.deleteSecret namespace secretName w = (Returns None, w')
    /\ calls w' = calls w ++ [ (ReqGet KindSecret (namespace, secretName), None);
                               (ReqDelete KindSecret (namespace, secretName), None) ]
    /\ secrets (store w') !! (namespace, secretName) = Some left
    /\ DeletionTimestamp (secret_ObjectMeta left) <> None
    /\ Finalizers (secret_ObjectMeta left) = Finalizers (secret_ObjectMeta secret).
Proof.
  intros Hfound Hkey Hfin Hdelete. unfold hostedcluster.deleteSecret.
  erewrite bind_Returns by (apply Get_found; exact Hfound). cbv beta iota.
  unfold bind, Delete. rewrite Hkey.
  cbn [kind objects setObjects GetObjectMeta SetObjectMeta Secret_KubeObject
       faults store logCall now].
  rewrite Hdelete, (proj2 Hfound : secrets (store w) !! (namespace, secretName) = Some secret).
  destruct (Finalizers (secret_ObjectMeta secret)) as [|f fs] eqn:Hfs; [congruence|].
  destruct (DeletionTimestamp (secret_ObjectMeta secret)) as [ts|] eqn:Hts.
  - eexists _, secret. split; [reflexivity|]. cbn. split; [trace_eq|].
    split; [exact (proj2 Hfound)|]. split; [congruence | exact Hfs].
  - eexists _, _. split; [reflexivity|]. cbn. split; [trace_eq|].
    split; [apply lookup_insert_eq|]. cbn. split; [discriminate | exact Hfs].
Qed.

Lemma deleteSecretsLoop_app (namespace : string) (pre rest : list string) (w w1 : World) :
  hostedcluster.deleteSecretsLoop namespace pre w = (Returns None, w1) ->
  hostedcluster.deleteSecretsLoop namespace (pre ++ rest) w =
  hostedcluster.deleteSecretsLoop namespace rest w1.
Proof.
  revert w. induction pre as [|name pre IH]; intros w; cbn [hostedcluster.deleteSecretsLoop app].
  - intros Hrun; inversion Hrun. reflexivity.
  - destruct (deleteSecret_trace namespace name w) as (e & w0 & t & Hone & _).
    erewrite !bind_Returns by exact Hone. cbv beta iota.
    destruct e as [err|]; [intros Hrun; inversion Hrun | apply IH].
Qed.

(** X18. The loop over the secrets stops at the first secret that fails:
    the error of that secret is the result, and the world is the one that
    secret's call left, so no request is made for any secret that comes
    later in the list. *)
Theorem deleteSecrets_stops_at_first_failure (namespace : string) (pre post : list string)
        (name : string) (w w1 w2 : World) (err : error) :
  hostedcluster.deleteSecretsLoop namespace pre w = (Returns None, w1) ->
  hostedcluster.deleteSecret namespace name w1 = (Returns (Some err), w2) ->
  hostedcluster.deleteSecretsLoop namespace (pre ++ name :: post) w =
    (Returns (Some err), w2).
Proof.
  intros Hpre Hone. rewrite (deleteSecretsLoop_app _ _ _ _ _ Hpre).
  cbn [hostedcluster.deleteSecretsLoop]. erewrite bind_Returns by exact Hone. reflexivity.
Qed.

(** ** The teardown completes *)

(** The parent with the cleanup condition of a finished teardown. *)
Definition succeeded (cr : DPFHCPBridge) (t : Time) : DPFHCPBridge :=
  withCleanupCondition cr t ConditionTrue "CleanupSucceeded"
    "HostedCluster and associated resources deleted successfully".

(** X19. With the HostedCluster and the NodePool gone, the secrets served
    and both status writes accepted, one invocation finishes the teardown:
    it returns no error and no requeue, and the parent, in memory and in the
    store, carries the cleanup condition True with reason
    "CleanupSucceeded".  The parent keeps its finalizers: removing the
    finalizer is left to the caller. *)
Theorem teardown_completes (durationString : Duration -> string) (cr stored : DPFHCPBridge)
        (ts : Time) (w : World) :
  let first := persisted stored (inProgress cr (now w)) in
  let last := persisted first (succeeded first (now w)) in
  faults w (ReqStatusUpdate (ODPFHCPBridge (inProgress cr (now w)))) = None ->
  bridges (store w) !! keyOf cr = Some stored ->
  keyOf stored = keyOf cr ->
  ResourceVersion (ObjectMeta_ stored) = ResourceVersion (ObjectMeta_ cr) ->
  DeletionTimestamp (ObjectMeta_ stored) = Some ts ->
  now w - ts <= hostedcluster.DeletionTimeout ->
  absent HostedCluster w (keyOf cr) ->
  absent NodePool w (keyOf cr) ->
  servesSecrets w ->
  faults w (ReqStatusUpdate (ODPFHCPBridge (succeeded first (now w)))) = None ->
  exists w' c,
    hostedcluster.HandleFinalizerCleanup durationString cr w =
      (Returns (last, ctrl.noResult, None), w')
    /\ bridges (store w') !! keyOf cr = Some last
    /\ cleanupCondition last = Some c
    /\ Status c = ConditionTrue
    /\ Reason c = "CleanupSucceeded"
    /\ Message c = "HostedCluster and associated resources deleted successfully"
    /\ Finalizers (ObjectMeta_ last) = Finalizers (ObjectMeta_ stored)
    /\ DeletionTimestamp (ObjectMeta_ last) = Some ts.
Proof.
  intros first last Hwrite Hstored Hkey Hrv Hts Hintime Hhc Hnp Hsecrets Hwrite2.
  rewrite HandleFinalizerCleanup_unfold.
  erewrite bind_Returns by apply setCleanupCondition_eq. fold (inProgress cr (now w)).
  erewrite bind_Returns
    by (apply (StatusUpdate_served _ stored); [exact Hwrite | exact Hstored | exact Hrv]).
  cbv beta iota. fold first.
  change (DeletionTimestamp (ObjectMeta_ first)) with (DeletionTimestamp (ObjectMeta_ stored)).
  rewrite Hts.
  erewrite bind_Returns by apply Now_eq. cbv beta iota zeta.
  set (w1 := logCall _ None (withStore _ w)).
  assert (Htest : (hostedcluster.DeletionTimeout <? Sub (now w1) ts) = false).
  { apply not_true_is_false. intros Hlate. apply timeout_test in Hlate.
    change (now w1) with (now w) in Hlate. lia. }
  rewrite Htest. unfold drainDependents.
  assert (Hkey1 : keyOf first = keyOf cr) by exact Hkey.
  (* the HostedCluster is gone *)
  erewrite bind_Returns.
  2:{ apply (deleteResource_gone HostedCluster first). rewrite Hkey1. exact Hhc. }
  cbv beta iota.
  set (w2 := logCall _ _ w1).
  (* the NodePool is gone *)
  erewrite bind_Returns.
  2:{ apply (deleteResource_gone NodePool first). rewrite Hkey1. exact Hnp. }
  cbv beta iota.
  set (w3 := logCall _ _ w2).
  (* the secrets *)
  destruct (deleteSecretsLoop_served (Namespace (ObjectMeta_ first))
              (hostedcluster.secretNamesOf first) w3 Hsecrets) as (w4 & Hloop & Hf4).
  pose proof (deleteSecretsLoop_secretsStep (Namespace (ObjectMeta_ first))
                (hostedcluster.secretNamesOf first) w3) as Hstep.
  rewrite Hloop in Hstep. cbn [snd] in Hstep. destruct Hstep as (_ & Hn4 & _ & Hb4 & _).
  unfold hostedcluster.deleteSecrets.
  erewrite bind_Returns by exact Hloop. cbv beta iota.
  (* the last status write *)
  erewrite bind_Returns by apply setCleanupCondition_eq.
  change (now w3) with (now w) in Hn4. rewrite Hn4. fold (succeeded first (now w)).
  erewrite bind_Returns.
  2:{ apply (StatusUpdate_served _ first).
      - rewrite Hf4. exact Hwrite2.
      - rewrite Hb4. change (keyOf (succeeded first (now w))) with (keyOf first).
        rewrite Hkey1. cbn. apply lookup_insert_eq.
      - reflexivity. }
  cbv beta iota. fold last.
  destruct (withCleanupCondition_find first (now w) ConditionTrue "CleanupSucceeded"
              "HostedCluster and associated resources deleted successfully")
    as (c & Hfind & Hs & Hr & Hm).
  eexists _, c. split; [reflexivity|].
  split.
  { cbn. change (keyOf (succeeded first (now w))) with (keyOf first).
    rewrite Hkey1. apply lookup_insert_eq. }
  split; [exact Hfind|]. split; [exact Hs|]. split; [exact Hr|]. split; [exact Hm|].
  split; [reflexivity | exact Hts].
Qed.

(** ** Service publishing, looked up by service *)

(** internal/controller/hostedcluster/servicepublishing_test.go *)
Module hostedcluster_test.
Import hyperv1.

(** [findServiceStrategyByType]: the strategy of the first mapping for
    [service], or nil. *)
Fixpoint findServiceStrategyByType (strategies : list ServicePublishingStrategyMapping)
         (service : ServiceType) : option ServicePublishingStrategy :=
  match strategies with
  | [] => None
  | s :: rest =>
      if String.eqb (Service s) service then Some (Strategy s)
      else findServiceStrategyByType rest service
  end.

End hostedcluster_test.

Lemma BuildServicePublishingStrategy_NodePort (nodeAddress : string) :
  hostedcluster.BuildServicePublishingStrategy false nodeAddress =
  map (fun service =>
         {| hyperv1.Service := service;
            hyperv1.Strategy :=
              {| hyperv1.Type_ := hyperv1.NodePort;
                 hyperv1.NodePort_ := Some {| hyperv1.Address := nodeAddress |} |} |})
      [ hyperv1.APIServer; hyperv1.Ignition; hyperv1.Konnectivity;
        hyperv1.OAuthServer; hyperv1.OIDC ].
Proof. vm_compute. reflexivity. Qed.

(** X20. Looking a service up in what [BuildServicePublishingStrategy]
    returns.  No service is listed twice in either mode, so the first match
    [findServiceStrategyByType] returns is the only one.  In node-port mode
    the lookup succeeds exactly for APIServer, OAuthServer, OIDC,
    Konnectivity and Ignition, always with the NodePort strategy at the given
    address; in load-balancer mode it succeeds exactly for the same services
    without OIDC, never with a node port, with type LoadBalancer exactly for
    APIServer, and the node address plays no part. *)
Theorem service_lookup (nodeAddress : string) (service : hyperv1.ServiceType) :
  let lb := hostedcluster.BuildServicePublishingStrategy true nodeAddress in
  let np := hostedcluster.BuildServicePublishingStrategy false nodeAddress in
  NoDup (map hyperv1.Service lb)
  /\ NoDup (map hyperv1.Service np)
  /\ (hostedcluster_test.findServiceStrategyByType np service <> None <->
      In service [ hyperv1.APIServer; hyperv1.OAuthServer; hyperv1.OIDC;
                   hyperv1.Konnectivity; hyperv1.Ignition ])
  /\ (forall s,
        hostedcluster_test.findServiceStrategyByType np service = Some s ->
        s = {| hyperv1.Type_ := hyperv1.NodePort;
               hyperv1.NodePort_ := Some {| hyperv1.Address := nodeAddress |} |})
  /\ (hostedcluster_test.findServiceStrategyByType lb service <> None <->
      In service [ hyperv1.APIServer; hyperv1.OAuthServer;
                   hyperv1.Konnectivity; hyperv1.Ignition ])
  /\ (forall s,
        hostedcluster_test.findServiceStrategyByType lb service = Some s ->
        hyperv1.NodePort_ s = None
        /\ (hyperv1.Type_ s = hyperv1.LoadBalancer <-> service = hyperv1.APIServer)
        /\ (hyperv1.Type_ s = hyperv1.Route <-> service <> hyperv1.APIServer))
  /\ lb = hostedcluster.BuildServicePublishingStrategy true "".
Proof.
  cbv zeta. rewrite BuildServicePublishingStrategy_NodePort.
  unfold hostedcluster.BuildServicePublishingStrategy.
  cbn [map hostedcluster_test.findServiceStrategyByType hyperv1.Service hyperv1.Strategy In].
  split; [apply (bool_decide_unpack _); vm_compute; exact I|].
  split; [apply (bool_decide_unpack _); vm_compute; exact I|].
  destruct (String.eqb_spec hyperv1.APIServer service) as [Hapi|Hapi];
    destruct (String.eqb_spec hyperv1.Ignition service) as [Hign|Hign];
    destruct (String.eqb_spec hyperv1.Konnectivity service) as [Hkon|Hkon];
    destruct (String.eqb_spec hyperv1.OAuthServer service) as [Hoauth|Hoauth];
    destruct (String.eqb_spec hyperv1.OIDC service) as [Hoidc|Hoidc];
    try congruence;
    repeat split; intros;
    repeat match goal with
      | H : Some _ = Some _ |- _ => inversion H; clear H; subst
      end;
    cbn in *; try discriminate; try tauto; try congruence;
    try (intuition (congruence || discriminate)).
Qed.

(* ===================================================================== *)
(** * The further properties at work on the sample worlds *)
(* ===================================================================== *)

(** What the API server says when it refuses a request outright. *)
Definition forbidden : error := StatusError StatusReasonForbidden "forbidden".

(** The fresh world with an API server that refuses to read pools. *)
Definition unreadableWorld : World :=
  Sample.world (Sample.storeOf Sample.bridge None None None None [])
    (fun r => match r with
              | ReqGet KindIPAddressPool _ => Some forbidden
              | _ => None
              end) 100.

(** The fresh world with an API server that refuses status writes. *)
Definition readOnlyStatusWorld : World :=
  Sample.world (Sample.storeOf Sample.bridge None None None None [])
    (fun r => match r with
              | ReqStatusUpdate _ => Some forbidden
              | _ => None
              end) 100.

(** A parent of the same name as the sample parent, in another namespace. *)
Definition namesake : DPFHCPBridge :=
  {| ObjectMeta_ := Sample.objectMeta "M" "P" [];
     Spec := {| VirtualIP := "192.168.1.200"; ExposeThroughLoadBalancer := true |};
     Status_ := {| Phase := "Pending"; Conditions := [] |} |}.

(** X4 at work: on the fresh world the pool is created as built. *)
Lemma ensure_creates_absent_resource_witness :
  exists w',
    metallb.ensureIPAddressPool Sample.bridge freshWorld = (Returns None, w')
    /\ pools (store w') !! poolKey Sample.bridge =
       Some (created (metallb.buildIPAddressPool Sample.bridge)).
Proof.
  destruct (proj1 (proj1 (ensure_creates_absent_resource Sample.bridge freshWorld)
                     ltac:(split; vm_compute; reflexivity))
              ltac:(vm_compute; reflexivity)) as (w' & Hrun & _ & Hpools & _).
  exists w'. split; [exact Hrun|]. rewrite Hpools. apply lookup_insert_eq.
Defined.

(** X5 at work: a forbidden read ends the upsert. *)
Lemma ensure_read_failure_witness :
  metallb.ensureIPAddressPool Sample.bridge unreadableWorld =
    (Returns (Some (Wrapped "getting IPAddressPool: " forbidden)),
     logCall (ReqGet KindIPAddressPool (poolKey Sample.bridge)) (Some forbidden)
       unreadableWorld).
Proof.
  apply (proj1 (ensure_read_failure Sample.bridge unreadableWorld forbidden eq_refl)).
  reflexivity.
Defined.

Lemma driftedWorld_wellKeyed :
  wellKeyed IPAddressPool driftedWorld /\ wellKeyed L2Advertisement driftedWorld.
Proof.
  split; intros key obj Hobj; cbn in Hobj;
    apply lookup_singleton_Some in Hobj as [<- <-]; reflexivity.
Qed.

(** X6 at work: after the drifted pool has been corrected, the next upsert
    only reads. *)
Lemma ensure_is_idempotent_witness :
  let w' := (metallb.ensureIPAddressPool Sample.bridge driftedWorld).2 in
  metallb.ensureIPAddressPool Sample.bridge w' =
    (Returns None, logCall (ReqGet KindIPAddressPool (poolKey Sample.bridge)) None w').
Proof.
  cbv zeta.
  apply (proj1 (ensure_is_idempotent Sample.bridge driftedWorld
                  (metallb.ensureIPAddressPool Sample.bridge driftedWorld).2)).
  - exact (proj1 driftedWorld_wellKeyed).
  - reflexivity.
  - vm_compute. reflexivity.
Defined.

(** X7 at work: the namesake finds the pool of the sample parent in its
    way. *)
Lemma same_name_parents_contend_witness :
  exists w' w'',
    metallb.ensureIPAddressPool Sample.bridge freshWorld = (Returns None, w')
    /\ metallb.ensureIPAddressPool namesake w' =
       (Returns (Some (metallb.errForeignPool
                         (created (metallb.buildIPAddressPool Sample.bridge)) namesake)),
        w'').
Proof.
  destruct (proj1 (same_name_parents_contend Sample.bridge namesake freshWorld
                     eq_refl ltac:(discriminate))
              ltac:(split; vm_compute; reflexivity) ltac:(vm_compute; reflexivity))
    as (w' & w'' & Hfirst & Hsecond & _).
  exists w', w''. split; [exact Hfirst | exact Hsecond].
Defined.

(** X9 at work: with pools unreadable, the configuration fails with the
    upsert's error and says so in the condition. *)
Lemma ConfigureMetalLB_reports_upsert_failure_witness :
  exists bridge' w' c,
    metallb.ConfigureMetalLB Sample.bridge unreadableWorld =
      (Returns (bridge', ctrl.noResult,
                Some (Wrapped "getting IPAddressPool: " forbidden)), w')
    /\ metalLBConfigured bridge' = Some c
    /\ Status c = ConditionFalse
    /\ Reason c = "CreatingIPAddressPool"
    /\ Message c =
       "Failed to create/update IPAddressPool: getting IPAddressPool: forbidden".
Proof.
  destruct (proj1 (ConfigureMetalLB_reports_upsert_failure Sample.bridge unreadableWorld
                     eq_refl)
              (Wrapped "getting IPAddressPool: " forbidden)
              (metallb.ensureIPAddressPool Sample.bridge unreadableWorld).2
              ltac:(vm_compute; reflexivity))
    as (bridge' & w' & trace & c & Hrun & _ & _ & _ & Hfind & Hs & Hr & Hm).
  exists bridge', w', c. auto.
Defined.

(** X10 at work: both resources are created, the status write is refused,
    and the success event is on record. *)
Lemma ConfigureMetalLB_status_write_refused_witness :
  exists bridge' w3,
    metallb.ConfigureMetalLB Sample.bridge readOnlyStatusWorld =
      (Returns (bridge', ctrl.noResult,
                Some (Wrapped "updating MetalLBConfigured condition: " forbidden)), w3)
    /\ events w3 =
       [conditionEvent Sample.bridge ConditionTrue "MetalLB configured successfully"]
    /\ bridges (store w3) = bridges (store readOnlyStatusWorld).
Proof.
  destruct (ConfigureMetalLB_status_write_refused Sample.bridge readOnlyStatusWorld
              (metallb.ensureIPAddressPool Sample.bridge readOnlyStatusWorld).2
              (metallb.ensureL2Advertisement Sample.bridge
                 (metallb.ensureIPAddressPool Sample.bridge readOnlyStatusWorld).2).2
              forbidden
              eq_refl
              ltac:(vm_compute; reflexivity) ltac:(vm_compute; reflexivity)
              ltac:(vm_compute; reflexivity) ltac:(vm_compute; reflexivity))
    as (w3 & Hrun & Hevents & _ & Hstore).
  eexists _, w3. split; [exact Hrun|]. split; [exact Hevents|].
  rewrite Hstore. reflexivity.
Defined.

Lemma freshWorld_wellKeyed :
  wellKeyed IPAddressPool freshWorld /\ wellKeyed L2Advertisement freshWorld.
Proof. split; intros key obj Hobj; cbn in Hobj; now rewrite lookup_empty in Hobj. Qed.

(** X11 at work: the second reconciliation on the fresh world only reads. *)
Lemma ConfigureMetalLB_steady_state_witness :
  let run := metallb.ConfigureMetalLB Sample.bridge freshWorld in
  exists bridge',
    run.1 = Returns (bridge', ctrl.noResult, None)
    /\ metallb.ConfigureMetalLB bridge' run.2 =
       (Returns (bridge', ctrl.noResult, None),
        logCall (ReqGet KindL2Advertisement (l2Key Sample.bridge)) None
          (logCall (ReqGet KindIPAddressPool (poolKey Sample.bridge)) None run.2)).
Proof.
  cbv zeta. eexists. split; [vm_compute; reflexivity|].
  apply (ConfigureMetalLB_steady_state Sample.bridge _ freshWorld _ eq_refl
           (proj1 freshWorld_wellKeyed) (proj2 freshWorld_wellKeyed) eq_refl eq_refl).
  - vm_compute. reflexivity.
  - vm_compute. reflexivity.
Defined.

(** X13 at work: the HostedCluster carries a finalizer; the first call
    asks for its deletion, the second only looks. *)
Lemma deleteResource_deletes_once_witness :
  exists w1,
    hostedcluster.deleteResource HostedCluster (Sample.deleted 0) "HostedCluster"
      (terminatingWorld 100) = (Returns (false, None), w1)
    /\ hostedClusters (store w1) !! ("N", "P") = Some (marked Sample.hostedCluster 100)
    /\ hostedcluster.deleteResource HostedCluster (Sample.deleted 0) "HostedCluster" w1 =
       (Returns (false, None), logCall (ReqGet KindHostedCluster ("N", "P")) None w1).
Proof.
  destruct (proj1 (deleteResource_deletes_once (Sample.deleted 0) (terminatingWorld 100))
              Sample.hostedCluster
              ltac:(split; vm_compute; reflexivity) eq_refl eq_refl eq_refl)
    as (w1 & Hrun & _ & _ & Hwait).
  exists w1. split; [exact Hrun|]. apply Hwait. discriminate.
Defined.

(** The terminating world with an API server that refuses status writes. *)
Definition stuckWorld : World :=
  Sample.world
    (Sample.storeOf (Sample.deleted 0) None None (Some Sample.hostedCluster)
       (Some Sample.nodePool) [])
    (fun r => match r with
              | ReqStatusUpdate _ => Some forbidden
              | _ => None
              end) 100.

(** X14 at work: the refused status write is all that happens. *)
Lemma HandleFinalizerCleanup_early_exits_witness :
  hostedcluster.HandleFinalizerCleanup Sample.durationString (Sample.deleted 0) stuckWorld =
    (Returns (inProgress (Sample.deleted 0) 100, ctrl.noResult, Some forbidden),
     logCall (ReqStatusUpdate (ODPFHCPBridge (inProgress (Sample.deleted 0) 100)))
       (Some forbidden) stuckWorld).
Proof.
  apply (proj1 (HandleFinalizerCleanup_early_exits Sample.durationString (Sample.deleted 0)
                  stuckWorld) forbidden).
  reflexivity.
Defined.

(** The terminating world with an API server that refuses to read
    HostedClusters, and the ssh key of all secrets. *)
Definition guardedWorld : World :=
  Sample.world
    (Sample.storeOf (Sample.deleted 0) None None (Some Sample.hostedCluster) None
       ["P-pull-secret"; "P-ssh-key"; "P-etcd-encryption-key"; "unrelated"])
    (fun r => match r with
              | ReqGet KindHostedCluster _ => Some forbidden
              | ReqGet KindSecret key =>
                  if String.eqb key.2 "P-ssh-key" then Some forbidden else None
              | _ => None
              end) 100.

(** X15 at work: the forbidden read comes back wrapped, with "not gone". *)
Lemma teardown_errors_are_not_not_found_witness :
  let run := hostedcluster.deleteResource HostedCluster (Sample.deleted 0) "HostedCluster"
               guardedWorld in
  run.1 = Returns (false, Some (Wrapped "failed to get HostedCluster: " forbidden))
  /\ apierrors.IsNotFound (Wrapped "failed to get HostedCluster: " forbidden) = false.
Proof.
  cbv zeta. split; [vm_compute; reflexivity|].
  apply (proj1 teardown_errors_are_not_not_found HostedCluster _ (Sample.deleted 0)
           "HostedCluster" guardedWorld
           (hostedcluster.deleteResource HostedCluster (Sample.deleted 0) "HostedCluster"
              guardedWorld).2 false).
  vm_compute. reflexivity.
Defined.

(** The parent marked for deletion, its HostedCluster and NodePool gone,
    one of its secrets left. *)
Definition drainedWorld : World :=
  Sample.world (Sample.storeOf (Sample.deleted 0) None None None None ["P-ssh-key"])
    Sample.noFaults 100.

(** X19 at work: on the drained world one invocation finishes the
    teardown. *)
Lemma teardown_completes_witness :
  exists cr' w' c,
    hostedcluster.HandleFinalizerCleanup Sample.durationString (Sample.deleted 0)
      drainedWorld = (Returns (cr', ctrl.noResult, None), w')
    /\ bridges (store w') !! ("N", "P") = Some cr'
    /\ cleanupCondition cr' = Some c
    /\ Status c = ConditionTrue
    /\ Reason c = "CleanupSucceeded"
    /\ Finalizers (ObjectMeta_ cr') = ["provisioning.dpu.hcp.io/finalizer"].
Proof.
  destruct (teardown_completes Sample.durationString (Sample.deleted 0) (Sample.deleted 0)
              0 drainedWorld
              ltac:(vm_compute; reflexivity) ltac:(vm_compute; reflexivity)
              ltac:(vm_compute; reflexivity) ltac:(vm_compute; reflexivity)
              ltac:(vm_compute; reflexivity) ltac:(vm_compute; discriminate)
              ltac:(split; vm_compute; reflexivity) ltac:(split; vm_compute; reflexivity)
              ltac:(intros key err; split; discriminate)
              ltac:(vm_compute; reflexivity))
    as (w' & c & Hrun & Hstored & Hfind & Hs & Hr & _ & Hfin & _).
  eexists _, w', c. split; [exact Hrun|]. split; [exact Hstored|].
  split; [exact Hfind|]. split; [exact Hs|]. split; [exact Hr | exact Hfin].
Defined.

Lemma guardedWorld_wellKeyed : wellKeyed Secret guardedWorld.
Proof.
  intros key obj Hobj. cbn in Hobj.
  repeat (apply lookup_insert_Some in Hobj as [[<- <-]|[_ Hobj]]; [reflexivity|]).
  now rewrite lookup_empty in Hobj.
Qed.

(** X16 at work: whatever becomes of the parent's secrets, the unrelated
    one stays. *)
Lemma deleteSecrets_scope_witness :
  secrets (store (hostedcluster.deleteSecrets (Sample.deleted 0) guardedWorld).2)
    !! ("N", "unrelated") = Some (Sample.secret "unrelated").
Proof.
  rewrite (proj1 (deleteSecrets_scope (Sample.deleted 0) guardedWorld
                    (hostedcluster.deleteSecrets (Sample.deleted 0) guardedWorld).2
                    (Some (Wrapped "failed to get secret P-ssh-key: " forbidden))
                    guardedWorld_wellKeyed ltac:(vm_compute; reflexivity))
             ("N", "unrelated")).
  - vm_compute. reflexivity.
  - intros [Hin|[Hin|[Hin|[]]]]; vm_compute in Hin; discriminate Hin.
Defined.

(** A secret that carries a finalizer. *)
Definition heldSecret : Secret :=
  {| secret_ObjectMeta := Sample.objectMeta "N" "P-ssh-key" ["example.com/hold"] |}.

Definition heldWorld : World :=
  Sample.world
    {| pools := ∅; l2advertisements := ∅; hostedClusters := ∅; nodePools := ∅;
       secrets := {[ ("N", "P-ssh-key") := heldSecret ]};
       bridges := {[ ("N", "P") := Sample.deleted 0 ]} |}
    Sample.noFaults 100.

(** X17 at work: the held secret is still there when [deleteSecret] has
    returned. *)
Lemma deleteSecret_does_not_wait_witness :
  exists w' left,
    hostedcluster.deleteSecret "N" "P-ssh-key" heldWorld = (Returns None, w')
    /\ secrets (store w') !! ("N", "P-ssh-key") = Some left
    /\ Finalizers (secret_ObjectMeta left) = ["example.com/hold"].
Proof.
  destruct (deleteSecret_does_not_wait "N" "P-ssh-key" heldWorld heldSecret
              ltac:(split; vm_compute; reflexivity) eq_refl ltac:(discriminate) eq_refl)
    as (w' & left & Hrun & _ & Hleft & _ & Hfin).
  exists w', left. split; [exact Hrun|]. split; [exact Hleft | exact Hfin].
Defined.

(** X18 at work: the ssh key cannot be read, so the encryption key is
    never asked for. *)
Lemma deleteSecrets_stops_at_first_failure_witness :
  exists w2,
    hostedcluster.deleteSecrets (Sample.deleted 0) guardedWorld =
      (Returns (Some (Wrapped "failed to get secret P-ssh-key: " forbidden)), w2)
    /\ length (calls w2) = 3%nat.
Proof.
  exists (hostedcluster.deleteSecret "N" "P-ssh-key"
            (hostedcluster.deleteSecretsLoop "N" ["P-pull-secret"] guardedWorld).2).2.
  split; [|vm_compute; reflexivity].
  apply (deleteSecrets_stops_at_first_failure "N" ["P-pull-secret"]
           ["P-etcd-encryption-key"] "P-ssh-key" guardedWorld
           (hostedcluster.deleteSecretsLoop "N" ["P-pull-secret"] guardedWorld).2
           (hostedcluster.deleteSecret "N" "P-ssh-key"
              (hostedcluster.deleteSecretsLoop "N" ["P-pull-secret"] guardedWorld).2).2
           (Wrapped "failed to get secret P-ssh-key: " forbidden)).
  - vm_compute. reflexivity.
  - vm_compute. reflexivity.
Defined.
